(** * kleinboy: the article and tag collection pipeline

    A shallow embedding of [src/kleinboy.ts]: the text extractors over the
    markdown syntax tree, the frontmatter resolver, the article collector and
    the builders of the article and tag registries, followed by the
    properties the specification states about them.

    Conventions of the embedding.
    - A [string] is a JavaScript string; one character stands for one UTF-16
      code unit (units up to 255 are covered).
    - The TypeScript declarations are the data model: an optional field is
      an [option]; a value cast with [as T] is read at type [T].
    - A JavaScript object used as a dictionary is an [Obj.t]: its own
      properties in creation order, enumerated the way [Object.keys] does.
      A dictionary that the program reads or assigns by a computed key also
      meets the members of [Object.prototype]: see [Obj.read] and
      [Obj.put].
    - The host services (markdown parser, YAML/TOML/JSON parsers, [path],
      [localeCompare], [Date.parse]) are parameters, gathered in [Host];
      the file system is a read-only snapshot [FileSystem]; every file
      system call is recorded in a trace. *)

From Stdlib Require Import List String Ascii ZArith NArith Bool Lia Arith.
From Stdlib Require Import Permutation Sorted.
Import ListNotations.
Local Open Scope string_scope.
Local Open Scope list_scope.

Set Implicit Arguments.

(* ------------------------------------------------------------------ *)
(** ** JavaScript strings *)

Module Str.

(** [s.length] *)
Definition len (s : string) : Z := Z.of_nat (String.length s).

(** [xs.join(sep)] *)
Definition join (sep : string) (xs : list string) : string :=
  String.concat sep xs.

(** [s.startsWith(p)] *)
Definition startsWith (p s : string) : bool := String.prefix p s.

(** [s.slice(start, end)]: negative positions count from the end, both
    are clamped to [0 .. s.length]. *)
Definition clamp (n : Z) (p : Z) : Z :=
  if (p <? 0)%Z then Z.max (n + p) 0 else Z.min p n.

Definition slice (s : string) (start stop : Z) : string :=
  let from := clamp (len s) start in
  let to := clamp (len s) stop in
  String.substring (Z.to_nat from) (Z.to_nat (to - from)) s.

(** [s.slice(start)] *)
Definition sliceFrom (s : string) (start : Z) : string :=
  slice s start (len s).

(** The class [\s] of a regular expression, on code units up to 255:
    tab, line feed, vertical tab, form feed, carriage return, space and
    the no-break space. *)
Definition is_space (c : ascii) : bool :=
  match nat_of_ascii c with
  | 9 | 10 | 11 | 12 | 13 | 32 | 160 => true
  | _ => false
  end.

Fixpoint last_char (s : string) : option ascii :=
  match s with
  | EmptyString => None
  | String c EmptyString => Some c
  | String _ r => last_char r
  end.

Fixpoint drop_last (s : string) : string :=
  match s with
  | EmptyString => EmptyString
  | String _ EmptyString => EmptyString
  | String c r => String c (drop_last r)
  end.

(** [s.replace(/(^\s|\s$)/, empty)]. The pattern has no [g] flag, so only
    the leftmost match is replaced: a white-space character at position 0
    when there is one, else a white-space character that ends the
    string. *)
Definition replace_edge_space (s : string) : string :=
  match s with
  | EmptyString => EmptyString
  | String c r =>
      if is_space c then r
      else match last_char s with
           | Some d => if is_space d then drop_last s else s
           | None => s
           end
  end.

Fixpoint skip_spaces (s : string) : string :=
  match s with
  | EmptyString => EmptyString
  | String c r => if is_space c then skip_spaces r else s
  end.

(** [s.replace(/\s+/, " ")]: again without [g]; the leftmost maximal run
    of white space becomes one space. *)
Fixpoint replace_space_run (s : string) : string :=
  match s with
  | EmptyString => EmptyString
  | String c r =>
      if is_space c then String " " (skip_spaces r)
      else String c (replace_space_run r)
  end.

(** [s.endsWith(p)] *)
Definition endsWith (p s : string) : bool :=
  let n := String.length s in
  let k := String.length p in
  (k <=? n)%nat && String.eqb (String.substring (n - k) k s) p.

(** [s.replace(/\.md$/, r)] *)
Definition replace_md_suffix (s r : string) : string :=
  if endsWith ".md" s
  then (String.substring 0 (String.length s - 3) s ++ r)%string
  else s.

End Str.

(* ------------------------------------------------------------------ *)
(** ** JavaScript numbers, as far as a comparator returns them *)

Inductive JsNumber : Type :=
| NaN
| Num (z : Z).

Definition js_neg (x : JsNumber) : JsNumber :=
  match x with NaN => NaN | Num z => Num (- z) end.

Definition js_sub (x y : JsNumber) : JsNumber :=
  match x, y with
  | Num a, Num b => Num (a - b)
  | _, _ => NaN
  end.

(** [x ?? d] *)
Definition coalesce {A : Type} (x : option A) (d : A) : A :=
  match x with Some a => a | None => d end.

(** [x ?? y] where [y] may itself be missing *)
Definition coalesce_opt {A : Type} (x y : option A) : option A :=
  match x with Some a => Some a | None => y end.

(** [x?.f] *)
Definition opt_chain {A B : Type} (x : option A) (f : A -> option B) : option B :=
  match x with Some a => f a | None => None end.

(** [v as string]: mdast gives the nodes concerned a string; a node
    without one is read as carrying the empty string. *)
Definition as_string (v : option string) : string := coalesce v EmptyString.

(* ------------------------------------------------------------------ *)
(** ** [Array.prototype.sort]

    The comparator's result is read as the language prescribes: NaN counts
    as 0. The algorithm is the stable insertion sort (each element moves
    left past the elements that compare greater); on a consistent
    comparator every stable sort returns this very list. *)

Section ArraySort.
Context {A : Type} (comparefn : A -> A -> JsNumber).

(** [comparefn(y, x) > 0] *)
Definition sorts_after (y x : A) : bool :=
  match comparefn y x with
  | Num z => (0 <? z)%Z
  | NaN => false
  end.

(** Insertion into a sorted prefix held in reverse order. *)
Fixpoint insert_back (x : A) (rp : list A) : list A :=
  match rp with
  | [] => [x]
  | y :: r => if sorts_after y x then y :: insert_back x r else x :: rp
  end.

Definition Array_sort (l : list A) : list A :=
  rev (fold_left (fun rp x => insert_back x rp) l []).
End ArraySort.

(* ------------------------------------------------------------------ *)
(** ** Objects used as dictionaries *)

Module Obj.

(** Own properties in creation order. *)
Definition t (A : Type) : Type := list (string * A).

Definition empty {A : Type} : t A := [].

(** The own property [k] of [o]. *)
Fixpoint get {A : Type} (o : t A) (k : string) : option A :=
  match o with
  | [] => None
  | (k', v) :: r => if String.eqb k' k then Some v else get r k
  end.

(** The definition of an own property [k] with value [v], as an object
    literal, a spread or the update of a property the object has does it:
    an existing property keeps its place, a new one is created last. *)
Fixpoint set {A : Type} (o : t A) (k : string) (v : A) : t A :=
  match o with
  | [] => [(k, v)]
  | (k', v') :: r =>
      if String.eqb k' k then (k', v) :: r else (k', v') :: set r k v
  end.

(** The names of the members every object created by [{}] inherits from
    [Object.prototype]. *)
Definition prototype_members : list string :=
  ["constructor"; "__defineGetter__"; "__defineSetter__"; "hasOwnProperty";
   "__lookupGetter__"; "__lookupSetter__"; "isPrototypeOf"; "propertyIsEnumerable";
   "toString"; "valueOf"; "__proto__"; "toLocaleString"].

Definition inherited (k : string) : bool := existsb (String.eqb k) prototype_members.

(** What [o[k]] finds when it is not [undefined]: the value of an own
    property, or the member of [Object.prototype] of that name (a
    function, or [Object.prototype] itself for [__proto__]). *)
Inductive Member (A : Type) : Type :=
| Own (v : A)
| Inherited (member : string).
#[global] Arguments Own {A} v.
#[global] Arguments Inherited {A} member.

(** [o[k]], read through the prototype. *)
Definition read {A : Type} (o : t A) (k : string) : option (Member A) :=
  match get o k with
  | Some v => Some (Own v)
  | None => if inherited k then Some (Inherited k) else None
  end.

(** The assignment [o[k] = v], with [v] an object. An own property is
    updated and a new name becomes an own property, created last; the
    name [__proto__], when the object has no own property of that name,
    reaches the setter of [Object.prototype]: the prototype of [o] is
    replaced and no property is created. The program never reads an
    object by key after such an assignment, so the prototype itself is
    not kept. *)
Definition put {A : Type} (o : t A) (k : string) (v : A) : t A :=
  match get o k with
  | Some _ => set o k v
  | None => if String.eqb k "__proto__" then o else set o k v
  end.

Definition digit (c : ascii) : option N :=
  let n := N_of_ascii c in
  if ((48 <=? n) && (n <=? 57))%N then Some (n - 48)%N else None.

Fixpoint digits (acc : N) (s : string) : option N :=
  match s with
  | EmptyString => Some acc
  | String c r =>
      match digit c with
      | Some d => digits (acc * 10 + d)%N r
      | None => None
      end
  end.

(** A property name that is an array index: the canonical decimal form
    of an integer below [2^32 - 1]. Such names are enumerated first, in
    ascending numeric order. *)
Definition array_index (k : string) : option N :=
  match k with
  | EmptyString => None
  | String c r =>
      if (Ascii.eqb c "0" && negb (String.eqb r EmptyString))%bool then None
      else match digits 0 k with
           | Some n => if (n <? 4294967295)%N then Some n else None
           | None => None
           end
  end.

Definition is_index {A : Type} (p : string * A) : bool :=
  match array_index (fst p) with Some _ => true | None => false end.

Definition index_of {A : Type} (p : string * A) : Z :=
  match array_index (fst p) with Some n => Z.of_N n | None => 0%Z end.

(** The order of [Object.keys], [Object.values] and of a spread. *)
Definition entries {A : Type} (o : t A) : list (string * A) :=
  Array_sort (fun p q => Num (index_of p - index_of q)) (filter is_index o)
    ++ filter (fun p => negb (is_index p)) o.

Definition keys {A : Type} (o : t A) : list string := map fst (entries o).
Definition values {A : Type} (o : t A) : list A := map snd (entries o).

(** [{...target, ...source}], [Object.assign(target, source)] *)
Definition assign {A : Type} (target source : t A) : t A :=
  fold_left (fun o p => set o (fst p) (snd p)) (entries source) target.

End Obj.

(* ------------------------------------------------------------------ *)
(** ** Data model ([src/types.ts] and the declarations of kleinboy.ts) *)

(** A value of type [any]: what a JSON, YAML or TOML document holds. *)
#[local] Unset Elimination Schemes.
Inductive Json : Type :=
| JNull
| JBool (b : bool)
| JNum (n : Z)
| JStr (s : string)
| JArr (xs : list Json)
| JObj (o : list (string * Json)).
#[local] Set Elimination Schemes.

Record Config : Type := {
  untitled : option string;
  dumpArticleMetadata : option bool;
  dumpArticleAST : option bool;
  dumpArticleHTML : option bool;
  dumpTagMetadata : option bool
}.

(** [if (flag)] on an optional boolean *)
Definition truthy (flag : option bool) : bool := coalesce flag false.

Record KleinboyFrontMatter : Type := {
  kb_status : option string;
  kb_title : option string;
  kb_description : option string;
  kb_images : option (list string);
  kb_published_time : option string;
  kb_modified_time : option string
}.

(** [FrontMatter]: the declared optional fields, and [fm_rest] for the
    index signature [[k: string]: any]. *)
Record FrontMatter : Type := {
  fm_layout : option string;
  fm_published : option bool;
  fm_date : option string;
  fm_category : option string;
  fm_categories : option (list string);
  fm_tags : option (list string);
  fm_x_kleinboy : option KleinboyFrontMatter;
  fm_rest : Obj.t Json
}.

(** The object literal [{}] at type [FrontMatter]. *)
Definition empty_frontmatter : FrontMatter :=
  {| fm_layout := None; fm_published := None; fm_date := None;
     fm_category := None; fm_categories := None; fm_tags := None;
     fm_x_kleinboy := None; fm_rest := Obj.empty |}.

Record ArticleMetadata : Type := {
  am_path : string;
  am_sourceType : option string;
  am_sourcePath : option string;
  am_title : string;
  am_description : option string;
  am_tags : option (list string);
  am_images : option (list string);
  am_status : option string;
  am_published_time : option string;
  am_modified_time : option string
}.

Record ArticleIndex : Type := {
  ai_path : string;
  ai_status : option string;
  ai_published_time : option string
}.

Definition makeArticleIndex (a : ArticleMetadata) : ArticleIndex :=
  {| ai_path := am_path a;
     ai_status := am_status a;
     ai_published_time := am_published_time a |}.

Record ArticleRegistry : Type := {
  articles : Obj.t ArticleMetadata;
  orderedArticles : list ArticleIndex
}.

Record TagMetadata : Type := {
  tm_key : string;
  tm_title : string;
  tm_article : option ArticleMetadata
}.

Record TagRegistry : Type := {
  tags : Obj.t TagMetadata;
  tagToArticles : Obj.t (Obj.t ArticleIndex)
}.

(** A node of the syntax tree (unist): [type] always, [value], [url] and
    [children] when the node has them. [value] is [Some] when
    [typeof node.value === "string"], [children] when
    ["children" in node && typeof node.children === "object"]. *)
#[local] Unset Elimination Schemes.
Inductive Node : Type :=
  mkNode {
    type : string;
    value : option string;
    url : option string;
    children : option (list Node)
  }.
#[local] Set Elimination Schemes.

(** [names.includes(s)] *)
Definition includes (names : list string) (s : string) : bool :=
  existsb (String.eqb s) names.

(* ------------------------------------------------------------------ *)
(** ** AST text extractor *)

Fixpoint findTexts (visitor : option (Node -> bool)) (node : Node) : list string :=
  let accepted :=
    match visitor with
    | Some v => v node
    | None => true
    end in
  if negb accepted then []
  else
    match includes ["text"; "inlineCode"] (type node), value node with
    | true, Some v => [v]
    | _, _ =>
        match children node with
        | Some cs =>
            (fix each (l : list Node) (result : list string) : list string :=
               match l with
               | [] => result
               | child :: r => each r (result ++ findTexts visitor child)
               end) cs []
        | None =>
            if includes ["code"; "image"] (type node) then ["..."] else []
        end
    end.

Fixpoint extractTitle (node : Node) : option string :=
  if String.eqb (type node) "heading"
  then Some (Str.join " " (findTexts None node))
  else
    match children node with
    | Some cs =>
        (fix each (l : list Node) : option string :=
           match l with
           | [] => None
           | child :: r =>
               match extractTitle child with
               | Some title => Some title
               | None => each r
               end
           end) cs
    | None => None
    end.

(** The options of [extractDescription]; [maxLength] is an integer. *)
Record DescriptionOptions : Type := {
  maxLength : option Z;
  ellipsis : option string
}.

(** The visitor of [extractDescription]: headings are pruned. *)
Definition not_heading (node : Node) : bool :=
  if String.eqb (type node) "heading" then false else true.

(** The constant [source] of [extractDescription]. *)
Definition description_source (node : Node) : string :=
  let texts := findTexts (Some not_heading) node in
  Str.replace_space_run (Str.replace_edge_space (Str.join " " texts)).

Definition extractDescription (node : Node) (options : option DescriptionOptions) : string :=
  let maxLength := coalesce (opt_chain options maxLength) 200%Z in
  let ellipsis := coalesce (opt_chain options ellipsis) "..." in
  let source := description_source node in
  if (Str.len source <=? maxLength)%Z then source
  else (Str.slice source 0 (maxLength - Str.len ellipsis) ++ ellipsis)%string.

Fixpoint extractImages (node : Node) : list string :=
  if String.eqb (type node) "image" then [as_string (url node)]
  else
    match children node with
    | Some cs =>
        (fix each (l : list Node) (images : list string) : list string :=
           match l with
           | [] => images
           | child :: r => each r (images ++ extractImages child)
           end) cs []
    | None => []
    end.

(* ------------------------------------------------------------------ *)
(** ** Effects: exceptions and the trace of file system calls *)

Inductive Exn : Type :=
| Error (message : string)              (* [new Error(message)] *)
| SyntaxError (source : string)         (* raised by a format parser *)
| SystemError (syscall path : string).  (* raised by [fs] *)

Inductive Result (A : Type) : Type :=
| Ok (a : A)
| Throw (e : Exn).
Arguments Ok {A} a.
Arguments Throw {A} e.

(** What is handed to [fs.writeFile]: the serialisation of a value. *)
Inductive Payload : Type :=
| AstJson (ast : Node)                  (* [JSON.stringify(markdownAST)] *)
| Html (ast : Node)                     (* [processor.stringify(await processor.run(markdownAST))] *)
| ArticlesJson (r : ArticleRegistry)    (* [JSON.stringify(articles)] *)
| TagsJson (r : TagRegistry).           (* [JSON.stringify(tags)] *)

Inductive FsOp : Type :=
| Exists (path : string)
| ReadFile (path : string)
| Glob (pattern : string)
| Mkdir (path : string)
| WriteFile (path : string) (data : Payload).

(** An asynchronous computation: its outcome and the calls it issued. *)
Definition M (A : Type) : Type := (Result A * list FsOp)%type.

Definition ret {A : Type} (a : A) : M A := (Ok a, []).

Definition throw {A : Type} (e : Exn) : M A := (Throw e, []).

Definition bind {A B : Type} (m : M A) (f : A -> M B) : M B :=
  match m with
  | (Ok a, t) => let (r, t') := f a in (r, t ++ t')
  | (Throw e, t) => (Throw e, t)
  end.

(** A synchronous call that may throw. *)
Definition lift {A : Type} (r : Result A) : M A := (r, []).

Declare Scope js_scope.
Delimit Scope js_scope with js.
Notation "x <- m ;; k" := (bind m (fun x => k))
  (at level 61, m at next level, right associativity) : js_scope.
Notation "m ;;; k" := (bind m (fun _ => k))
  (at level 61, right associativity) : js_scope.
Local Open Scope js_scope.

(** [if (c) { body }] *)
Definition when (c : bool) (body : M unit) : M unit :=
  if c then body else ret tt.

(** [for (const x of xs) { acc = body(acc, x) }] *)
Fixpoint for_of {A B : Type} (xs : list A) (body : B -> A -> M B) (acc : B) : M B :=
  match xs with
  | [] => ret acc
  | x :: r => acc' <- body acc x ;; for_of r body acc'
  end.

(** The value and the trace of a computation. *)
Definition outcome {A : Type} (m : M A) : Result A := fst m.
Definition trace {A : Type} (m : M A) : list FsOp := snd m.

(* ------------------------------------------------------------------ *)
(** ** Host services and the file system *)

(** A format parser returns [None] when it raises a syntax error, else the
    parsed document, which is [None] for [undefined] or [null]. *)
Definition Parser : Type := string -> option (option FrontMatter).

Record Host : Type := {
  processor_parse : string -> Node;             (* [processor.parse] *)
  yaml_safeLoad : Parser;
  toml_parse : Parser;
  JSON_parse : Parser;
  path_join : list string -> string;
  path_dirname : string -> string;
  path_sep : string;
  localeCompare : string -> string -> Z;        (* [a.localeCompare(b)] *)
  Date_parse : string -> JsNumber               (* milliseconds, or NaN *)
}.

Record FileSystem : Type := {
  fs_exists : string -> bool;
  fs_readFile : string -> option string;        (* [None]: the read fails *)
  fs_glob : string -> list string;
  fs_mkdir : string -> bool;                    (* [false]: the call fails *)
  fs_writeFile : string -> bool                 (* [false]: the call fails *)
}.

Section Pipeline.
Context (host : Host) (fs : FileSystem).

Definition exists_ (p : string) : M bool :=
  (Ok (fs_exists fs p), [Exists p]).

Definition readFile (p : string) : M string :=
  (match fs_readFile fs p with
   | Some s => Ok s
   | None => Throw (SystemError "open" p)
   end, [ReadFile p]).

Definition glob (pattern : string) : M (list string) :=
  (Ok (fs_glob fs pattern), [Glob pattern]).

Definition mkdir (p : string) : M unit :=
  (if fs_mkdir fs p then Ok tt else Throw (SystemError "mkdir" p), [Mkdir p]).

(** [await promisify(fs.writeFile)(p, data, "utf-8")] *)
Definition writeFile (p : string) (data : Payload) : M unit :=
  (if fs_writeFile fs p then Ok tt else Throw (SystemError "open" p),
   [WriteFile p data]).

(** [promisify(fs.writeFile)(p, data, "utf-8")] without [await]: the
    write is issued, its failure is not seen by the caller. *)
Definition writeFile_detached (p : string) (data : Payload) : M unit :=
  (Ok tt, [WriteFile p data]).

Definition parsed (source : string) (r : option (option FrontMatter))
  : Result (option FrontMatter) :=
  match r with
  | Some v => Ok v
  | None => Throw (SyntaxError source)
  end.

Fixpoint extractFrontmatter (node : Node) : Result (option FrontMatter) :=
  if includes ["yaml"; "toml"] (type node) then
    if String.eqb (type node) "toml"
    then parsed (as_string (value node)) (toml_parse host (as_string (value node)))
    else parsed (as_string (value node)) (yaml_safeLoad host (as_string (value node)))
  else
    match children node with
    | Some cs =>
        (fix each (l : list Node) : Result (option FrontMatter) :=
           match l with
           | [] => Ok None
           | child :: r =>
               match extractFrontmatter child with
               | Ok (Some frontmatter) => Ok (Some frontmatter)
               | Ok None => each r
               | Throw e => Throw e
               end
           end) cs
    | None => Ok None
    end.

Fixpoint probe_metadata (markdownPath : string) (exts : list string)
  : M (option FrontMatter) :=
  match exts with
  | [] => ret None
  | metadataExt :: r =>
      let metadataPath := Str.replace_md_suffix markdownPath (".blog" ++ metadataExt)%string in
      found <- exists_ metadataPath ;;
      if found : bool then
        metadataString <- readFile metadataPath ;;
        if String.eqb metadataExt ".json"
        then lift (parsed metadataString (JSON_parse host metadataString))
        else if String.eqb metadataExt ".toml"
        then lift (parsed metadataString (toml_parse host metadataString))
        else lift (parsed metadataString (yaml_safeLoad host metadataString))
      else probe_metadata markdownPath r
  end.

Definition findMetadataFrontmatter (markdownPath : string) : M (option FrontMatter) :=
  probe_metadata markdownPath [".json"; ".yml"; ".yaml"; ".toml"].

(** [{...target, ...source}] at type [FrontMatter]: every property of
    [source] is written over [target]. *)
Definition spread (target : FrontMatter) (source : option FrontMatter) : FrontMatter :=
  match source with
  | None => target
  | Some s =>
      {| fm_layout := coalesce_opt (fm_layout s) (fm_layout target);
         fm_published := coalesce_opt (fm_published s) (fm_published target);
         fm_date := coalesce_opt (fm_date s) (fm_date target);
         fm_category := coalesce_opt (fm_category s) (fm_category target);
         fm_categories := coalesce_opt (fm_categories s) (fm_categories target);
         fm_tags := coalesce_opt (fm_tags s) (fm_tags target);
         fm_x_kleinboy := coalesce_opt (fm_x_kleinboy s) (fm_x_kleinboy target);
         fm_rest := Obj.assign (fm_rest target) (fm_rest s) |}
  end.

(** The constant [frontmatter] of [collectArticle]. *)
Definition mergeFrontmatter (markdownFrontmatter metadataFrontmatter : option FrontMatter)
  : FrontMatter :=
  if match metadataFrontmatter with Some _ => true | None => false end
     || match markdownFrontmatter with Some _ => true | None => false end
  then spread (spread empty_frontmatter markdownFrontmatter) metadataFrontmatter
  else coalesce (coalesce_opt metadataFrontmatter markdownFrontmatter) empty_frontmatter.

Definition collectArticle (markdownPath articlePath : string) (config : Config)
  : M ArticleMetadata :=
  let untitled := coalesce (untitled config) "(Untitled)" in
  markdownString <- readFile markdownPath ;;
  let markdownAST := processor_parse host markdownString in
  markdownFrontmatter <- lift (extractFrontmatter markdownAST) ;;
  metadataFrontmatter <- findMetadataFrontmatter markdownPath ;;
  let frontmatter := mergeFrontmatter markdownFrontmatter metadataFrontmatter in
  let title :=
    coalesce (opt_chain (fm_x_kleinboy frontmatter) kb_title)
      (coalesce (extractTitle markdownAST) untitled) in
  let description :=
    coalesce (opt_chain (fm_x_kleinboy frontmatter) kb_description)
      (extractDescription markdownAST None) in
  let images :=
    coalesce (opt_chain (fm_x_kleinboy frontmatter) kb_images)
      (extractImages markdownAST) in
  let status := opt_chain (fm_x_kleinboy frontmatter) kb_status in
  let articleMetadata :=
    {| am_path := articlePath;
       am_sourceType := Some "markdown";
       am_sourcePath := Some markdownPath;
       am_title := title;
       am_description := Some description;
       am_tags := fm_tags frontmatter;
       am_images := Some images;
       am_status := status;
       am_published_time :=
         coalesce_opt (opt_chain (fm_x_kleinboy frontmatter) kb_published_time)
           (fm_date frontmatter);
       am_modified_time :=
         coalesce_opt (opt_chain (fm_x_kleinboy frontmatter) kb_modified_time)
           (fm_date frontmatter) |} in
  when (truthy (dumpArticleAST config))
    (let astPath := path_join host ["generated"; "ast"; (am_path articleMetadata ++ ".json")%string] in
     mkdir (path_dirname host astPath) ;;;
     writeFile_detached astPath (AstJson markdownAST)) ;;;
  when (truthy (dumpArticleHTML config))
    (let htmlPath := path_join host ["generated"; "html"; (am_path articleMetadata ++ ".html")%string] in
     mkdir (path_dirname host htmlPath) ;;;
     writeFile_detached htmlPath (Html markdownAST)) ;;;
  ret articleMetadata.

(** The comparator handed to [orderedArticles.sort]. *)
Definition compareArticles (a b : ArticleIndex) : JsNumber :=
  match ai_published_time a, ai_published_time b with
  | None, None => js_neg (Num (localeCompare host (ai_path a) (ai_path b)))
  | None, Some _ => Num (-1)
  | Some _, None => Num 1
  | Some ta, Some tb => js_neg (js_sub (Date_parse host ta) (Date_parse host tb))
  end.

(** The second half of [collectArticles]: every collected article is
    projected and the projections are sorted. *)
Definition orderArticles (result : Obj.t ArticleMetadata) : list ArticleIndex :=
  Array_sort compareArticles (map makeArticleIndex (Obj.values result)).

Definition collectArticles (config : Config) : M ArticleRegistry :=
  let articlesDir := "articles" in
  found <- exists_ articlesDir ;;
  if negb found then throw (Error "articles doesn't exist")
  else
    markdownPaths <- glob (path_join host [articlesDir; "**"; "*.md"]) ;;
    result <- for_of markdownPaths
      (fun result markdownPath =>
         let articlePath := Str.replace_md_suffix markdownPath EmptyString in
         let articlePath :=
           if Str.startsWith (articlesDir ++ path_sep host)%string articlePath
           then Str.sliceFrom articlePath (Str.len (articlesDir ++ path_sep host)%string)
           else articlePath in
         articleMetadata <- collectArticle markdownPath articlePath config ;;
         ret (Obj.put result (am_path articleMetadata) articleMetadata))
      Obj.empty ;;
    ret {| articles := result; orderedArticles := orderArticles result |}.

(** [getOrPrepare(m, k, ifNone)]. [m[k]] is read through the prototype:
    for a name the dictionary only inherits it is not [null], so nothing
    is prepared or stored and the inherited member is returned. *)
Definition getOrPrepare {T : Type} (m : Obj.t T) (k : string) (ifNone : string -> T)
  : Obj.Member T * Obj.t T :=
  match Obj.read m k with
  | Some v => (v, m)
  | None => let v := ifNone k in (Obj.Own v, Obj.put m k v)
  end.

(** [getOrPrepare(m, k1, () => ({}))[k2] = value]. The inner object is
    the one stored under [m[k1]], so the assignment shows there. When
    [k1] is only inherited, the assignment is made on that member of
    [Object.prototype], an object the dictionary does not hold: the
    dictionary stays as it is. What the assignment does to the member,
    and through [Object.prototype] to later reads of other objects, is
    not followed here. *)
Definition register {T : Type} (m : Obj.t (Obj.t T)) (k1 k2 : string) (value : T)
  : Obj.t (Obj.t T) :=
  let (target, m') := getOrPrepare m k1 (fun _ => Obj.empty) in
  match target with
  | Obj.Own inner => Obj.set m' k1 (Obj.put inner k2 value)
  | Obj.Inherited _ => m'
  end.

(** The first loop of [collectTags]. *)
Definition indexTags (articles : Obj.t ArticleMetadata) : Obj.t (Obj.t ArticleIndex) :=
  fold_left
    (fun m article =>
       match am_tags article with
       | None => m
       | Some ts =>
           fold_left
             (fun m tag => register m tag (am_path article) (makeArticleIndex article))
             ts m
       end)
    (Obj.values articles) Obj.empty.

Definition collectTags (registry : ArticleRegistry) (config : Config) : M TagRegistry :=
  let tagToArticleIndicesMap := indexTags (articles registry) in
  let tagsDir := "tags" in
  tags <- for_of (Obj.keys tagToArticleIndicesMap)
    (fun tags key =>
       let markdownPath := path_join host [tagsDir; (key ++ ".md")%string] in
       found <- exists_ markdownPath ;;
       if found : bool then
         let articlePath := path_join host [tagsDir; key] in
         article <- collectArticle markdownPath articlePath config ;;
         ret (Obj.put tags key
                {| tm_key := key;
                   tm_title := coalesce (Some (am_title article)) key;
                   tm_article := Some article |})
       else
         ret (Obj.put tags key
                {| tm_key := key; tm_title := key; tm_article := None |}))
    Obj.empty ;;
  ret {| tags := tags; tagToArticles := tagToArticleIndicesMap |}.

Definition execute (config : Config) : M unit :=
  articles <- collectArticles config ;;
  tags <- collectTags articles config ;;
  when (truthy (dumpArticleMetadata config))
    (mkdir (path_join host ["generated"]) ;;;
     writeFile (path_join host ["generated"; "articles.json"]) (ArticlesJson articles)) ;;;
  when (truthy (dumpTagMetadata config))
    (mkdir (path_join host ["generated"]) ;;;
     writeFile (path_join host ["generated"; "tags.json"]) (TagsJson tags)).

End Pipeline.

(* ------------------------------------------------------------------ *)
(** ** A sample host and sample sites, for the worked examples *)

Module Sample.

Definition text (s : string) : Node :=
  {| type := "text"; value := Some s; url := None; children := None |}.

Definition inlineCode (s : string) : Node :=
  {| type := "inlineCode"; value := Some s; url := None; children := None |}.

Definition code (s : string) : Node :=
  {| type := "code"; value := Some s; url := None; children := None |}.

Definition image (u : string) : Node :=
  {| type := "image"; value := None; url := Some u; children := None |}.

Definition html (s : string) : Node :=
  {| type := "html"; value := Some s; url := None; children := None |}.

Definition yaml (s : string) : Node :=
  {| type := "yaml"; value := Some s; url := None; children := None |}.

Definition parent (kind : string) (cs : list Node) : Node :=
  {| type := kind; value := None; url := None; children := Some cs |}.

Definition heading := parent "heading".
Definition paragraph := parent "paragraph".
Definition root := parent "root".

(** Days from 1970-01-01 to a date of the proleptic Gregorian calendar. *)
Definition days_from_civil (y m d : Z) : Z :=
  let y' := if (m <=? 2)%Z then (y - 1)%Z else y in
  let era := (y' / 400)%Z in
  let yoe := (y' - era * 400)%Z in
  let mp := ((m + 9) mod 12)%Z in
  let doy := ((153 * mp + 2) / 5 + d - 1)%Z in
  let doe := (yoe * 365 + yoe / 4 - yoe / 100 + doy)%Z in
  (era * 146097 + doe - 719468)%Z.

Definition number (s : string) : option Z :=
  match s with
  | EmptyString => None
  | _ => option_map Z.of_N (Obj.digits 0 s)
  end.

(** [Date.parse] on the date-only form [YYYY-MM-DD] (read as UTC); every
    other string is taken to be no date. *)
Definition date_parse (s : string) : JsNumber :=
  if ((String.length s =? 10)%nat
      && String.eqb (String.substring 4 1 s) "-"
      && String.eqb (String.substring 7 1 s) "-")%bool
  then
    match number (String.substring 0 4 s),
          number (String.substring 5 2 s),
          number (String.substring 8 2 s) with
    | Some y, Some m, Some d =>
        if ((1 <=? m) && (m <=? 12) && (1 <=? d) && (d <=? 31))%Z
        then Num (days_from_civil y m d * 86400000)
        else NaN
    | _, _, _ => NaN
    end
  else NaN.

(** Comparison by code units, which is how [localeCompare] orders the
    lower-case ASCII names used below. *)
Definition locale_compare (a b : string) : Z :=
  match String.compare a b with
  | Lt => (-1)%Z
  | Eq => 0%Z
  | Gt => 1%Z
  end.

(** [path.join] on segments that need no normalisation. *)
Definition join_segments (segments : list string) : string :=
  String.concat "/" segments.

(** [path.dirname]: the path up to its last separator. *)
Fixpoint dirname_from (acc cur s : string) : string :=
  match s with
  | EmptyString => acc
  | String c r =>
      if Ascii.eqb c "/"
      then dirname_from cur (cur ++ String c EmptyString) r
      else dirname_from acc (cur ++ String c EmptyString) r
  end.

Definition dirname (s : string) : string :=
  match dirname_from EmptyString EmptyString s with
  | EmptyString => "."
  | d => d
  end.

Definition lookup {A : Type} (table : list (string * A)) (k : string) : option A :=
  Obj.get table k.

(** A host whose parsers know the texts of the two tables: the markdown
    parser answers an empty root for any other text, a format parser
    raises its syntax error. *)
Definition host (documents : list (string * Node))
    (frontmatters : list (string * option FrontMatter)) : Host :=
  {| processor_parse := fun s => coalesce (lookup documents s) (root []);
     yaml_safeLoad := lookup frontmatters;
     toml_parse := lookup frontmatters;
     JSON_parse := lookup frontmatters;
     path_join := join_segments;
     path_dirname := dirname;
     path_sep := "/";
     localeCompare := locale_compare;
     Date_parse := date_parse |}.

(** A file system given by its files; directories are the listed ones. *)
Definition files (dirs : list string) (content : list (string * string))
    (md : list string) : FileSystem :=
  {| fs_exists := fun p =>
       includes dirs p
       || match lookup content p with Some _ => true | None => false end;
     fs_readFile := lookup content;
     fs_glob := fun _ => md;
     fs_mkdir := fun _ => true;
     fs_writeFile := fun _ => true |}.

Definition config : Config :=
  {| untitled := None;
     dumpArticleMetadata := Some true;
     dumpArticleAST := Some false;
     dumpArticleHTML := Some false;
     dumpTagMetadata := Some true |}.

Definition article (p : string) (published : option string) (ts : option (list string))
  : ArticleMetadata :=
  {| am_path := p; am_sourceType := Some "markdown"; am_sourcePath := None;
     am_title := p; am_description := None; am_tags := ts; am_images := None;
     am_status := None; am_published_time := published;
     am_modified_time := None |}.

(** [result[a.path] = a] for each article in turn. *)
Definition registry_of (l : list ArticleMetadata) : Obj.t ArticleMetadata :=
  fold_left (fun o a => Obj.set o (am_path a) a) l Obj.empty.

End Sample.

(* ------------------------------------------------------------------ *)
(** ** Vocabulary of the statements *)

(** Every node of a tree, in document order. *)
Fixpoint subnodes (node : Node) : list Node :=
  node :: match children node with
          | Some cs => flat_map subnodes cs
          | None => []
          end.

(** [visitor(node)], when there is a visitor. *)
Definition accepts (visitor : option (Node -> bool)) (node : Node) : bool :=
  match visitor with
  | Some v => v node
  | None => true
  end.

Definition is_heading (node : Node) : bool := String.eqb (type node) "heading".

Section NodeInduction.
Variable P : Node -> Prop.
Hypothesis leaf : forall t v u, P (mkNode t v u None).
Hypothesis inner : forall t v u cs, Forall P cs -> P (mkNode t v u (Some cs)).

Fixpoint Node_ind (node : Node) : P node :=
  match node with
  | mkNode t v u None => leaf t v u
  | mkNode t v u (Some cs) =>
      inner t v u
        ((fix all (l : list Node) : Forall P l :=
            match l with
            | [] => Forall_nil P
            | c :: r => Forall_cons c (Node_ind c) (all r)
            end) cs)
  end.
End NodeInduction.


(** *** The description, as the specification words it

    The texts are joined with spaces, every run of white space becomes one
    space, and white space at both ends is removed. *)

Fixpoint collapse_spaces (in_run : bool) (s : string) : string :=
  match s with
  | EmptyString => EmptyString
  | String c r =>
      if Str.is_space c
      then if in_run then collapse_spaces true r
           else String " " (collapse_spaces true r)
      else String c (collapse_spaces false r)
  end.

Fixpoint trim_end (s : string) : string :=
  match s with
  | EmptyString => EmptyString
  | String c r =>
      match trim_end r with
      | EmptyString => if Str.is_space c then EmptyString else String c EmptyString
      | r' => String c r'
      end
  end.

Definition trim (s : string) : string := trim_end (Str.skip_spaces s).

Definition spec_description_source (node : Node) : string :=
  trim (collapse_spaces false (Str.join " " (findTexts (Some not_heading) node))).

(** The options [extractDescription] works with. *)
Definition maxLength_of (options : option DescriptionOptions) : Z :=
  coalesce (opt_chain options maxLength) 200%Z.

Definition ellipsis_of (options : option DescriptionOptions) : string :=
  coalesce (opt_chain options ellipsis) "...".

(** An object whose property names are distinct, as every object is. *)
Definition well_formed {A : Type} (o : Obj.t A) : Prop := NoDup (map fst o).

(** [frontmatter?.[k]] among the undeclared properties. *)
Definition rest_of (frontmatter : option FrontMatter) (k : string) : option Json :=
  opt_chain frontmatter (fun f => Obj.get (fm_rest f) k).

Module Examples.
Import Sample.

Definition nl : string := String (ascii_of_nat 10) EmptyString.

(** A paragraph written on three lines. *)
Definition three_lines : Node :=
  root [paragraph [text ("one" ++ nl ++ "two" ++ nl ++ "three")%string]].

Definition eight_letters : Node := root [paragraph [text "abcdefgh"]].

Definition two_characters : option DescriptionOptions :=
  Some {| maxLength := Some 2%Z; ellipsis := None |}.

Definition five_characters : option DescriptionOptions :=
  Some {| maxLength := Some 5%Z; ellipsis := None |}.

(** A frontmatter that holds the one property [title]. *)
Definition titled (s : string) : FrontMatter :=
  {| fm_layout := None; fm_published := None; fm_date := None;
     fm_category := None; fm_categories := None; fm_tags := None;
     fm_x_kleinboy := None; fm_rest := [("title", JStr s)] |}.

(** *** Sample pages, as the parsers read them *)

Definition lines (l : list string) : string := String.concat nl l.

Definition plain : FrontMatter := empty_frontmatter.

Definition dated (d : string) : FrontMatter :=
  {| fm_layout := None; fm_published := None; fm_date := Some d;
     fm_category := None; fm_categories := None; fm_tags := None;
     fm_x_kleinboy := None; fm_rest := Obj.empty |}.

Definition tagged (ts : list string) : FrontMatter :=
  {| fm_layout := None; fm_published := None; fm_date := None;
     fm_category := None; fm_categories := None; fm_tags := Some ts;
     fm_x_kleinboy := None; fm_rest := Obj.empty |}.

Definition entitled (s : string) : FrontMatter :=
  {| fm_layout := None; fm_published := None; fm_date := None;
     fm_category := None; fm_categories := None; fm_tags := None;
     fm_x_kleinboy :=
       Some {| kb_status := None; kb_title := Some s; kb_description := None;
               kb_images := None; kb_published_time := None;
               kb_modified_time := None |};
     fm_rest := Obj.empty |}.

(** A page that is a YAML block followed by a body. *)
Definition page (block : list string) (body : list string) : string :=
  lines (["---"] ++ block ++ ["---"] ++ body).

Definition date_block (d : string) : list string := [("date: '" ++ d ++ "'")%string].
Definition title_block (s : string) : list string :=
  ["x-kleinboy:"; ("  title: " ++ s)%string].
Definition tags_block : list string := ["tags: [go]"].

Definition documents : list (string * Node) :=
  [ (page (date_block "2020-01-01") [], root [yaml (lines (date_block "2020-01-01"))]);
    (page (date_block "2021-01-01") [], root [yaml (lines (date_block "2021-01-01"))]);
    (page (date_block "soon") [], root [yaml (lines (date_block "soon"))]);
    (page (title_block "C") ["# D"],
      root [yaml (lines (title_block "C")); heading [text "D"]]);
    (page tags_block ["# First post"],
      root [yaml (lines tags_block); heading [text "First post"]]);
    ("# Go Lang", root [heading [text "Go Lang"]]);
    ("# A", root [heading [text "A"]]);
    ("Notes on the language.", root [paragraph [text "Notes on the language."]]);
    ("A draft.", root [paragraph [text "A draft."]]) ].

Definition frontmatters : list (string * option FrontMatter) :=
  [ (lines (date_block "2020-01-01"), Some (dated "2020-01-01"));
    (lines (date_block "2021-01-01"), Some (dated "2021-01-01"));
    (lines (date_block "soon"), Some (dated "soon"));
    (lines (title_block "C"), Some (entitled "C"));
    (lines tags_block, Some (tagged ["go"])) ].

Definition host : Host := Sample.host documents frontmatters.

(** A site of one article, whose namespace gives the title "C" and whose
    text has the heading "D". *)
Definition site_c : FileSystem :=
  files ["articles"]
    [("articles/c.md", page (title_block "C") ["# D"])]
    ["articles/c.md"].


(** Three articles: the first without a date, then 2020 and 2021. *)
Definition site_dates : FileSystem :=
  files ["articles"]
    [("articles/a.md", "A draft.");
     ("articles/b.md", page (date_block "2020-01-01") []);
     ("articles/c.md", page (date_block "2021-01-01") [])]
    ["articles/a.md"; "articles/b.md"; "articles/c.md"].

(** Three dated articles, the second with a date that is none. *)
Definition site_soon : FileSystem :=
  files ["articles"]
    [("articles/a.md", page (date_block "2020-01-01") []);
     ("articles/b.md", page (date_block "soon") []);
     ("articles/c.md", page (date_block "2021-01-01") [])]
    ["articles/a.md"; "articles/b.md"; "articles/c.md"].

(** The three articles of the specification's example. *)
Definition three_articles : Obj.t ArticleMetadata :=
  registry_of [article "a" None None;
               article "b" (Some "2020-01-01") None;
               article "c" (Some "2021-01-01") None].


(** One tagged article, and the page of its tag. *)
Definition site_go : FileSystem :=
  files ["articles"; "tags"]
    [("articles/p1.md", page tags_block ["# First post"]);
     ("tags/go.md", "# Go Lang")]
    ["articles/p1.md"].

(** The same article, with a tag page that has no heading. *)
Definition site_notes : FileSystem :=
  files ["articles"; "tags"]
    [("articles/p1.md", page tags_block ["# First post"]);
     ("tags/go.md", "Notes on the language.")]
    ["articles/p1.md"].


(** An article whose sidecar is not a JSON document. *)
Definition site_broken : FileSystem :=
  files ["articles"]
    [("articles/a.md", "# A"); ("articles/a.blog.json", "{")]
    ["articles/a.md"].


End Examples.

Definition well_formed_rest (frontmatter : option FrontMatter) : Prop :=
  match frontmatter with
  | Some f => well_formed (fm_rest f)
  | None => True
  end.

(** *** The article collector *)

(** What [collectArticle] gathers for a markdown file: the syntax tree of
    its text and the merged frontmatter. *)
Definition reads (host : Host) (fs : FileSystem) (markdownPath : string)
    (markdownAST : Node) (frontmatter : FrontMatter) : Prop :=
  exists markdownString markdownFrontmatter metadataFrontmatter,
    fs_readFile fs markdownPath = Some markdownString
    /\ markdownAST = processor_parse host markdownString
    /\ extractFrontmatter host markdownAST = Ok markdownFrontmatter
    /\ outcome (findMetadataFrontmatter host fs markdownPath) = Ok metadataFrontmatter
    /\ frontmatter = mergeFrontmatter markdownFrontmatter metadataFrontmatter.

(** The directories of the debug dumps can be created. *)
Definition dumps_succeed (host : Host) (fs : FileSystem) (config : Config)
    (articlePath : string) : Prop :=
  (truthy (dumpArticleAST config) = true ->
   fs_mkdir fs (path_dirname host
                  (path_join host ["generated"; "ast"; (articlePath ++ ".json")%string]))
   = true)
  /\ (truthy (dumpArticleHTML config) = true ->
      fs_mkdir fs (path_dirname host
                     (path_join host ["generated"; "html"; (articlePath ++ ".html")%string]))
      = true).

(** [frontmatter["x-kleinboy"]?.field] *)
Definition namespace {A : Type} (frontmatter : FrontMatter)
    (field : KleinboyFrontMatter -> option A) : option A :=
  opt_chain (fm_x_kleinboy frontmatter) field.

(** The record [collectArticle] assembles from what it gathered. *)
Definition assembled (markdownPath articlePath : string) (config : Config)
    (markdownAST : Node) (frontmatter : FrontMatter) : ArticleMetadata :=
  {| am_path := articlePath;
     am_sourceType := Some "markdown";
     am_sourcePath := Some markdownPath;
     am_title :=
       coalesce (namespace frontmatter kb_title)
         (coalesce (extractTitle markdownAST) (coalesce (untitled config) "(Untitled)"));
     am_description :=
       Some (coalesce (namespace frontmatter kb_description)
               (extractDescription markdownAST None));
     am_tags := fm_tags frontmatter;
     am_images :=
       Some (coalesce (namespace frontmatter kb_images) (extractImages markdownAST));
     am_status := namespace frontmatter kb_status;
     am_published_time :=
       coalesce_opt (namespace frontmatter kb_published_time) (fm_date frontmatter);
     am_modified_time :=
       coalesce_opt (namespace frontmatter kb_modified_time) (fm_date frontmatter) |}.



(** *** The order of the article list *)

(** [localeCompare] orders strings: it is antisymmetric and transitive. *)
Definition consistent_collation (host : Host) : Prop :=
  (forall a b, (localeCompare host a b < 0)%Z -> (0 <= localeCompare host b a)%Z)
  /\ (forall a b c,
         (0 <= localeCompare host a b)%Z -> (0 <= localeCompare host b c)%Z ->
         (0 <= localeCompare host a c)%Z).

(** The date of an article, when it has one, is one [Date.parse] reads. *)
Definition date_parses (host : Host) (a : ArticleIndex) : Prop :=
  match ai_published_time a with
  | Some t => Date_parse host t <> NaN
  | None => True
  end.

(** [x >= y] on numbers: false when either is NaN. *)
Definition date_ge (x y : JsNumber) : Prop :=
  match x, y with
  | Num a, Num b => (b <= a)%Z
  | _, _ => False
  end.

(** The order among the articles without a date, and between them and the
    dated ones: an article without a date before every dated one; two
    without a date by descending path. *)
Definition undated_first (host : Host) (a b : ArticleIndex) : Prop :=
  match ai_published_time a, ai_published_time b with
  | None, None => (0 <= localeCompare host (ai_path a) (ai_path b))%Z
  | None, Some _ => True
  | Some _, None => False
  | Some _, Some _ => True
  end.

(** The order the specification gives to the list: an article without a
    date before every dated one; two without a date by descending path;
    two dated ones by descending date. *)
Definition listed_before (host : Host) (a b : ArticleIndex) : Prop :=
  match ai_published_time a, ai_published_time b with
  | None, None => (0 <= localeCompare host (ai_path a) (ai_path b))%Z
  | None, Some _ => True
  | Some _, None => False
  | Some ta, Some tb => date_ge (Date_parse host ta) (Date_parse host tb)
  end.

(** *** The tag registry *)

(** The uses of tags, in the order the first loop of [collectTags] meets
    them: each article with each of its tags. *)
Definition tag_uses (articles : Obj.t ArticleMetadata) : list (string * ArticleMetadata) :=
  flat_map (fun a => match am_tags a with
                     | Some ts => map (fun t => (t, a)) ts
                     | None => []
                     end)
    (Obj.values articles).


(** The page of a tag, and the logical path it is collected under. *)
Definition tag_page (host : Host) (key : string) : string :=
  path_join host ["tags"; (key ++ ".md")%string].

Definition tag_path (host : Host) (key : string) : string :=
  path_join host ["tags"; key].

(** The entry [collectTags] makes for a key. *)
Definition tag_entry (host : Host) (fs : FileSystem) (config : Config) (key : string)
  : Result TagMetadata :=
  if fs_exists fs (tag_page host key)
  then match outcome (collectArticle host fs (tag_page host key) (tag_path host key) config) with
       | Ok article =>
           Ok {| tm_key := key; tm_title := am_title article; tm_article := Some article |}
       | Throw e => Throw e
       end
  else Ok {| tm_key := key; tm_title := key; tm_article := None |}.

(** One turn of the second loop of [collectTags]. *)
Definition tag_turn (host : Host) (fs : FileSystem) (config : Config)
    (tags : Obj.t TagMetadata) (key : string) : M (Obj.t TagMetadata) :=
  (let markdownPath := path_join host ["tags"; (key ++ ".md")%string] in
   found <- exists_ fs markdownPath ;;
   if found : bool then
     let articlePath := path_join host ["tags"; key] in
     article <- collectArticle host fs markdownPath articlePath config ;;
     ret (Obj.put tags key
            {| tm_key := key;
               tm_title := coalesce (Some (am_title article)) key;
               tm_article := Some article |})
   else
     ret (Obj.put tags key
            {| tm_key := key; tm_title := key; tm_article := None |}))%js.

(* ------------------------------------------------------------------ *)
(** ** Vocabulary of the further properties *)

Definition is_image (node : Node) : bool := String.eqb (type node) "image".

Definition is_metadata (node : Node) : bool := includes ["yaml"; "toml"] (type node).

(** The nodes a traversal meets, in document order, when it does not
    descend below a node that satisfies [stop]. *)
Fixpoint reached (stop : Node -> bool) (node : Node) : list Node :=
  node :: if stop node then []
          else match children node with
               | Some cs => flat_map (reached stop) cs
               | None => []
               end.

(** The tree without its heading subtrees (the root stays). *)
Fixpoint without_headings (node : Node) : Node :=
  {| type := type node;
     value := value node;
     url := url node;
     children :=
       match children node with
       | Some cs =>
           Some (flat_map (fun c => if is_heading c then [] else [without_headings c]) cs)
       | None => None
       end |}.

(** What [extractFrontmatter] does with one metadata block. *)
Definition parse_block (host : Host) (node : Node) : Result (option FrontMatter) :=
  if String.eqb (type node) "toml"
  then parsed (as_string (value node)) (toml_parse host (as_string (value node)))
  else parsed (as_string (value node)) (yaml_safeLoad host (as_string (value node))).

(** The first result that is a document or an error. *)
Fixpoint first_parsed (results : list (Result (option FrontMatter)))
  : Result (option FrontMatter) :=
  match results with
  | [] => Ok None
  | Ok (Some frontmatter) :: _ => Ok (Some frontmatter)
  | Ok None :: rest => first_parsed rest
  | Throw e :: _ => Throw e
  end.

(** The sidecar extensions, in the order they are probed, the path of the
    sidecar for an extension and its parser. *)
Definition metadata_exts : list string := [".json"; ".yml"; ".yaml"; ".toml"].

Definition sidecar (markdownPath metadataExt : string) : string :=
  Str.replace_md_suffix markdownPath (".blog" ++ metadataExt)%string.

Definition parser_of (host : Host) (metadataExt : string) : Parser :=
  if String.eqb metadataExt ".json" then JSON_parse host
  else if String.eqb metadataExt ".toml" then toml_parse host
  else yaml_safeLoad host.

(** A call that changes nothing on disk. *)
Definition read_only (op : FsOp) : bool :=
  match op with
  | Exists _ | ReadFile _ | Glob _ => true
  | Mkdir _ | WriteFile _ _ => false
  end.



(** The logical path [collectArticles] gives to a markdown file. *)
Definition logical_path (host : Host) (markdownPath : string) : string :=
  let articlePath := Str.replace_md_suffix markdownPath EmptyString in
  if Str.startsWith ("articles" ++ path_sep host)%string articlePath
  then Str.sliceFrom articlePath (Str.len ("articles" ++ path_sep host)%string)
  else articlePath.

(** The own property [k2] of the own property [k1] of a dictionary of
    dictionaries: what [Object.values] and [JSON.stringify] show of it. *)
Definition get2 {T : Type} (m : Obj.t (Obj.t T)) (k1 k2 : string) : option T :=
  opt_chain (Obj.get m k1) (fun inner => Obj.get inner k2).




(* ------------------------------------------------------------------ *)
(** ** The report of image paths ([src/list-images.ts]) *)

(** What a run does that can be observed: a file system call, or a line
    written by [console.log]. *)
Inductive Event : Type :=
| Fs (op : FsOp)
| ConsoleLog (line : string).

(** A computation that may also write to the console. *)
Definition IO (A : Type) : Type := (Result A * list Event)%type.

Definition io_ret {A : Type} (a : A) : IO A := (Ok a, []).

Definition io_bind {A B : Type} (m : IO A) (f : A -> IO B) : IO B :=
  match m with
  | (Ok a, t) => let (r, t') := f a in (r, t ++ t')
  | (Throw e, t) => (Throw e, t)
  end.

(** A computation of the pipeline, run where the console is at hand. *)
Definition io_lift {A : Type} (m : M A) : IO A := (fst m, map Fs (snd m)).

(** [console.log(line)] *)
Definition console_log (line : string) : IO unit := (Ok tt, [ConsoleLog line]).

(** [for (const x of xs) { body(x) }] *)
Fixpoint io_for_each {A : Type} (xs : list A) (body : A -> IO unit) : IO unit :=
  match xs with
  | [] => io_ret tt
  | x :: r => io_bind (body x) (fun _ => io_for_each r body)
  end.

(** The lines a run wrote to the console. *)
Definition console (events : list Event) : list string :=
  flat_map (fun ev => match ev with ConsoleLog line => [line] | Fs _ => [] end) events.

(** The file system calls of a run. *)
Definition fs_calls (events : list Event) : list FsOp :=
  flat_map (fun ev => match ev with Fs op => [op] | ConsoleLog _ => [] end) events.

Module ListImages.

(** [JSON.parse(articlesJson) as { articles: ... }], read down to its
    [articles]: [None] when the text is no JSON document. *)
Definition RegistryParser : Type := string -> option (Obj.t ArticleMetadata).

Definition execute (host : Host) (fs : FileSystem) (JSON_parse : RegistryParser)
    (config : Config) : IO unit :=
  io_bind (io_lift (readFile fs (path_join host ["generated"; "articles.json"])))
    (fun articlesJson =>
  io_bind (io_lift (lift (match JSON_parse articlesJson with
                          | Some articles => Ok articles
                          | None => Throw (SyntaxError articlesJson)
                          end)))
    (fun articles =>
  io_for_each (Obj.values articles)
    (fun article =>
       match am_images article with
       | Some images =>
           io_for_each images
             (fun image =>
                console_log (path_join host [path_dirname host (am_path article); image]))
       | None => io_ret tt
       end))).

(** The paths of the images of a registry: each article in turn, each of
    its images in turn. *)
Definition image_paths (host : Host) (articles : Obj.t ArticleMetadata) : list string :=
  flat_map (fun article =>
              map (fun image => path_join host [path_dirname host (am_path article); image])
                (coalesce (am_images article) []))
    (Obj.values articles).

End ListImages.

(* ------------------------------------------------------------------ *)
(** ** The command line ([src/cli.ts]) *)

Module Cli.

Record Failure : Type := {
  code : string;
  message : string;
  userInfo : Json
}.

Record ParsedArgs : Type := {
  opt_dumpArticleMetadata : bool;
  opt_dumpArticleAST : bool;
  opt_dumpArticleHTML : bool;
  opt_dumpTagMetadata : bool;
  opt_listImages : bool;
  opt_help : bool;
  opt_errors : list Failure
}.

(** The constant [result] of [parseArgs], before the loop. *)
Definition defaults : ParsedArgs :=
  {| opt_dumpArticleMetadata := true;
     opt_dumpArticleAST := false;
     opt_dumpArticleHTML := false;
     opt_dumpTagMetadata := true;
     opt_listImages := false;
     opt_help := false;
     opt_errors := [] |}.

(** The [switch] of [parseArgs]. *)
Definition parseArg (result : ParsedArgs) (arg : string) : ParsedArgs :=
  if includes ["-d"; "--debug"] arg then
    {| opt_dumpArticleMetadata := opt_dumpArticleMetadata result;
       opt_dumpArticleAST := true;
       opt_dumpArticleHTML := true;
       opt_dumpTagMetadata := opt_dumpTagMetadata result;
       opt_listImages := opt_listImages result;
       opt_help := opt_help result;
       opt_errors := opt_errors result |}
  else if includes ["-I"; "--list-images"] arg then
    {| opt_dumpArticleMetadata := opt_dumpArticleMetadata result;
       opt_dumpArticleAST := opt_dumpArticleAST result;
       opt_dumpArticleHTML := opt_dumpArticleHTML result;
       opt_dumpTagMetadata := opt_dumpTagMetadata result;
       opt_listImages := true;
       opt_help := opt_help result;
       opt_errors := opt_errors result |}
  else if includes ["-h"; "--help"] arg then
    {| opt_dumpArticleMetadata := opt_dumpArticleMetadata result;
       opt_dumpArticleAST := opt_dumpArticleAST result;
       opt_dumpArticleHTML := opt_dumpArticleHTML result;
       opt_dumpTagMetadata := opt_dumpTagMetadata result;
       opt_listImages := opt_listImages result;
       opt_help := true;
       opt_errors := opt_errors result |}
  else result.

(** [parseArgs]: the loop starts at index 1, so [args[0]] is not read. *)
Definition parseArgs (args : list string) : ParsedArgs :=
  fold_left parseArg (skipn 1 args) defaults.

(** [usage()], with [console.log] as its printer. *)
Definition usage : list string := ["kleinboy - CMS on the file system"].

(** The configuration [main] builds from the options. *)
Definition config_of (opts : ParsedArgs) : Config :=
  {| untitled := None;
     dumpArticleMetadata := Some (opt_dumpArticleMetadata opts);
     dumpArticleAST := Some (opt_dumpArticleAST opts);
     dumpArticleHTML := Some (opt_dumpArticleHTML opts);
     dumpTagMetadata := Some (opt_dumpTagMetadata opts) |}.

(** What [main] starts inside its promise. *)
Inductive Started : Type :=
| ListImages (config : Config)      (* [listImages.execute(config)] *)
| Execute (config : Config).        (* [execute(config)] *)

(** What [main] does: the lines it prints, the code it exits with, if it
    exits, and the run it starts, if it starts one. *)
Record Run : Type := {
  printed : list string;
  exit_code : option Z;
  started : option Started
}.

Definition main (argv : list string) : Run :=
  let opts := parseArgs argv in
  if negb (Nat.eqb (List.length (opt_errors opts)) 0) then
    {| printed := map message (opt_errors opts);
       exit_code := Some 1%Z;
       started := None |}
  else if opt_help opts then
    {| printed := usage; exit_code := Some 0%Z; started := None |}
  else
    {| printed := [];
       exit_code := None;
       started :=
         Some (if opt_listImages opts
               then ListImages (config_of opts)
               else Execute (config_of opts)) |}.

End Cli.


(** The configuration of the debug mode. *)
Definition debug : Config :=
  {| untitled := None;
     dumpArticleMetadata := Some true;
     dumpArticleAST := Some true;
     dumpArticleHTML := Some true;
     dumpTagMetadata := Some true |}.

(** The two dumps of an article, as [collectArticle] issues them. *)
Definition dump_calls (host : Host) (config : Config) (articlePath : string)
    (markdownAST : Node) : list FsOp :=
  (if truthy (dumpArticleAST config)
   then let astPath := path_join host ["generated"; "ast"; (articlePath ++ ".json")%string] in
        [Mkdir (path_dirname host astPath); WriteFile astPath (AstJson markdownAST)]
   else [])
  ++ (if truthy (dumpArticleHTML config)
      then let htmlPath :=
             path_join host ["generated"; "html"; (articlePath ++ ".html")%string] in
           [Mkdir (path_dirname host htmlPath); WriteFile htmlPath (Html markdownAST)]
      else []).


Module MoreExamples.
Import Sample Examples.

(** A frontmatter with a date and, in the namespace, a time of
    publication and a status. *)
Definition published : FrontMatter :=
  {| fm_layout := None; fm_published := None; fm_date := Some "2020-01-01";
     fm_category := None; fm_categories := None; fm_tags := None;
     fm_x_kleinboy :=
       Some {| kb_status := Some "draft"; kb_title := None; kb_description := None;
               kb_images := None; kb_published_time := Some "2020-02-02";
               kb_modified_time := None |};
     fm_rest := Obj.empty |}.

Definition published_block : list string :=
  ["date: '2020-01-01'"; "x-kleinboy:"; "  status: draft";
   "  published_time: '2020-02-02'"].

Definition constructor_block : list string := ["tags: [constructor]"].

(** A host that also knows the page of [published] and a page tagged
    [constructor]. *)
Definition host : Host :=
  Sample.host
    ((page published_block ["# P"], root [yaml (lines published_block); heading [text "P"]])
       :: (page constructor_block ["# First post"],
           root [yaml (lines constructor_block); heading [text "First post"]])
       :: documents)
    ((lines published_block, Some published)
       :: (lines constructor_block, Some (tagged ["constructor"]))
       :: frontmatters).

Definition site_published : FileSystem :=
  files ["articles"]
    [("articles/p.md", page published_block ["# P"])]
    ["articles/p.md"].


(** Two articles, the first in a file named [__proto__.md]. *)
Definition site_proto : FileSystem :=
  files ["articles"]
    [("articles/__proto__.md", "# A"); ("articles/a.md", "A draft.")]
    ["articles/__proto__.md"; "articles/a.md"].

End MoreExamples.

(** The command line before it had the report of images: the first of the
    two programs, without the option [-I]. *)
Module Cli1.

Record ParsedArgs : Type := {
  opt_dumpArticleMetadata : bool;
  opt_dumpArticleAST : bool;
  opt_dumpArticleHTML : bool;
  opt_dumpTagMetadata : bool;
  opt_help : bool;
  opt_errors : list Cli.Failure
}.

Definition defaults : ParsedArgs :=
  {| opt_dumpArticleMetadata := true;
     opt_dumpArticleAST := false;
     opt_dumpArticleHTML := false;
     opt_dumpTagMetadata := true;
     opt_help := false;
     opt_errors := [] |}.

Definition parseArg (result : ParsedArgs) (arg : string) : ParsedArgs :=
  if includes ["-d"; "--debug"] arg then
    {| opt_dumpArticleMetadata := opt_dumpArticleMetadata result;
       opt_dumpArticleAST := true;
       opt_dumpArticleHTML := true;
       opt_dumpTagMetadata := opt_dumpTagMetadata result;
       opt_help := opt_help result;
       opt_errors := opt_errors result |}
  else if includes ["-h"; "--help"] arg then
    {| opt_dumpArticleMetadata := opt_dumpArticleMetadata result;
       opt_dumpArticleAST := opt_dumpArticleAST result;
       opt_dumpArticleHTML := opt_dumpArticleHTML result;
       opt_dumpTagMetadata := opt_dumpTagMetadata result;
       opt_help := true;
       opt_errors := opt_errors result |}
  else result.

Definition parseArgs (args : list string) : ParsedArgs :=
  fold_left parseArg (skipn 1 args) defaults.

Definition config_of (opts : ParsedArgs) : Config :=
  {| untitled := None;
     dumpArticleMetadata := Some (opt_dumpArticleMetadata opts);
     dumpArticleAST := Some (opt_dumpArticleAST opts);
     dumpArticleHTML := Some (opt_dumpArticleHTML opts);
     dumpTagMetadata := Some (opt_dumpTagMetadata opts) |}.

Definition main (argv : list string) : Cli.Run :=
  let opts := parseArgs argv in
  if negb (Nat.eqb (List.length (opt_errors opts)) 0) then
    {| Cli.printed := map Cli.message (opt_errors opts);
       Cli.exit_code := Some 1%Z;
       Cli.started := None |}
  else if opt_help opts then
    {| Cli.printed := Cli.usage; Cli.exit_code := Some 0%Z; Cli.started := None |}
  else
    {| Cli.printed := [];
       Cli.exit_code := None;
       Cli.started := Some (Cli.Execute (config_of opts)) |}.

End Cli1.

(** The options of the command line. *)
Definition is_debug (arg : string) : bool := includes ["-d"; "--debug"] arg.
Definition is_list_images (arg : string) : bool := includes ["-I"; "--list-images"] arg.
Definition is_help (arg : string) : bool := includes ["-h"; "--help"] arg.

(** The configuration the command line gives to a run. *)
Definition cli_config (debugging : bool) : Config :=
  {| untitled := None;
     dumpArticleMetadata := Some true;
     dumpArticleAST := Some debugging;
     dumpArticleHTML := Some debugging;
     dumpTagMetadata := Some true |}.

(** A node [findTexts] takes the value of. *)
Definition is_text (node : Node) : bool :=
  includes ["text"; "inlineCode"] (type node)
  && match value node with Some _ => true | None => false end.

(** What [findTexts] emits at a node, apart from what lies below it. *)
Definition emitted (visitor : option (Node -> bool)) (node : Node) : list string :=
  if negb (accepts visitor node) then []
  else if is_text node then [as_string (value node)]
  else match children node with
       | Some _ => []
       | None => if includes ["code"; "image"] (type node) then ["..."] else []
       end.

(** Where [findTexts] goes no deeper: at a node the visitor rejects and at
    a node it takes the value of. *)
Definition stops (visitor : option (Node -> bool)) (node : Node) : bool :=
  negb (accepts visitor node) || is_text node.

(** A site whose articles root is empty. *)
Definition site_bare : FileSystem := Sample.files ["articles"] [] [].
(* ================================================================== *)
(** * Properties *)

(* ------------------------------------------------------------------ *)
(** ** Strings *)

Module StrFacts.
Import Str.

Lemma length_append (s1 s2 : string) :
  String.length (s1 ++ s2) = String.length s1 + String.length s2.
Proof.
  induction s1 as [|c s1 IH]; simpl; [reflexivity | now rewrite IH].
Qed.

Lemma length_prefix (n : nat) (s : string) :
  String.length (String.substring 0 n s) = Nat.min n (String.length s).
Proof.
  revert n; induction s as [|c s IH]; intros [|n]; simpl; try reflexivity.
  now rewrite IH.
Qed.

Lemma len_append (s1 s2 : string) : len (s1 ++ s2) = (len s1 + len s2)%Z.
Proof. unfold len. rewrite length_append. lia. Qed.

Lemma len_nonneg (s : string) : (0 <= len s)%Z.
Proof. unfold len. lia. Qed.

(** A slice from the start with its end inside the string keeps exactly
    that many characters. *)
Lemma slice_prefix (s : string) (n : Z) :
  (0 <= n <= len s)%Z ->
  slice s 0 n = String.substring 0 (Z.to_nat n) s /\ len (slice s 0 n) = n.
Proof.
  intros Hn. unfold slice, clamp.
  replace (0 <? 0)%Z with false by reflexivity.
  destruct (n <? 0)%Z eqn:En; [apply Z.ltb_lt in En; lia|].
  rewrite (Z.min_l 0) by apply len_nonneg.
  rewrite Z.min_l by lia. rewrite Z.sub_0_r. simpl Z.to_nat.
  split; [reflexivity|].
  unfold len in *. rewrite length_prefix. lia.
Qed.

Lemma suffix_after_append (s e : string) :
  String.substring (String.length s) (String.length e) (s ++ e) = e.
Proof.
  induction s as [|c s IH]; simpl.
  - induction e as [|c e IH]; simpl; [reflexivity|].
    f_equal. destruct e; simpl in *; [reflexivity | exact IH].
  - exact IH.
Qed.

Lemma endsWith_append (s e : string) : endsWith e (s ++ e) = true.
Proof.
  unfold endsWith. rewrite length_append.
  replace (String.length s + String.length e - String.length e)
    with (String.length s) by lia.
  rewrite suffix_after_append, String.eqb_refl.
  rewrite andb_true_r. apply Nat.leb_le. lia.
Qed.

End StrFacts.

(* ------------------------------------------------------------------ *)
(** ** Sorting *)

Section ArraySortFacts.
Context {A : Type} (comparefn : A -> A -> JsNumber).

Lemma insert_back_perm (x : A) (rp : list A) :
  Permutation (x :: rp) (insert_back comparefn x rp).
Proof.
  induction rp as [|y r IH]; simpl; [reflexivity|].
  destruct (sorts_after comparefn y x); [|reflexivity].
  rewrite perm_swap. now apply perm_skip.
Qed.

Lemma fold_insert_perm (l acc : list A) :
  Permutation (rev l ++ acc)
    (fold_left (fun rp x => insert_back comparefn x rp) l acc).
Proof.
  revert acc; induction l as [|x l IH]; intros acc; simpl; [reflexivity|].
  rewrite <- IH, <- app_assoc. simpl.
  apply Permutation_app_head, insert_back_perm.
Qed.

Lemma Array_sort_perm (l : list A) : Permutation l (Array_sort comparefn l).
Proof.
  unfold Array_sort. rewrite <- Permutation_rev.
  rewrite <- fold_insert_perm, app_nil_r. apply Permutation_rev.
Qed.


(** Sortedness, for an order [before] that the comparator decides
    consistently on the elements satisfying [dom]. *)
Context (before : A -> A -> Prop) (dom : A -> Prop).
Hypothesis moved : forall x y,
  dom x -> dom y -> sorts_after comparefn y x = true -> before x y.
Hypothesis kept : forall x y,
  dom x -> dom y -> sorts_after comparefn y x = false -> before y x.
Hypothesis before_trans : forall x y z,
  dom x -> dom y -> dom z -> before x y -> before y z -> before x z.

Let after (a b : A) : Prop := before b a.

Lemma insert_back_sorted (x : A) (rp : list A) :
  dom x -> Forall dom rp ->
  StronglySorted after rp -> StronglySorted after (insert_back comparefn x rp).
Proof.
  intros Hx Hrp Hs. induction Hs as [|y r Hs IH Hy]; simpl.
  - constructor; constructor.
  - inversion Hrp as [|? ? Dy Dr]; subst.
    destruct (sorts_after comparefn y x) eqn:E.
    + constructor; [now apply IH|].
      rewrite Forall_forall in *. intros z Hz.
      apply (Permutation_in _ (Permutation_sym (insert_back_perm x r))) in Hz.
      destruct Hz as [<-|Hz]; [now apply moved | now apply Hy].
    + constructor; [now constructor|].
      constructor; [now apply kept|].
      rewrite Forall_forall in *. intros z Hz.
      apply before_trans with y; auto. now apply Hy.
Qed.

Lemma fold_insert_sorted (l acc : list A) :
  Forall dom l -> Forall dom acc -> StronglySorted after acc ->
  StronglySorted after (fold_left (fun rp x => insert_back comparefn x rp) l acc).
Proof.
  revert acc; induction l as [|x l IH]; intros acc Hl Hacc Hs; simpl; [exact Hs|].
  inversion Hl; subst. apply IH; auto.
  - rewrite Forall_forall in *. intros z Hz.
    apply (Permutation_in _ (Permutation_sym (insert_back_perm x acc))) in Hz.
    destruct Hz as [<-|Hz]; auto.
  - now apply insert_back_sorted.
Qed.

Lemma sorted_snoc (R : A -> A -> Prop) (l : list A) (x : A) :
  StronglySorted R l -> Forall (fun y => R y x) l -> StronglySorted R (l ++ [x]).
Proof.
  induction 1 as [|y l Hs IH Hy]; intros Hx; simpl.
  - constructor; constructor.
  - inversion Hx; subst. constructor; [now apply IH|].
    apply Forall_app; split; [exact Hy | now constructor].
Qed.

Lemma sorted_rev (l : list A) :
  StronglySorted after l -> StronglySorted before (rev l).
Proof.
  induction 1 as [|y l Hs IH Hy]; simpl; [constructor|].
  apply sorted_snoc; [exact IH|].
  rewrite Forall_forall in *. intros z Hz. apply Hy. now apply in_rev.
Qed.

Lemma Array_sort_sorted (l : list A) :
  Forall dom l -> StronglySorted before (Array_sort comparefn l).
Proof.
  intros Hl. apply sorted_rev, fold_insert_sorted; auto; constructor.
Qed.

End ArraySortFacts.

(* ------------------------------------------------------------------ *)
(** ** Objects *)

Module ObjFacts.
Import Obj.

Lemma get_set {A : Type} (o : t A) (k k' : string) (v : A) :
  get (set o k v) k' = if String.eqb k k' then Some v else get o k'.
Proof.
  induction o as [|[k0 v0] r IH]; simpl.
  - reflexivity.
  - destruct (String.eqb k0 k) eqn:E0; simpl.
    + apply String.eqb_eq in E0; subst k0.
      destruct (String.eqb k k'); reflexivity.
    + rewrite IH. destruct (String.eqb k0 k') eqn:E1; [|reflexivity].
      apply String.eqb_eq in E1; subst k'.
      now rewrite (String.eqb_sym k k0), E0.
Qed.

Lemma get_set_same {A : Type} (o : t A) (k : string) (v : A) :
  get (set o k v) k = Some v.
Proof. now rewrite get_set, String.eqb_refl. Qed.

Lemma get_set_other {A : Type} (o : t A) (k k' : string) (v : A) :
  k <> k' -> get (set o k v) k' = get o k'.
Proof.
  intros H. rewrite get_set. apply String.eqb_neq in H. now rewrite H.
Qed.

Lemma get_In {A : Type} (o : t A) (k : string) (v : A) :
  get o k = Some v -> In (k, v) o.
Proof.
  induction o as [|[k0 v0] r IH]; simpl; [discriminate|].
  destruct (String.eqb k0 k) eqn:E.
  - apply String.eqb_eq in E; subst. intros [= ->]. now left.
  - intros H. right. now apply IH.
Qed.

Lemma In_get {A : Type} (o : t A) (k : string) (v : A) :
  NoDup (map fst o) -> In (k, v) o -> get o k = Some v.
Proof.
  induction o as [|[k0 v0] r IH]; simpl; [contradiction|].
  intros Hnd [H|H]; inversion Hnd as [|? ? Hnot Hnd']; subst.
  - injection H as -> ->. now rewrite String.eqb_refl.
  - destruct (String.eqb k0 k) eqn:E; [|now apply IH].
    apply String.eqb_eq in E; subst. exfalso. apply Hnot.
    change k with (fst (k, v)). now apply in_map.
Qed.

Lemma get_key {A : Type} (o : t A) (k : string) :
  get o k <> None <-> In k (map fst o).
Proof.
  induction o as [|[k0 v0] r IH]; simpl; [tauto|].
  destruct (String.eqb k0 k) eqn:E.
  - apply String.eqb_eq in E; subst. split; [now left | discriminate].
  - apply String.eqb_neq in E. rewrite IH. tauto.
Qed.

Lemma set_keys {A : Type} (o : t A) (k : string) (v : A) :
  map fst (set o k v) =
  match get o k with Some _ => map fst o | None => map fst o ++ [k] end.
Proof.
  induction o as [|[k0 v0] r IH]; simpl; [reflexivity|].
  destruct (String.eqb k0 k) eqn:E; simpl; [reflexivity|].
  rewrite IH. now destruct (get r k).
Qed.

Lemma set_NoDup {A : Type} (o : t A) (k : string) (v : A) :
  NoDup (map fst o) -> NoDup (map fst (set o k v)).
Proof.
  intros H. rewrite set_keys. destruct (get o k) eqn:E; [exact H|].
  apply Permutation_NoDup with (k :: map fst o).
  - apply Permutation_cons_append.
  - constructor; [|exact H]. intros Hin. apply get_key in Hin. now apply Hin.
Qed.

Lemma In_set {A : Type} (o : t A) (k : string) (v : A) (p : string * A) :
  In p (set o k v) -> p = (k, v) \/ In p o.
Proof.
  induction o as [|[k0 v0] r IH]; simpl.
  - intros [<-|[]]. now left.
  - destruct (String.eqb k0 k) eqn:E; simpl.
    + apply String.eqb_eq in E; subst. intros [<-|H]; auto.
    + intros [<-|H]; auto. destruct (IH H); auto.
Qed.

Lemma filter_split {A : Type} (f : A -> bool) (l : list A) :
  Permutation (filter f l ++ filter (fun x => negb (f x)) l) l.
Proof.
  induction l as [|x l IH]; simpl; [reflexivity|].
  destruct (f x); simpl.
  - now apply perm_skip.
  - rewrite <- Permutation_middle. now apply perm_skip.
Qed.

(** Enumeration visits every own property once. *)
Lemma entries_perm {A : Type} (o : t A) : Permutation (entries o) o.
Proof.
  unfold entries. rewrite <- Array_sort_perm. apply filter_split.
Qed.

Lemma In_values {A : Type} (o : t A) (v : A) :
  In v (values o) <-> exists k, In (k, v) o.
Proof.
  unfold values. rewrite in_map_iff. split.
  - intros [[k v'] [<- H]]. exists k.
    now apply (Permutation_in _ (entries_perm o)).
  - intros [k H]. exists (k, v). split; [reflexivity|].
    now apply (Permutation_in _ (Permutation_sym (entries_perm o))).
Qed.

Lemma In_keys {A : Type} (o : t A) (k : string) :
  In k (keys o) <-> get o k <> None.
Proof.
  rewrite get_key. unfold keys.
  split; apply Permutation_in, Permutation_map;
    [|symmetry]; apply entries_perm.
Qed.

(** A property of a spread comes from the source when the source has it,
    else from the target. *)
Lemma get_fold_set {A : Type} (l : list (string * A)) (target : t A) (k : string) :
  get (fold_left (fun o p => set o (fst p) (snd p)) l target) k =
  match get (rev l) k with
  | Some v => Some v
  | None => get target k
  end.
Proof.
  revert target; induction l as [|[k0 v0] l IH]; intros target; simpl.
  - reflexivity.
  - rewrite IH. clear IH.
    assert (Happ : forall (a b : t A),
               get (a ++ b) k = match get a k with Some v => Some v | None => get b k end).
    { intros a b. induction a as [|[k1 v1] a IHa]; simpl; [reflexivity|].
      now destruct (String.eqb k1 k). }
    rewrite Happ. destruct (get (rev l) k); [reflexivity|].
    simpl. rewrite get_set. now destruct (String.eqb k0 k).
Qed.

Lemma get_perm {A : Type} (o o' : t A) (k : string) :
  NoDup (map fst o) -> Permutation o o' -> get o k = get o' k.
Proof.
  intros Hnd Hp.
  assert (Hnd' : NoDup (map fst o')).
  { eapply Permutation_NoDup; [|exact Hnd]. now apply Permutation_map. }
  destruct (get o k) as [v|] eqn:E.
  - symmetry. apply In_get; [exact Hnd'|].
    apply (Permutation_in _ Hp). now apply get_In.
  - destruct (get o' k) as [v|] eqn:E'; [|reflexivity].
    apply get_In in E'. apply (Permutation_in _ (Permutation_sym Hp)) in E'.
    apply In_get in E'; [congruence | exact Hnd].
Qed.

Lemma get_assign {A : Type} (target source : t A) (k : string) :
  NoDup (map fst source) ->
  get (assign target source) k =
  match get source k with
  | Some v => Some v
  | None => get target k
  end.
Proof.
  intros Hnd. unfold assign. rewrite get_fold_set.
  replace (get (rev (entries source)) k) with (get source k); [reflexivity|].
  apply get_perm; [exact Hnd|].
  rewrite <- Permutation_rev. symmetry. apply entries_perm.
Qed.

Lemma set_set {A : Type} (o : t A) (k : string) (a b : A) :
  set (set o k a) k b = set o k b.
Proof.
  induction o as [|[k0 v0] r IH]; simpl.
  - now rewrite String.eqb_refl.
  - destruct (String.eqb k0 k) eqn:E; simpl; rewrite E; [reflexivity | now rewrite IH].
Qed.

(** *** Assignment *)

Lemma plain_not_proto (k : string) : inherited k = false -> k <> "__proto__".
Proof. intros H ->. discriminate. Qed.

Lemma put_set {A : Type} (o : t A) (k : string) (v : A) :
  k <> "__proto__" -> put o k v = set o k v.
Proof.
  intros H. unfold put. destruct (get o k); [reflexivity|].
  apply String.eqb_neq in H. now rewrite H.
Qed.

Lemma put_own {A : Type} (o : t A) (k : string) (v : A) :
  get o k <> None -> put o k v = set o k v.
Proof. intros H. unfold put. now destruct (get o k). Qed.

Lemma put_proto {A : Type} (o : t A) (v : A) :
  get o "__proto__" = None -> put o "__proto__" v = o.
Proof. intros H. unfold put. now rewrite H. Qed.

Lemma put_cases {A : Type} (o : t A) (k : string) (v : A) :
  put o k v = set o k v \/ (k = "__proto__" /\ get o k = None /\ put o k v = o).
Proof.
  unfold put. destruct (get o k); [now left|].
  destruct (String.eqb_spec k "__proto__") as [->|]; [right | left]; auto.
Qed.

Lemma get_put_other {A : Type} (o : t A) (k k' : string) (v : A) :
  k <> k' -> get (put o k v) k' = get o k'.
Proof.
  intros H. destruct (put_cases o k v) as [->|(_ & _ & ->)]; [|reflexivity].
  now apply get_set_other.
Qed.

Lemma get_put {A : Type} (o : t A) (k k' : string) (v x : A) :
  get (put o k v) k' = Some x -> (k = k' /\ x = v) \/ get o k' = Some x.
Proof.
  destruct (put_cases o k v) as [->|(_ & _ & ->)]; [|now right].
  rewrite get_set. destruct (String.eqb_spec k k') as [->|]; [|now right].
  intros [= <-]. now left.
Qed.

Lemma put_NoDup {A : Type} (o : t A) (k : string) (v : A) :
  NoDup (map fst o) -> NoDup (map fst (put o k v)).
Proof.
  intros H. destruct (put_cases o k v) as [->|(_ & _ & ->)]; [|exact H].
  now apply set_NoDup.
Qed.

Lemma In_put {A : Type} (o : t A) (k : string) (v : A) (p : string * A) :
  In p (put o k v) -> p = (k, v) \/ In p o.
Proof.
  destruct (put_cases o k v) as [->|(_ & _ & ->)]; [apply In_set | now right].
Qed.

End ObjFacts.

(* ------------------------------------------------------------------ *)
(** ** The extractors *)

Lemma findTexts_unfold (visitor : option (Node -> bool)) (node : Node) :
  findTexts visitor node =
  if negb (accepts visitor node) then []
  else
    match includes ["text"; "inlineCode"] (type node), value node with
    | true, Some v => [v]
    | _, _ =>
        match children node with
        | Some cs => flat_map (findTexts visitor) cs
        | None => if includes ["code"; "image"] (type node) then ["..."] else []
        end
    end.
Proof.
  destruct node as [t v u cs]. unfold accepts. simpl.
  destruct (negb _); [reflexivity|].
  assert (H : forall l result,
    (fix each (l : list Node) (result : list string) : list string :=
       match l with
       | [] => result
       | child :: r => each r (result ++ findTexts visitor child)
       end) l result = result ++ flat_map (findTexts visitor) l).
  { induction l as [|c l IH]; intros result; simpl.
    - now rewrite app_nil_r.
    - now rewrite IH, app_assoc. }
  destruct cs as [cs|]; [|reflexivity].
  rewrite H. simpl. reflexivity.
Qed.

Lemma extractTitle_unfold (node : Node) :
  extractTitle node =
  if is_heading node then Some (Str.join " " (findTexts None node))
  else
    match children node with
    | Some cs =>
        fold_right (fun child rest =>
                      match extractTitle child with
                      | Some title => Some title
                      | None => rest
                      end) None cs
    | None => None
    end.
Proof.
  destruct node as [t v u cs]. unfold is_heading. simpl.
  destruct (String.eqb t "heading"); [reflexivity|].
  destruct cs as [cs|]; [|reflexivity].
  induction cs as [|c cs IH]; simpl; [reflexivity|].
  destruct (extractTitle c); [reflexivity | exact IH].
Qed.

(** [extractTitle] reads the first heading in document order. *)
Lemma extractTitle_first_heading (node : Node) :
  extractTitle node =
  option_map (fun h => Str.join " " (findTexts None h))
    (find is_heading (subnodes node)).
Proof.
  induction node as [t v u|t v u cs IH] using Node_ind;
    rewrite extractTitle_unfold; simpl;
    destruct (is_heading _) eqn:E; try reflexivity.
  clear E. induction IH as [|c cs Hc _ IHcs]; simpl; [reflexivity|].
  rewrite Hc, IHcs. clear.
  induction (subnodes c) as [|x xs IHx]; simpl; [reflexivity|].
  destruct (is_heading x); [reflexivity | exact IHx].
Qed.

(** Every emitted string is the placeholder or the value of a text or
    inline-code node of the tree. *)
Lemma findTexts_sources (visitor : option (Node -> bool)) (node : Node) (s : string) :
  In s (findTexts visitor node) ->
  s = "..." \/
  exists leaf, In leaf (subnodes node)
               /\ includes ["text"; "inlineCode"] (type leaf) = true
               /\ value leaf = Some s.
Proof.
  induction node as [t v u|t v u cs IH] using Node_ind;
    rewrite findTexts_unfold; simpl children; simpl value; simpl type;
    destruct (negb _); try contradiction;
    destruct (includes ["text"; "inlineCode"] t) eqn:Et, v as [x|];
    try (intros [<-|[]]; right;
         eexists (mkNode t (Some x) u _); simpl; repeat split; auto; fail).
  all: try (destruct (includes ["code"; "image"] t);
            [intros [<-|[]]; now left | contradiction]).
  all: intros H; apply in_flat_map in H; destruct H as [c [Hc Hs]];
    rewrite Forall_forall in IH; destruct (IH c Hc Hs) as [->|[lf [Hl Hp]]];
    [now left | right; exists lf; split; [|exact Hp]];
    simpl; right; apply in_flat_map; now exists c.
Qed.

Lemma reached_unfold (stop : Node -> bool) (node : Node) :
  reached stop node =
  node :: if stop node then []
          else match children node with
               | Some cs => flat_map (reached stop) cs
               | None => []
               end.
Proof. destruct node; reflexivity. Qed.

Lemma findTexts_here (visitor : option (Node -> bool)) (node : Node) :
  findTexts visitor node
  = emitted visitor node
    ++ (if stops visitor node then []
        else match children node with
             | Some cs => flat_map (findTexts visitor) cs
             | None => []
             end).
Proof.
  rewrite findTexts_unfold. unfold emitted, stops, is_text.
  destruct (negb (accepts visitor node)); [reflexivity|].
  destruct (includes ["text"; "inlineCode"] (type node)), (value node) as [x|],
    (children node) as [cs|];
    cbn [orb andb app as_string coalesce]; rewrite ?app_nil_r; reflexivity.
Qed.

(** C6. [findTexts] emits nothing but the placeholder and the values of
    text and inline-code nodes, so the content of a code block or of an
    image never shows: such a node (a leaf of the tree) yields exactly the
    placeholder ["..."]; a text or inline-code node yields its value; any
    other node without children yields nothing; a node the visitor rejects
    yields nothing, whatever lies below it. The sequence of any other node
    is the sequences of its children one after the other, so that what a
    node yields shows in the sequence of every tree the traversal reaches
    it in. *)
Theorem findTexts_placeholder :
  (forall visitor node s,
      In s (findTexts visitor node) ->
      s = "..." \/
      exists leaf, In leaf (subnodes node)
                   /\ includes ["text"; "inlineCode"] (type leaf) = true
                   /\ value leaf = Some s)
  /\ (forall visitor node,
         accepts visitor node = true ->
         includes ["code"; "image"] (type node) = true ->
         children node = None ->
         findTexts visitor node = ["..."])
  /\ (forall visitor node s,
         accepts visitor node = true ->
         includes ["text"; "inlineCode"] (type node) = true ->
         value node = Some s ->
         findTexts visitor node = [s])
  /\ (forall visitor node,
         children node = None ->
         includes ["code"; "image"] (type node) = false ->
         is_text node = false ->
         findTexts visitor node = [])
  /\ (forall visitor node,
         visitor node = false ->
         findTexts (Some visitor) node = [])
  /\ (forall visitor node cs,
         accepts visitor node = true ->
         is_text node = false ->
         children node = Some cs ->
         findTexts visitor node = flat_map (findTexts visitor) cs)
  /\ (forall visitor node below s,
         In below (reached (stops visitor) node) ->
         In s (findTexts visitor below) ->
         In s (findTexts visitor node)).
Proof.
  split; [exact findTexts_sources|].
  split; [|split; [|split; [|split; [|split]]]]; intros visitor node.
  - intros Ha Ht Hc. rewrite findTexts_unfold, Ha, Hc, Ht. simpl negb. cbv iota.
    destruct (includes ["text"; "inlineCode"] (type node)) eqn:E; [|reflexivity].
    exfalso. unfold includes in *. simpl in *.
    repeat match goal with
           | H : context [String.eqb ?a ?b] |- _ =>
               destruct (String.eqb_spec a b); try congruence
           end; simpl in *; congruence.
  - intros s Ha Ht Hv. now rewrite findTexts_unfold, Ha, Ht, Hv.
  - intros Hc Hi Ht. rewrite findTexts_here. unfold emitted.
    rewrite Ht, Hc, Hi. now destruct (negb _), (stops visitor node).
  - intros Hv. rewrite findTexts_unfold. simpl. now rewrite Hv.
  - intros cs Ha Ht Hc. rewrite findTexts_here. unfold emitted, stops.
    now rewrite Ha, Ht, Hc.
  - induction node as [t v u|t v u cs IH] using Node_ind; intros below s;
      rewrite reached_unfold; cbn [children].
    + destruct (stops visitor _); intros [<-|[]]; auto.
    + intros [<-|Hb]; [auto|]. intros Hs.
      rewrite findTexts_here. apply in_or_app. right.
      destruct (stops visitor _); [contradiction|]. cbn [children].
      apply in_flat_map in Hb. destruct Hb as (c & Hc & Hb).
      apply in_flat_map. exists c. split; [exact Hc|].
      rewrite Forall_forall in IH. now apply (IH c Hc below s).
Qed.

Lemma findTexts_placeholder_witness :
  findTexts None (Sample.code "let x = 1") = ["..."]
  /\ findTexts None (Sample.image "cat.png") = ["..."]
  /\ findTexts None (Sample.inlineCode "x") = ["x"]
  /\ findTexts None (Sample.html "<br>") = []
  /\ findTexts (Some not_heading) (Sample.heading [Sample.text "Title"]) = []
  /\ findTexts None
       (Sample.root [Sample.paragraph [Sample.text "a"; Sample.code "b"; Sample.image "c"]])
     = ["a"; "..."; "..."]
  /\ In "a" (findTexts None
               (Sample.root [Sample.paragraph [Sample.text "a"; Sample.code "b"]])).
Proof.
  destruct findTexts_placeholder as (_ & Hcode & Htext & Hother & Hprune & Hdown & Hin).
  split; [|split; [|split; [|split; [|split; [|split]]]]].
  - apply Hcode; reflexivity.
  - apply Hcode; reflexivity.
  - apply Htext; reflexivity.
  - apply Hother; reflexivity.
  - apply Hprune; reflexivity.
  - rewrite (Hdown None _ [Sample.paragraph
                             [Sample.text "a"; Sample.code "b"; Sample.image "c"]])
      by reflexivity.
    cbn [flat_map].
    rewrite (Hdown None _ [Sample.text "a"; Sample.code "b"; Sample.image "c"])
      by reflexivity.
    cbn [flat_map].
    rewrite (Htext None (Sample.text "a") "a"), (Hcode None (Sample.code "b")),
      (Hcode None (Sample.image "c")) by reflexivity.
    reflexivity.
  - apply (Hin None _ (Sample.text "a")).
    + right. right. left. reflexivity.
    + rewrite (Htext None (Sample.text "a") "a") by reflexivity. now left.
Defined.

(** C5. On a paragraph written on three lines the description source
    keeps the second line break: [replace] is called with patterns that
    lack the [g] flag, so one run of white space is collapsed and one end
    is trimmed, where the specification collapses every run and trims both
    ends. *)
Theorem description_source_first_run_only :
  description_source Examples.three_lines
  = ("one two" ++ Examples.nl ++ "three")%string
  /\ spec_description_source Examples.three_lines = "one two three"
  /\ description_source Examples.three_lines
     <> spec_description_source Examples.three_lines.
Proof.
  repeat split; try reflexivity. intros H. vm_compute in H. discriminate.
Qed.

(** C4, as stated, fails when the ellipsis is longer than [maxLength]:
    with [maxLength = 2] and the default ellipsis the description of
    "abcdefgh" is "abcdefg...", ten characters long. *)
Lemma extractDescription_exceeds_maxLength :
  extractDescription Examples.eight_letters Examples.two_characters = "abcdefg..."
  /\ ~ (Str.len (extractDescription Examples.eight_letters Examples.two_characters)
        <= maxLength_of Examples.two_characters)%Z.
Proof.
  split; [reflexivity|]. vm_compute. intros H. now apply H.
Qed.

(** C4, amended. Whenever the ellipsis is no longer than [maxLength], the
    description is at most [maxLength] long, and a source longer than
    [maxLength] is cut to its first [maxLength - len(ellipsis)] characters
    followed by the ellipsis. In every case a source longer than
    [maxLength] gives a description that ends with the ellipsis, and a
    source within [maxLength] is returned as it is. *)
Theorem extractDescription_bounded (node : Node) (options : option DescriptionOptions) :
  let m := maxLength_of options in
  let e := ellipsis_of options in
  let source := description_source node in
  let result := extractDescription node options in
  ((Str.len source <= m)%Z -> result = source)
  /\ ((m < Str.len source)%Z -> Str.endsWith e result = true)
  /\ ((Str.len e <= m)%Z -> (m < Str.len source)%Z ->
      result = (String.substring 0 (Z.to_nat (m - Str.len e)) source ++ e)%string
      /\ Str.len result = m)
  /\ ((Str.len e <= m)%Z -> (Str.len result <= m)%Z).
Proof.
  intros m e source result.
  assert (Hr : result =
               if (Str.len source <=? m)%Z then source
               else (Str.slice source 0 (m - Str.len e) ++ e)%string) by reflexivity.
  assert (Hcut : (Str.len e <= m)%Z -> (m < Str.len source)%Z ->
                 result = (String.substring 0 (Z.to_nat (m - Str.len e)) source ++ e)%string
                 /\ Str.len result = m).
  { intros He Hm. rewrite Hr.
    destruct (Z.leb_spec (Str.len source) m) as [Hle|_]; [lia|].
    destruct (StrFacts.slice_prefix source (n := m - Str.len e)) as [Hs Hl].
    { pose proof (StrFacts.len_nonneg e). lia. }
    rewrite StrFacts.len_append, Hl, Hs. split; [reflexivity | lia]. }
  repeat split.
  - intros Hle. rewrite Hr. apply Z.leb_le in Hle. now rewrite Hle.
  - intros Hm. rewrite Hr.
    destruct (Z.leb_spec (Str.len source) m) as [Hle|_]; [lia|].
    apply StrFacts.endsWith_append.
  - now apply Hcut.
  - now apply Hcut.
  - intros He. destruct (Z.leb_spec (Str.len source) m) as [Hle|Hm].
    + now rewrite Hr.
    + destruct (Hcut He Hm) as [_ ->]. lia.
Qed.

Lemma extractDescription_bounded_witness :
  extractDescription Examples.eight_letters Examples.five_characters = "ab..."
  /\ Str.len (extractDescription Examples.eight_letters Examples.five_characters) = 5%Z.
Proof.
  destruct (extractDescription_bounded Examples.eight_letters Examples.five_characters)
    as (_ & _ & Hcut & _).
  destruct Hcut as [Hr Hl]; [vm_compute; discriminate | reflexivity |].
  split; [rewrite Hr; reflexivity | exact Hl].
Defined.

(* ------------------------------------------------------------------ *)
(** ** The frontmatter resolver *)

(** C2. The merged frontmatter takes each property from the sidecar when
    the sidecar has it and from the inline frontmatter otherwise: this
    holds for every declared field and for every other property name; the
    nested namespace is taken as a whole. With neither source the result
    is the empty record. *)
Theorem mergeFrontmatter_sidecar_wins (inline sidecar : option FrontMatter) :
  let merged := mergeFrontmatter inline sidecar in
  let pick {A : Type} (field : FrontMatter -> option A) :=
    coalesce_opt (opt_chain sidecar field) (opt_chain inline field) in
  fm_layout merged = pick fm_layout
  /\ fm_published merged = pick fm_published
  /\ fm_date merged = pick fm_date
  /\ fm_category merged = pick fm_category
  /\ fm_categories merged = pick fm_categories
  /\ fm_tags merged = pick fm_tags
  /\ fm_x_kleinboy merged = pick fm_x_kleinboy
  /\ (well_formed_rest inline -> well_formed_rest sidecar ->
      forall k, Obj.get (fm_rest merged) k
                = coalesce_opt (rest_of sidecar k) (rest_of inline k))
  /\ (inline = None -> sidecar = None -> merged = empty_frontmatter).
Proof.
  destruct inline as [i|], sidecar as [s|]; cbv zeta;
    unfold mergeFrontmatter, spread, rest_of, opt_chain, coalesce_opt; simpl;
    repeat match goal with
           | |- _ /\ _ => split
           end;
    try reflexivity; try discriminate;
    try match goal with
        | |- context [fm_layout ?x] => now destruct (fm_layout x)
        | |- context [fm_published ?x] => now destruct (fm_published x)
        | |- context [fm_date ?x] => now destruct (fm_date x)
        | |- context [fm_category ?x] => now destruct (fm_category x)
        | |- context [fm_categories ?x] => now destruct (fm_categories x)
        | |- context [fm_tags ?x] => now destruct (fm_tags x)
        | |- context [fm_x_kleinboy ?x] => now destruct (fm_x_kleinboy x)
        end.
  - intros Hi Hs k. rewrite !ObjFacts.get_assign by assumption. simpl.
    now destruct (Obj.get (fm_rest s) k), (Obj.get (fm_rest i) k).
  - intros Hi _ k. rewrite !ObjFacts.get_assign by assumption. simpl.
    now destruct (Obj.get (fm_rest i) k).
  - intros _ Hs k. rewrite !ObjFacts.get_assign by assumption. simpl.
    now destruct (Obj.get (fm_rest s) k).
Qed.

Lemma mergeFrontmatter_sidecar_wins_witness :
  Obj.get
    (fm_rest (mergeFrontmatter (Some (Examples.titled "A")) (Some (Examples.titled "B"))))
    "title"
  = Some (JStr "B").
Proof.
  destruct (mergeFrontmatter_sidecar_wins
              (Some (Examples.titled "A")) (Some (Examples.titled "B")))
    as (_ & _ & _ & _ & _ & _ & _ & Hrest & _).
  rewrite Hrest.
  - reflexivity.
  - repeat constructor; simpl; tauto.
  - repeat constructor; simpl; tauto.
Defined.

(* ------------------------------------------------------------------ *)
(** ** Computations *)

Lemma outcome_bind {A B : Type} (m : M A) (f : A -> M B) :
  outcome (bind m f) =
  match outcome m with
  | Ok a => outcome (f a)
  | Throw e => Throw e
  end.
Proof.
  destruct m as [[a|e] t]; simpl; [|reflexivity]. now destruct (f a).
Qed.

Lemma trace_bind {A B : Type} (m : M A) (f : A -> M B) :
  trace (bind m f) =
  match outcome m with
  | Ok a => trace m ++ trace (f a)
  | Throw e => trace m
  end.
Proof.
  destruct m as [[a|e] t]; simpl; [|reflexivity]. now destruct (f a).
Qed.

#[local] Arguments bind : simpl never.



Section CollectArticleFacts.
Context (host : Host) (fs : FileSystem).


Lemma extractFrontmatter_unfold (node : Node) :
  extractFrontmatter host node =
  if includes ["yaml"; "toml"] (type node) then
    if String.eqb (type node) "toml"
    then parsed (as_string (value node)) (toml_parse host (as_string (value node)))
    else parsed (as_string (value node)) (yaml_safeLoad host (as_string (value node)))
  else
    match children node with
    | Some cs =>
        fold_right (fun child rest =>
                      match extractFrontmatter host child with
                      | Ok (Some frontmatter) => Ok (Some frontmatter)
                      | Ok None => rest
                      | Throw e => Throw e
                      end) (Ok None) cs
    | None => Ok None
    end.
Proof.
  destruct node as [t v u cs]. unfold includes. simpl.
  destruct (_ || _); [reflexivity|].
  destruct cs as [cs|]; [|reflexivity].
  induction cs as [|c cs IH]; [reflexivity|].
  simpl fold_right. rewrite <- IH. reflexivity.
Qed.






Lemma outcome_dump (c : bool) (dir p : string) (data : Payload) :
  outcome (when c (mkdir fs dir ;;; writeFile_detached p data)%js) =
  if c && negb (fs_mkdir fs dir) then Throw (SystemError "mkdir" dir) else Ok tt.
Proof.
  destruct c; simpl; [|reflexivity].
  unfold mkdir, outcome; simpl. now destruct (fs_mkdir fs dir).
Qed.

(** The outcome of [collectArticle], step by step. *)
Lemma collectArticle_outcome (markdownPath articlePath : string) (config : Config) :
  outcome (collectArticle host fs markdownPath articlePath config) =
  match fs_readFile fs markdownPath with
  | None => Throw (SystemError "open" markdownPath)
  | Some markdownString =>
      let markdownAST := processor_parse host markdownString in
      match extractFrontmatter host markdownAST with
      | Throw e => Throw e
      | Ok markdownFrontmatter =>
          match outcome (findMetadataFrontmatter host fs markdownPath) with
          | Throw e => Throw e
          | Ok metadataFrontmatter =>
              let dir kind ext :=
                path_dirname host
                  (path_join host ["generated"; kind; (articlePath ++ ext)%string]) in
              if truthy (dumpArticleAST config) && negb (fs_mkdir fs (dir "ast" ".json"))
              then Throw (SystemError "mkdir" (dir "ast" ".json"))
              else if truthy (dumpArticleHTML config)
                      && negb (fs_mkdir fs (dir "html" ".html"))
              then Throw (SystemError "mkdir" (dir "html" ".html"))
              else Ok (assembled markdownPath articlePath config markdownAST
                         (mergeFrontmatter markdownFrontmatter metadataFrontmatter))
          end
      end
  end.
Proof.
  unfold collectArticle. rewrite outcome_bind.
  unfold readFile at 1. unfold outcome at 1. simpl fst.
  destruct (fs_readFile fs markdownPath) as [s|]; [|reflexivity].
  rewrite outcome_bind. unfold lift at 1, outcome at 1. simpl fst.
  destruct (extractFrontmatter host (processor_parse host s)) as [md|e]; [|reflexivity].
  rewrite outcome_bind.
  destruct (outcome (findMetadataFrontmatter host fs markdownPath)) as [meta|e];
    [|reflexivity].
  cbv zeta. rewrite outcome_bind, outcome_dump. simpl am_path.
  destruct (truthy (dumpArticleAST config) && _); [reflexivity|].
  rewrite outcome_bind, outcome_dump.
  destruct (truthy (dumpArticleHTML config) && _); reflexivity.
Qed.

Lemma collectArticle_Ok (markdownPath articlePath : string) (config : Config)
    (a : ArticleMetadata) :
  outcome (collectArticle host fs markdownPath articlePath config) = Ok a ->
  exists markdownAST frontmatter,
    reads host fs markdownPath markdownAST frontmatter
    /\ a = assembled markdownPath articlePath config markdownAST frontmatter.
Proof.
  rewrite collectArticle_outcome.
  destruct (fs_readFile fs markdownPath) as [s|] eqn:Es; [|discriminate].
  cbv zeta.
  destruct (extractFrontmatter host (processor_parse host s)) as [md|e] eqn:Emd;
    [|discriminate].
  destruct (outcome (findMetadataFrontmatter host fs markdownPath)) as [meta|e] eqn:Em;
    [|discriminate].
  destruct (truthy (dumpArticleAST config) && _); [discriminate|].
  destruct (truthy (dumpArticleHTML config) && _); [discriminate|].
  intros [= <-].
  exists (processor_parse host s), (mergeFrontmatter md meta). split; [|reflexivity].
  exists s, md, meta. auto.
Qed.

Lemma collectArticle_returns (markdownPath articlePath : string) (config : Config)
    (markdownAST : Node) (frontmatter : FrontMatter) :
  reads host fs markdownPath markdownAST frontmatter ->
  dumps_succeed host fs config articlePath ->
  outcome (collectArticle host fs markdownPath articlePath config)
  = Ok (assembled markdownPath articlePath config markdownAST frontmatter).
Proof.
  intros (s & md & meta & Hs & -> & Hmd & Hm & ->) [Hast Hhtml].
  rewrite collectArticle_outcome, Hs. cbv zeta. rewrite Hmd, Hm.
  destruct (truthy (dumpArticleAST config)); simpl.
  - rewrite Hast by reflexivity. simpl.
    destruct (truthy (dumpArticleHTML config)); simpl; [|reflexivity].
    now rewrite Hhtml.
  - destruct (truthy (dumpArticleHTML config)); simpl; [|reflexivity].
    now rewrite Hhtml.
Qed.

End CollectArticleFacts.

(* ------------------------------------------------------------------ *)
(** ** The article collector *)

(** C3. The title of a collected article is the title of the
    [x-kleinboy] namespace when the merged frontmatter has one; else the
    space-joined text of the first heading of the tree; else the
    configured default, which is "(Untitled)" when none is configured.
    Whenever the file and its frontmatter can be read, the article is
    produced. *)
Theorem collectArticle_title (host : Host) (fs : FileSystem)
    (markdownPath articlePath : string) (config : Config) :
  let title_of (markdownAST : Node) (frontmatter : FrontMatter) : string :=
    match namespace frontmatter kb_title with
    | Some title => title
    | None =>
        match find is_heading (subnodes markdownAST) with
        | Some heading => Str.join " " (findTexts None heading)
        | None => coalesce (untitled config) "(Untitled)"
        end
    end in
  (forall a,
      outcome (collectArticle host fs markdownPath articlePath config) = Ok a ->
      exists markdownAST frontmatter,
        reads host fs markdownPath markdownAST frontmatter
        /\ am_title a = title_of markdownAST frontmatter)
  /\ (forall markdownAST frontmatter,
         reads host fs markdownPath markdownAST frontmatter ->
         dumps_succeed host fs config articlePath ->
         exists a,
           outcome (collectArticle host fs markdownPath articlePath config) = Ok a
           /\ am_title a = title_of markdownAST frontmatter).
Proof.
  intros title_of.
  assert (Ht : forall ast fm,
             am_title (assembled markdownPath articlePath config ast fm)
             = title_of ast fm).
  { intros ast fm. unfold title_of. simpl.
    destruct (namespace fm kb_title); [reflexivity|]. simpl.
    rewrite extractTitle_first_heading.
    now destruct (find is_heading (subnodes ast)). }
  split.
  - intros a Ha. apply collectArticle_Ok in Ha.
    destruct Ha as (ast & fm & Hr & ->). exists ast, fm. auto.
  - intros ast fm Hr Hd.
    exists (assembled markdownPath articlePath config ast fm). split.
    + now apply collectArticle_returns.
    + apply Ht.
Qed.

Lemma collectArticle_title_witness :
  exists a,
    outcome (collectArticle Examples.host Examples.site_c "articles/c.md" "c" Sample.config)
    = Ok a
    /\ am_title a = "C".
Proof.
  destruct (collectArticle_title Examples.host Examples.site_c
              "articles/c.md" "c" Sample.config) as [_ H].
  destruct (H (processor_parse Examples.host
                 (Examples.page (Examples.title_block "C") ["# D"]))
              (Examples.entitled "C")) as (a & Ha & Ht).
  - exists (Examples.page (Examples.title_block "C") ["# D"]),
      (Some (Examples.entitled "C")), None.
    repeat split; reflexivity.
  - split; discriminate.
  - exists a. split; [exact Ha | rewrite Ht; reflexivity].
Defined.

(** C9. A collected article always carries a description and a list of
    images: those of the namespace when it has them, else the extracted
    description and the extracted images. Its tags are those of the merged
    frontmatter, with no fallback, so they are absent exactly when the
    merged frontmatter has none. *)
Theorem collectArticle_fallbacks (host : Host) (fs : FileSystem)
    (markdownPath articlePath : string) (config : Config) (a : ArticleMetadata) :
  outcome (collectArticle host fs markdownPath articlePath config) = Ok a ->
  exists markdownAST frontmatter,
    reads host fs markdownPath markdownAST frontmatter
    /\ am_description a
       = Some (match namespace frontmatter kb_description with
               | Some description => description
               | None => extractDescription markdownAST None
               end)
    /\ am_images a
       = Some (match namespace frontmatter kb_images with
               | Some images => images
               | None => extractImages markdownAST
               end)
    /\ am_description a <> None
    /\ am_images a <> None
    /\ am_tags a = fm_tags frontmatter
    /\ (am_tags a = None <-> fm_tags frontmatter = None).
Proof.
  intros Ha. apply collectArticle_Ok in Ha. destruct Ha as (ast & fm & Hr & ->).
  exists ast, fm. simpl. repeat split; auto; discriminate.
Qed.

Lemma collectArticle_fallbacks_witness :
  exists a,
    outcome (collectArticle Examples.host Examples.site_c "articles/c.md" "c" Sample.config)
    = Ok a
    /\ am_description a <> None
    /\ am_images a <> None
    /\ am_description a = Some EmptyString
    /\ am_images a = Some []
    /\ am_tags a = None.
Proof.
  pose (a := assembled "articles/c.md" "c" Sample.config
               (processor_parse Examples.host
                  (Examples.page (Examples.title_block "C") ["# D"]))
               (Examples.entitled "C")).
  assert (Ha : outcome (collectArticle Examples.host Examples.site_c
                          "articles/c.md" "c" Sample.config) = Ok a)
    by reflexivity.
  destruct (collectArticle_fallbacks _ _ _ _ _ Ha)
    as (ast & fm & _ & _ & _ & Hd & Hi & _ & _).
  exists a. split; [exact Ha|]. split; [exact Hd|]. split; [exact Hi|].
  repeat split; reflexivity.
Defined.

(* ------------------------------------------------------------------ *)
(** ** The article registry *)

Section OrderFacts.
Context (host : Host).
Hypothesis collation : consistent_collation host.

Lemma compareArticles_moved (x y : ArticleIndex) :
  date_parses host x -> date_parses host y ->
  sorts_after (compareArticles host) y x = true -> listed_before host x y.
Proof.
  unfold date_parses, sorts_after, compareArticles, listed_before.
  destruct (ai_published_time x) as [tx|], (ai_published_time y) as [ty|];
    simpl; try easy.
  - destruct (Date_parse host tx), (Date_parse host ty); simpl; try easy.
    intros _ _ H. apply Z.ltb_lt in H. lia.
  - intros _ _ H. apply Z.ltb_lt in H. apply collation. lia.
Qed.

Lemma compareArticles_kept (x y : ArticleIndex) :
  date_parses host x -> date_parses host y ->
  sorts_after (compareArticles host) y x = false -> listed_before host y x.
Proof.
  unfold date_parses, sorts_after, compareArticles, listed_before.
  destruct (ai_published_time x) as [tx|], (ai_published_time y) as [ty|];
    simpl; try easy.
  - destruct (Date_parse host tx), (Date_parse host ty); simpl; try easy.
    intros _ _ H. apply Z.ltb_ge in H. lia.
  - intros _ _ H. apply Z.ltb_ge in H. lia.
Qed.

Lemma listed_before_trans (x y z : ArticleIndex) :
  date_parses host x -> date_parses host y -> date_parses host z ->
  listed_before host x y -> listed_before host y z -> listed_before host x z.
Proof.
  unfold date_parses, listed_before.
  destruct (ai_published_time x) as [tx|], (ai_published_time y) as [ty|],
    (ai_published_time z) as [tz|]; try easy.
  - destruct (Date_parse host tx), (Date_parse host ty), (Date_parse host tz);
      simpl; try easy. lia.
  - intros _ _ _. apply collation.
Qed.

Lemma orderArticles_undated_first (result : Obj.t ArticleMetadata) :
  StronglySorted (undated_first host) (orderArticles host result).
Proof.
  apply Array_sort_sorted with (dom := fun _ => True).
  - intros x y _ _. unfold sorts_after, compareArticles, undated_first.
    destruct (ai_published_time x), (ai_published_time y); simpl; try easy.
    intros H. apply Z.ltb_lt in H. apply collation. lia.
  - intros x y _ _. unfold sorts_after, compareArticles, undated_first.
    destruct (ai_published_time x), (ai_published_time y); simpl; try easy.
    intros H. apply Z.ltb_ge in H. lia.
  - intros x y z _ _ _. unfold undated_first.
    destruct (ai_published_time x), (ai_published_time y), (ai_published_time z);
      try easy.
    apply collation.
  - apply Forall_forall. easy.
Qed.

Lemma orderArticles_by_date (result : Obj.t ArticleMetadata) :
  Forall (date_parses host) (map makeArticleIndex (Obj.values result)) ->
  StronglySorted (listed_before host) (orderArticles host result).
Proof.
  apply Array_sort_sorted.
  - apply compareArticles_moved.
  - apply compareArticles_kept.
  - apply listed_before_trans.
Qed.

End OrderFacts.

Lemma collectArticles_Ok (host : Host) (fs : FileSystem) (config : Config)
    (registry : ArticleRegistry) :
  outcome (collectArticles host fs config) = Ok registry ->
  fs_exists fs "articles" = true
  /\ orderedArticles registry = orderArticles host (articles registry).
Proof.
  unfold collectArticles. intros H. rewrite outcome_bind in H.
  unfold exists_ at 1, outcome at 1 in H. simpl fst in H.
  destruct (fs_exists fs "articles"); simpl negb in H; cbv iota in H; [|discriminate].
  rewrite (@outcome_bind (list string) ArticleRegistry) in H.
  unfold glob at 1, outcome at 1 in H. simpl fst in H. cbv beta iota in H.
  rewrite (@outcome_bind (Obj.t ArticleMetadata) ArticleRegistry) in H.
  destruct (outcome (for_of _ _ _)) as [result|e]; [|discriminate].
  injection H as <-. split; reflexivity.
Qed.

Lemma compare_not_Lt_trans (a b c : string) :
  String.compare a b <> Lt -> String.compare b c <> Lt -> String.compare a c <> Lt.
Proof.
  revert b c. induction a as [|x a IH]; intros [|y b] [|z c]; simpl; try easy.
  unfold Ascii.compare.
  destruct (N.compare_spec (N_of_ascii x) (N_of_ascii y)) as [Hxy|Hxy|Hxy];
    destruct (N.compare_spec (N_of_ascii y) (N_of_ascii z)) as [Hyz|Hyz|Hyz];
    try easy.
  - rewrite Hxy, Hyz, N.compare_refl. apply IH.
  - rewrite Hxy. apply N.compare_gt_iff in Hyz. now rewrite Hyz.
  - rewrite <- Hyz. apply N.compare_gt_iff in Hxy. now rewrite Hxy.
  - assert (H : (N_of_ascii z < N_of_ascii x)%N) by lia.
    apply N.compare_gt_iff in H. now rewrite H.
Qed.

Lemma sample_collation (documents : list (string * Node))
    (frontmatters : list (string * option FrontMatter)) :
  consistent_collation (Sample.host documents frontmatters).
Proof.
  split; simpl; unfold Sample.locale_compare.
  - intros a b. rewrite (String.compare_antisym b a).
    destruct (String.compare a b); simpl; lia.
  - intros a b c Hab Hbc.
    pose proof (@compare_not_Lt_trans a b c) as H.
    destruct (String.compare a b), (String.compare b c), (String.compare a c);
      try lia; exfalso; apply H; congruence.
Qed.

(** C1, as stated, fails on a date that [Date.parse] does not read: the
    comparator then answers NaN, which the sort takes for "equal", and the
    article of 2020 stays before the article of 2021. *)
Lemma orderedArticles_unparsable_date :
  exists registry,
    outcome (collectArticles Examples.host Examples.site_soon Sample.config) = Ok registry
    /\ map (fun i => (ai_path i, ai_published_time i)) (orderedArticles registry)
       = [("a", Some "2020-01-01"); ("b", Some "soon"); ("c", Some "2021-01-01")]
    /\ ~ StronglySorted (listed_before Examples.host) (orderedArticles registry).
Proof.
  destruct (outcome (collectArticles Examples.host Examples.site_soon Sample.config))
    as [registry|e] eqn:E; vm_compute in E; [|discriminate].
  injection E as <-. eexists. split; [reflexivity|]. split; [reflexivity|].
  intros H. simpl in H. inversion H as [|? ? _ Hall]; subst.
  inversion Hall as [|? ? _ Hc]; subst. inversion Hc as [|? ? Hac _]; subst.
  vm_compute in Hac. now apply Hac.
Qed.

(** C1, amended. [orderedArticles] holds the projection of every
    collected article, sorted so that an article without [published_time]
    comes before every article with one and the undated ones come by
    descending path; when every date of the collection is one
    [Date.parse] reads, the dated ones come by descending date. For the
    articles "a" (no date), "b" (2020-01-01) and "c" (2021-01-01) the order
    is a, c, b. *)
Theorem orderedArticles_sorted (host : Host) (fs : FileSystem) (config : Config)
    (registry : ArticleRegistry) :
  consistent_collation host ->
  outcome (collectArticles host fs config) = Ok registry ->
  Permutation (map makeArticleIndex (Obj.values (articles registry)))
    (orderedArticles registry)
  /\ StronglySorted (undated_first host) (orderedArticles registry)
  /\ (Forall (date_parses host) (map makeArticleIndex (Obj.values (articles registry))) ->
      StronglySorted (listed_before host) (orderedArticles registry))
  /\ (forall d2020 d2021,
         Date_parse host "2020-01-01" = Num d2020 ->
         Date_parse host "2021-01-01" = Num d2021 ->
         (d2020 < d2021)%Z ->
         map ai_path (orderArticles host Examples.three_articles) = ["a"; "c"; "b"]).
Proof.
  intros Hc Hr. apply collectArticles_Ok in Hr. destruct Hr as [_ ->].
  split; [apply Array_sort_perm|].
  split; [now apply orderArticles_undated_first|].
  split; [now apply orderArticles_by_date|].
  intros d2020 d2021 H0 H1 Hlt. unfold orderArticles.
  change (map makeArticleIndex (Obj.values Examples.three_articles))
    with [makeArticleIndex (Sample.article "a" None None);
          makeArticleIndex (Sample.article "b" (Some "2020-01-01") None);
          makeArticleIndex (Sample.article "c" (Some "2021-01-01") None)].
  unfold Array_sort. simpl fold_left.
  unfold insert_back, sorts_after, compareArticles. simpl.
  rewrite H0, H1. simpl.
  replace (0 <? - (d2021 - d2020))%Z with false by (symmetry; apply Z.ltb_ge; lia).
  replace (0 <? - (d2020 - d2021))%Z with true by (symmetry; apply Z.ltb_lt; lia).
  reflexivity.
Qed.

Lemma orderedArticles_sorted_witness :
  exists registry,
    outcome (collectArticles Examples.host Examples.site_dates Sample.config) = Ok registry
    /\ map ai_path (orderedArticles registry) = ["a"; "c"; "b"]
    /\ StronglySorted (listed_before Examples.host) (orderedArticles registry)
    /\ map ai_path (orderArticles Examples.host Examples.three_articles) = ["a"; "c"; "b"].
Proof.
  destruct (outcome (collectArticles Examples.host Examples.site_dates Sample.config))
    as [registry|e] eqn:E; [|vm_compute in E; discriminate].
  destruct (@orderedArticles_sorted Examples.host Examples.site_dates Sample.config
              registry) as (_ & _ & Hs & He).
  - apply sample_collation.
  - exact E.
  - exists registry. split; [reflexivity|].
    split; [vm_compute in E; injection E as <-; reflexivity|].
    split.
    + apply Hs. vm_compute in E. injection E as <-.
      repeat constructor; simpl; discriminate.
    + apply (He 1577836800000%Z 1609459200000%Z); [reflexivity | reflexivity | lia].
Defined.

(* ------------------------------------------------------------------ *)
(** ** The tag registry *)

(** [register] on a key the dictionary has, or that names no member of
    [Object.prototype]. *)
Lemma register_stores {T : Type} (m : Obj.t (Obj.t T)) (k1 k2 : string) (v : T) :
  Obj.get m k1 <> None \/ Obj.inherited k1 = false ->
  register m k1 k2 v
  = Obj.set m k1 (Obj.put (coalesce (Obj.get m k1) Obj.empty) k2 v).
Proof.
  unfold register, getOrPrepare, Obj.read.
  destruct (Obj.get m k1) as [inner|] eqn:E; simpl; [reflexivity|].
  intros [H|H]; [congruence|]. rewrite H.
  rewrite ObjFacts.put_set by now apply ObjFacts.plain_not_proto.
  apply ObjFacts.set_set.
Qed.

(** [register] on a key the dictionary only inherits. *)
Lemma register_inherited {T : Type} (m : Obj.t (Obj.t T)) (k1 k2 : string) (v : T) :
  Obj.get m k1 = None -> Obj.inherited k1 = true -> register m k1 k2 v = m.
Proof.
  intros E H. unfold register, getOrPrepare, Obj.read. now rewrite E, H.
Qed.

Lemma get_register {T : Type} (m : Obj.t (Obj.t T)) (k1 k2 k : string) (v : T) :
  Obj.inherited k1 = false ->
  Obj.get (register m k1 k2 v) k =
  if String.eqb k1 k
  then Some (Obj.put (coalesce (Obj.get m k1) Obj.empty) k2 v)
  else Obj.get m k.
Proof.
  intros H. rewrite register_stores by now right. apply ObjFacts.get_set.
Qed.

Lemma indexTags_uses (articles : Obj.t ArticleMetadata) :
  indexTags articles =
  fold_left (fun m p => register m (fst p) (am_path (snd p)) (makeArticleIndex (snd p)))
    (tag_uses articles) Obj.empty.
Proof.
  unfold indexTags, tag_uses.
  generalize (@Obj.empty (Obj.t ArticleIndex)) as acc.
  induction (Obj.values articles) as [|a l IH]; intros acc; simpl; [reflexivity|].
  rewrite fold_left_app, IH. f_equal.
  destruct (am_tags a) as [ts|]; simpl; [|reflexivity].
  revert acc. induction ts as [|t ts IHt]; intros acc; simpl; [reflexivity|].
  apply IHt.
Qed.


(** What the first loop has built after a list of uses. *)
Lemma register_uses (uses : list (string * ArticleMetadata)) :
  let m := fold_left
             (fun m p => register m (fst p) (am_path (snd p)) (makeArticleIndex (snd p)))
             uses Obj.empty in
  (forall key, Obj.get m key <> None
               <-> Obj.inherited key = false /\ exists a, In (key, a) uses)
  /\ (forall key inner p index,
         Obj.get m key = Some inner -> Obj.get inner p = Some index ->
         exists a, In (key, a) uses /\ am_path a = p /\ index = makeArticleIndex a)
  /\ (forall key a,
         In (key, a) uses -> Obj.inherited key = false -> am_path a <> "__proto__" ->
         exists inner index,
           Obj.get m key = Some inner /\ Obj.get inner (am_path a) = Some index).
Proof.
  induction uses as [|[t b] uses IH] using rev_ind; cbv zeta.
  - simpl. split; [|split].
    + intros key. split; [congruence | intros [_ [a []]]].
    + discriminate.
    + contradiction.
  - rewrite fold_left_app. simpl fold_left. cbv zeta in IH.
    set (m := fold_left _ uses Obj.empty) in *.
    destruct IH as (IHa & IHb & IHc).
    destruct (Obj.inherited t) eqn:Et.
    { (* the write lands outside the dictionary *)
      assert (Em : Obj.get m t = None).
      { destruct (Obj.get m t) eqn:E; [|reflexivity].
        assert (Hn : Obj.get m t <> None) by congruence.
        apply IHa in Hn. destruct Hn as [Hn _]. congruence. }
      cbn [fst snd]. rewrite (register_inherited _ _ _ _ Em Et). split; [|split].
      - intros key. rewrite IHa. split; intros [Hk [a Ha]]; (split; [exact Hk|]); exists a.
        + apply in_or_app. now left.
        + apply in_app_or in Ha. destruct Ha as [Ha|[[= -> ->]|[]]]; congruence.
      - intros key inner p index E Hi.
        destruct (IHb key inner p index E Hi) as (a & Ha & Hpa & Hia).
        exists a. split; [|now split]. apply in_or_app. now left.
      - intros key a Ha Hk Hp.
        apply in_app_or in Ha. destruct Ha as [Ha|[[= -> ->]|[]]]; [|congruence].
        now apply IHc. }
    cbn [fst snd]. split; [|split].
    + intros key. rewrite get_register by exact Et.
      destruct (String.eqb_spec t key) as [->|Hne].
      * split; [|discriminate]. intros _. split; [exact Et|].
        exists b. apply in_or_app. right. now left.
      * rewrite IHa. split; intros [Hk [a Ha]]; (split; [exact Hk|]); exists a.
        -- apply in_or_app. now left.
        -- apply in_app_or in Ha. destruct Ha as [Ha|[[= -> ->]|[]]]; congruence.
    + intros key inner p index. rewrite get_register by exact Et.
      destruct (String.eqb_spec t key) as [->|Hne].
      * intros [= <-] Hi. apply ObjFacts.get_put in Hi.
        destruct Hi as [[<- ->]|Hi].
        -- exists b. split; [|split; reflexivity].
           apply in_or_app. right. now left.
        -- destruct (Obj.get m key) as [inner|] eqn:E; simpl in Hi; [|discriminate].
           destruct (IHb key inner p index E Hi) as (a & Ha & Hpa & Hia).
           exists a. split; [|now split]. apply in_or_app. now left.
      * intros E Hi. destruct (IHb key inner p index E Hi) as (a & Ha & Hpa & Hia).
        exists a. split; [|now split]. apply in_or_app. now left.
    + intros key a Ha Hk Hp. rewrite get_register by exact Et.
      destruct (String.eqb_spec t key) as [->|Hne].
      * eexists. 
        destruct (String.eqb_spec (am_path b) (am_path a)) as [Hq|Hq].
        -- exists (makeArticleIndex b). split; [reflexivity|].
           rewrite ObjFacts.put_set by congruence.
           rewrite <- Hq. apply ObjFacts.get_set_same.
        -- apply in_app_or in Ha. destruct Ha as [Ha|[[= ->]|[]]]; [|congruence].
           destruct (IHc key a Ha Hk Hp) as (inner & index & E & Hi).
           exists index. split; [reflexivity|].
           rewrite ObjFacts.get_put_other by exact Hq. rewrite E. exact Hi.
      * apply in_app_or in Ha. destruct Ha as [Ha|[[= -> ->]|[]]]; [|congruence].
        now apply (IHc key a Ha).
Qed.

(** No key of the dictionary of the first loop names a member of
    [Object.prototype]. *)
Lemma indexTags_plain (articles : Obj.t ArticleMetadata) (key : string) :
  In key (Obj.keys (indexTags articles)) -> Obj.inherited key = false.
Proof.
  intros H. apply ObjFacts.In_keys in H.
  pose proof (register_uses (tag_uses articles)) as Hu.
  cbv zeta in Hu. rewrite <- indexTags_uses in Hu.
  destruct Hu as (Ha & _). now apply Ha in H.
Qed.

Section CollectTagsFacts.
Context (host : Host) (fs : FileSystem) (config : Config).

Lemma tag_turn_outcome (tags : Obj.t TagMetadata) (key : string) :
  outcome (tag_turn host fs config tags key) =
  match tag_entry host fs config key with
  | Ok entry => Ok (Obj.put tags key entry)
  | Throw e => Throw e
  end.
Proof.
  unfold tag_turn, tag_entry, tag_page, tag_path. cbv zeta.
  rewrite outcome_bind. unfold exists_ at 1, outcome at 1. simpl fst. cbv beta iota.
  destruct (fs_exists fs _); [|reflexivity].
  rewrite outcome_bind.
  destruct (outcome (collectArticle _ _ _ _ _)); reflexivity.
Qed.

Lemma tag_loop (keys : list string) (init tags : Obj.t TagMetadata) :
  (forall key, In key keys -> key <> "__proto__") ->
  outcome (for_of keys (tag_turn host fs config) init) = Ok tags ->
  (forall key, In key keys ->
               exists entry, tag_entry host fs config key = Ok entry
                             /\ Obj.get tags key = Some entry)
  /\ (forall key, ~ In key keys -> Obj.get tags key = Obj.get init key).
Proof.
  revert init. induction keys as [|k keys IH]; intros init Hp; simpl for_of.
  - intros [= <-]. split; [contradiction | reflexivity].
  - rewrite outcome_bind, tag_turn_outcome.
    destruct (tag_entry host fs config k) as [entry|e] eqn:E; [|discriminate].
    intros H. apply IH in H; [|intros key Hk; apply Hp; now right].
    destruct H as [Hin Hout]. split.
    + intros key [<-|Hk]; [|now apply Hin].
      destruct (in_dec string_dec k keys) as [Hk|Hk]; [now apply Hin|].
      exists entry. split; [exact E|].
      rewrite (Hout k Hk), ObjFacts.put_set by (apply Hp; now left).
      apply ObjFacts.get_set_same.
    + intros key Hk. rewrite Hout by (intros Hx; apply Hk; now right).
      apply ObjFacts.get_put_other. intros ->. apply Hk. now left.
Qed.

Lemma collectTags_Ok (registry : ArticleRegistry) (result : TagRegistry) :
  outcome (collectTags host fs registry config) = Ok result ->
  tagToArticles result = indexTags (articles registry)
  /\ outcome (for_of (Obj.keys (indexTags (articles registry)))
                (tag_turn host fs config) Obj.empty)
     = Ok (tags result).
Proof.
  unfold collectTags. cbv zeta. fold (tag_turn host fs config). intros H.
  rewrite (@outcome_bind (Obj.t TagMetadata) TagRegistry) in H.
  destruct (outcome (for_of _ _ _)) as [ts|e]; [|discriminate].
  injection H as <-. split; reflexivity.
Qed.

End CollectTagsFacts.

Lemma reads_functional (host : Host) (fs : FileSystem) (markdownPath : string)
    (ast ast' : Node) (fm fm' : FrontMatter) :
  reads host fs markdownPath ast fm -> reads host fs markdownPath ast' fm' ->
  ast = ast' /\ fm = fm'.
Proof.
  intros (s & md & meta & Hs & -> & Hmd & Hm & ->)
         (s' & md' & meta' & Hs' & -> & Hmd' & Hm' & ->).
  assert (s = s') by congruence; subst s'.
  split; [reflexivity|]. congruence.
Qed.




Lemma collectTags_entry (host : Host) (fs : FileSystem) (registry : ArticleRegistry)
    (config : Config) (result : TagRegistry) (key : string) (entry : TagMetadata) :
  outcome (collectTags host fs registry config) = Ok result ->
  Obj.get (tags result) key = Some entry ->
  tag_entry host fs config key = Ok entry.
Proof.
  intros H E. apply collectTags_Ok in H. destruct H as [_ Ht].
  apply tag_loop in Ht.
  2: { intros k Hk. apply ObjFacts.plain_not_proto. now apply indexTags_plain in Hk. }
  destruct Ht as [Hin Hout].
  destruct (in_dec string_dec key (Obj.keys (indexTags (articles registry))))
    as [Hk|Hk].
  - destruct (Hin key Hk) as (entry' & He & E'). congruence.
  - rewrite (Hout key Hk) in E. discriminate.
Qed.

(** C10. When the page of a tag exists and has neither a heading nor a
    title in its frontmatter, the title of the tag is the configured
    default, "(Untitled)" when none is configured: the entry bears the
    title of the collected page, which is always there, and the key is not
    used. *)
Theorem tag_page_untitled (host : Host) (fs : FileSystem) (registry : ArticleRegistry)
    (config : Config) (result : TagRegistry) (key : string) (entry : TagMetadata)
    (markdownAST : Node) (frontmatter : FrontMatter) :
  outcome (collectTags host fs registry config) = Ok result ->
  Obj.get (tags result) key = Some entry ->
  fs_exists fs (tag_page host key) = true ->
  reads host fs (tag_page host key) markdownAST frontmatter ->
  find is_heading (subnodes markdownAST) = None ->
  namespace frontmatter kb_title = None ->
  tm_title entry = coalesce (untitled config) "(Untitled)"
  /\ (untitled config = None -> tm_title entry = "(Untitled)")
  /\ exists article,
       outcome (collectArticle host fs (tag_page host key) (tag_path host key) config)
       = Ok article
       /\ tm_article entry = Some article
       /\ tm_title entry = am_title article.
Proof.
  intros H E Hx Hr Hh Hn.
  pose proof (collectTags_entry _ _ _ _ _ H E) as He.
  unfold tag_entry in He. rewrite Hx in He.
  destruct (outcome (collectArticle _ _ _ _ _)) as [article|e] eqn:Ea; [|discriminate].
  injection He as <-. simpl.
  assert (Ht : am_title article = coalesce (untitled config) "(Untitled)").
  { apply collectArticle_Ok in Ea. destruct Ea as (ast & fm & Hr' & ->).
    destruct (reads_functional Hr Hr') as [<- <-]. simpl.
    now rewrite Hn, extractTitle_first_heading, Hh. }
  split; [exact Ht|]. split.
  - intros Hu. now rewrite Ht, Hu.
  - now exists article.
Qed.

Lemma tag_page_untitled_witness :
  exists registry result entry,
    outcome (collectArticles Examples.host Examples.site_notes Sample.config) = Ok registry
    /\ outcome (collectTags Examples.host Examples.site_notes registry Sample.config)
       = Ok result
    /\ Obj.get (tags result) "go" = Some entry
    /\ tm_title entry = "(Untitled)".
Proof.
  destruct (outcome (collectArticles Examples.host Examples.site_notes Sample.config))
    as [registry|e] eqn:E1; [|vm_compute in E1; discriminate].
  destruct (outcome (collectTags Examples.host Examples.site_notes registry
                       Sample.config))
    as [result|e] eqn:E2.
  2: { exfalso. vm_compute in E1. injection E1 as <-. vm_compute in E2. discriminate. }
  destruct (Obj.get (tags result) "go") as [entry|] eqn:Eg.
  2: { exfalso. vm_compute in E1. injection E1 as <-.
       vm_compute in E2. injection E2 as <-. vm_compute in Eg. discriminate. }
  exists registry, result, entry.
  split; [reflexivity|]. split; [exact E2|]. split; [exact Eg|].
  destruct (@tag_page_untitled Examples.host Examples.site_notes registry Sample.config
              result "go" entry
              (processor_parse Examples.host "Notes on the language.")
              (mergeFrontmatter None None) E2 Eg) as (_ & Ht & _).
  - reflexivity.
  - exists "Notes on the language.", None, None. repeat split; reflexivity.
  - reflexivity.
  - reflexivity.
  - now apply Ht.
Defined.

(* ================================================================== *)
(** * Further properties of the code *)

(* ------------------------------------------------------------------ *)
(** ** The extractors *)

Lemma extractImages_unfold (node : Node) :
  extractImages node =
  if is_image node then [as_string (url node)]
  else match children node with
       | Some cs => flat_map extractImages cs
       | None => []
       end.
Proof.
  destruct node as [t v u cs]. unfold is_image. simpl.
  destruct (String.eqb t "image"); [reflexivity|].
  destruct cs as [cs|]; [|reflexivity].
  assert (H : forall l images,
    (fix each (l : list Node) (images : list string) : list string :=
       match l with
       | [] => images
       | child :: r => each r (images ++ extractImages child)
       end) l images = images ++ flat_map extractImages l).
  { induction l as [|c l IH]; intros images; simpl.
    - now rewrite app_nil_r.
    - now rewrite IH, app_assoc. }
  now rewrite H.
Qed.

Lemma map_filter_flat_map {A B C : Type} (g : B -> C) (p : B -> bool)
    (f : A -> list B) (l : list A) :
  map g (filter p (flat_map f l)) = flat_map (fun x => map g (filter p (f x))) l.
Proof.
  induction l as [|x l IH]; simpl; [reflexivity|].
  now rewrite filter_app, map_app, IH.
Qed.

(** [extractImages] gives the url of every image node the traversal
    meets, in document order and with repetitions; it does not look below
    an image. *)
Theorem extractImages_document_order (node : Node) :
  extractImages node
  = map (fun image => as_string (url image)) (filter is_image (reached is_image node)).
Proof.
  induction node as [t v u|t v u cs IH] using Node_ind;
    rewrite extractImages_unfold, reached_unfold; simpl children;
    destruct (is_image _) eqn:E; simpl; rewrite ?E; simpl; try reflexivity.
  rewrite map_filter_flat_map.
  induction IH as [|c cs Hc _ IHcs]; simpl; [reflexivity|].
  now rewrite Hc, IHcs.
Qed.

(** A tree has a title exactly when it has a heading. *)
Theorem extractTitle_defined (node : Node) :
  extractTitle node <> None
  <-> exists heading, In heading (subnodes node) /\ is_heading heading = true.
Proof.
  rewrite extractTitle_first_heading.
  destruct (find is_heading (subnodes node)) as [h|] eqn:E; simpl.
  - split; [|discriminate]. intros _. exists h. now apply find_some in E.
  - split; [congruence|]. intros (h & Hin & Hh).
    now rewrite (find_none _ _ E h Hin) in Hh.
Qed.

Lemma without_headings_unfold (node : Node) :
  without_headings node =
  {| type := type node;
     value := value node;
     url := url node;
     children :=
       match children node with
       | Some cs =>
           Some (flat_map (fun c => if is_heading c then [] else [without_headings c]) cs)
       | None => None
       end |}.
Proof. destruct node; reflexivity. Qed.

Lemma findTexts_rejected (visitor : Node -> bool) (node : Node) :
  visitor node = false -> findTexts (Some visitor) node = [].
Proof. intros H. rewrite findTexts_unfold. simpl. now rewrite H. Qed.

Lemma not_heading_is_heading (node : Node) : not_heading node = negb (is_heading node).
Proof. unfold not_heading, is_heading. now destruct (String.eqb _ _). Qed.

(** Pruning the headings during the traversal or removing them from the
    tree beforehand comes to the same: the texts collected for the
    description are all the texts of the tree without its heading
    subtrees, and a tree that is a heading gives none. *)
Theorem findTexts_without_headings (node : Node) :
  findTexts (Some not_heading) node
  = if is_heading node then [] else findTexts None (without_headings node).
Proof.
  induction node as [t v u|t v u cs IH] using Node_ind;
    destruct (is_heading _) eqn:E;
    try (apply findTexts_rejected; now rewrite not_heading_is_heading, E).
  - rewrite !findTexts_unfold, without_headings_unfold. simpl.
    now rewrite not_heading_is_heading, E.
  - rewrite (findTexts_unfold (Some not_heading)), (findTexts_unfold None),
      without_headings_unfold.
    unfold accepts. simpl type. simpl value. simpl children.
    rewrite not_heading_is_heading, E. simpl negb. cbv iota.
    destruct (includes ["text"; "inlineCode"] t), v; try reflexivity.
    all: clear E; induction IH as [|c cs Hc _ IHcs]; simpl; [reflexivity|];
      rewrite flat_map_app, Hc, IHcs; destruct (is_heading c); simpl;
      [reflexivity | now rewrite app_nil_r].
Qed.

(* ------------------------------------------------------------------ *)
(** ** The frontmatter resolver, further *)

Lemma first_parsed_app (l1 l2 : list (Result (option FrontMatter))) :
  first_parsed (l1 ++ l2) =
  match first_parsed l1 with
  | Ok None => first_parsed l2
  | r => r
  end.
Proof.
  induction l1 as [|[[f|]|e] l1 IH]; simpl; auto.
Qed.

(** The inline frontmatter is the document of the first metadata block, in
    document order, that holds one: a block that parses to nothing is
    passed over, the syntax error of a block met before any document is
    raised, and a tree without a block has no inline frontmatter. *)
Theorem extractFrontmatter_first_block (host : Host) (node : Node) :
  extractFrontmatter host node
  = first_parsed (map (parse_block host) (filter is_metadata (reached is_metadata node))).
Proof.
  induction node as [t v u|t v u cs IH] using Node_ind;
    rewrite extractFrontmatter_unfold, reached_unfold;
    match goal with
    | |- context [includes ["yaml"; "toml"] (type ?n)] => fold (is_metadata n)
    end;
    simpl children; simpl filter;
    destruct (is_metadata _) eqn:E; simpl filter; rewrite ?E;
    try reflexivity;
    try (unfold parse_block; simpl;
         match goal with
         | |- ?x = _ => now destruct x as [[f|]|e]
         end).
  clear E. induction IH as [|c cs Hc _ IHcs]; simpl; [reflexivity|].
  rewrite filter_app, map_app, first_parsed_app, <- Hc, <- IHcs.
  now destruct (extractFrontmatter host c) as [[f|]|e].
Qed.

Lemma probe_metadata_cons (host : Host) (fs : FileSystem) (markdownPath ext : string)
    (r : list string) :
  probe_metadata host fs markdownPath (ext :: r) =
  bind (exists_ fs (sidecar markdownPath ext))
    (fun found =>
       if found : bool
       then bind (readFile fs (sidecar markdownPath ext))
              (fun metadataString =>
                 lift (parsed metadataString (parser_of host ext metadataString)))
       else probe_metadata host fs markdownPath r).
Proof.
  unfold parser_of. simpl probe_metadata. unfold sidecar.
  destruct (String.eqb ext ".json"); [reflexivity|].
  destruct (String.eqb ext ".toml"); reflexivity.
Qed.

Lemma trace_exists {A : Type} (fs : FileSystem) (p : string) (f : bool -> M A) :
  trace (bind (exists_ fs p) f) = Exists p :: trace (f (fs_exists fs p)).
Proof. unfold bind, exists_, trace. now destruct (f (fs_exists fs p)). Qed.

Lemma outcome_exists {A : Type} (fs : FileSystem) (p : string) (f : bool -> M A) :
  outcome (bind (exists_ fs p) f) = outcome (f (fs_exists fs p)).
Proof. unfold bind, exists_, outcome. now destruct (f (fs_exists fs p)). Qed.

Lemma trace_readFile {A : Type} (fs : FileSystem) (p : string) (f : string -> M A) :
  trace (bind (readFile fs p) f) =
  ReadFile p :: match fs_readFile fs p with
                | Some s => trace (f s)
                | None => []
                end.
Proof.
  unfold bind, readFile, trace.
  destruct (fs_readFile fs p) as [s|]; [|reflexivity]. now destruct (f s).
Qed.

Lemma outcome_readFile {A : Type} (fs : FileSystem) (p : string) (f : string -> M A) :
  outcome (bind (readFile fs p) f) =
  match fs_readFile fs p with
  | Some s => outcome (f s)
  | None => Throw (SystemError "open" p)
  end.
Proof.
  unfold bind, readFile, outcome.
  destruct (fs_readFile fs p) as [s|]; [|reflexivity]. now destruct (f s).
Qed.

(** The sidecar frontmatter is read from the first sidecar that exists,
    in the order .blog.json, .blog.yml, .blog.yaml, .blog.toml, with the
    parser of its format; the later ones are not looked at, and without
    any sidecar there is no sidecar frontmatter, which is no error. *)
Theorem findMetadataFrontmatter_first_sidecar (host : Host) (fs : FileSystem)
    (markdownPath : string) :
  outcome (findMetadataFrontmatter host fs markdownPath) =
  match find (fun ext => fs_exists fs (sidecar markdownPath ext)) metadata_exts with
  | None => Ok None
  | Some ext =>
      match fs_readFile fs (sidecar markdownPath ext) with
      | None => Throw (SystemError "open" (sidecar markdownPath ext))
      | Some metadataString => parsed metadataString (parser_of host ext metadataString)
      end
  end.
Proof.
  unfold findMetadataFrontmatter. fold metadata_exts.
  induction metadata_exts as [|ext r IH]; [reflexivity|].
  rewrite probe_metadata_cons. simpl find. rewrite outcome_exists.
  destruct (fs_exists fs (sidecar markdownPath ext)); [|exact IH].
  rewrite outcome_readFile.
  destruct (fs_readFile fs (sidecar markdownPath ext)) as [s|]; reflexivity.
Qed.

Lemma probe_metadata_trace (host : Host) (fs : FileSystem) (markdownPath : string)
    (exts : list string) :
  exists checked,
    (forall ext, In ext checked -> In ext exts)
    /\ trace (probe_metadata host fs markdownPath exts)
       = map (fun ext => Exists (sidecar markdownPath ext)) checked
         ++ match find (fun ext => fs_exists fs (sidecar markdownPath ext)) exts with
            | Some ext => [ReadFile (sidecar markdownPath ext)]
            | None => []
            end.
Proof.
  induction exts as [|ext r IH].
  - exists []. split; [easy | reflexivity].
  - rewrite probe_metadata_cons. simpl find. rewrite trace_exists.
    destruct (fs_exists fs (sidecar markdownPath ext)).
    + exists [ext]. split; [intros x [<-|[]]; now left|].
      rewrite trace_readFile.
      destruct (fs_readFile fs (sidecar markdownPath ext)); reflexivity.
    + destruct IH as (checked & Hin & Ht). exists (ext :: checked).
      split; [intros x [<-|Hx]; [now left | right; now apply Hin]|].
      rewrite Ht. reflexivity.
Qed.

(** Looking for a sidecar only checks for sidecars of the markdown file
    and reads at most one file, the sidecar it then parses; it asks for
    nothing else and changes nothing. *)
Theorem findMetadataFrontmatter_reads_one (host : Host) (fs : FileSystem)
    (markdownPath : string) :
  let calls := trace (findMetadataFrontmatter host fs markdownPath) in
  (forall op, In op calls ->
              exists ext, In ext metadata_exts
                          /\ (op = Exists (sidecar markdownPath ext)
                              \/ (op = ReadFile (sidecar markdownPath ext)
                                  /\ fs_exists fs (sidecar markdownPath ext) = true)))
  /\ (List.length (filter (fun op => match op with ReadFile _ => true | _ => false end) calls)
      <= 1)%nat.
Proof.
  cbv zeta. unfold findMetadataFrontmatter. fold metadata_exts.
  destruct (probe_metadata_trace host fs markdownPath metadata_exts)
    as (checked & Hin & ->).
  split.
  - intros op Hop. apply in_app_or in Hop. destruct Hop as [Hop|Hop].
    + apply in_map_iff in Hop. destruct Hop as (ext & <- & Hext).
      exists ext. split; [now apply Hin | now left].
    + destruct (find _ metadata_exts) as [ext|] eqn:E; [|contradiction].
      destruct Hop as [<-|[]]. apply find_some in E. exists ext.
      split; [tauto|]. right. tauto.
  - rewrite filter_app, length_app.
    replace (filter _ (map _ checked)) with (@nil FsOp).
    + destruct (find _ metadata_exts); simpl; lia.
    + clear. induction checked as [|c l IH]; simpl; auto.
Qed.

(* ------------------------------------------------------------------ *)
(** ** What a run asks of the file system *)

Lemma trace_lift {A B : Type} (r : Result A) (f : A -> M B) :
  trace (bind (lift r) f) =
  match r with
  | Ok a => trace (f a)
  | Throw _ => []
  end.
Proof. unfold bind, lift, trace. destruct r as [a|e]; [|reflexivity]. now destruct (f a). Qed.

Lemma trace_dump (fs : FileSystem) (c : bool) (dir p : string) (data : Payload) :
  trace (when c (mkdir fs dir ;;; writeFile_detached p data)%js) =
  if c then Mkdir dir :: (if fs_mkdir fs dir then [WriteFile p data] else [])
  else [].
Proof.
  destruct c; [|reflexivity]. unfold when, bind, mkdir, writeFile_detached, trace.
  now destruct (fs_mkdir fs dir).
Qed.

Section Calls.
Context (allowed : FsOp -> bool).

Lemma allowed_bind {A B : Type} (m : M A) (f : A -> M B) :
  forallb allowed (trace m) = true ->
  (forall a, forallb allowed (trace (f a)) = true) ->
  forallb allowed (trace (bind m f)) = true.
Proof.
  intros Hm Hf. rewrite trace_bind. destruct (outcome m); [|exact Hm].
  rewrite forallb_app, Hm. apply Hf.
Qed.

Lemma allowed_for_of {A B : Type} (xs : list A) (body : B -> A -> M B) (acc : B) :
  (forall b x, forallb allowed (trace (body b x)) = true) ->
  forallb allowed (trace (for_of xs body acc)) = true.
Proof.
  intros Hb. revert acc. induction xs as [|x r IH]; intros acc; [reflexivity|].
  simpl for_of. apply allowed_bind; auto.
Qed.

Context (host : Host) (fs : FileSystem) (config : Config).
Hypothesis reading : forall op, read_only op = true -> allowed op = true.
Hypothesis dumping :
  truthy (dumpArticleAST config) || truthy (dumpArticleHTML config) = true ->
  forall op, allowed op = true.

Lemma allowed_probe (markdownPath : string) (exts : list string) :
  forallb allowed (trace (probe_metadata host fs markdownPath exts)) = true.
Proof.
  destruct (probe_metadata_trace host fs markdownPath exts) as (checked & _ & ->).
  rewrite forallb_app. apply andb_true_intro. split.
  - induction checked as [|c l IH]; [reflexivity|]. simpl.
    now rewrite reading, IH.
  - destruct (find _ exts); [|reflexivity]. simpl. now rewrite reading.
Qed.

Lemma allowed_dump (c : bool) (dir p : string) (data : Payload) :
  (c = true -> truthy (dumpArticleAST config) || truthy (dumpArticleHTML config) = true) ->
  forallb allowed (trace (when c (mkdir fs dir ;;; writeFile_detached p data)%js)) = true.
Proof.
  intros Hc. rewrite trace_dump. destruct c; [|reflexivity].
  specialize (dumping (Hc eq_refl)). simpl.
  rewrite (dumping (Mkdir dir)).
  destruct (fs_mkdir fs dir); [|reflexivity]. simpl. now rewrite dumping.
Qed.

Lemma allowed_collectArticle (markdownPath articlePath : string) :
  forallb allowed (trace (collectArticle host fs markdownPath articlePath config)) = true.
Proof.
  unfold collectArticle.
  apply allowed_bind; [simpl; now rewrite reading|]. intros s.
  apply allowed_bind; [reflexivity|]. intros md.
  apply allowed_bind; [apply allowed_probe|]. intros meta.
  apply allowed_bind.
  { apply allowed_dump. intros ->. reflexivity. }
  intros _. apply allowed_bind; [|reflexivity].
  apply allowed_dump. intros ->. apply orb_true_r.
Qed.

Lemma allowed_collectArticles :
  forallb allowed (trace (collectArticles host fs config)) = true.
Proof.
  unfold collectArticles.
  apply allowed_bind; [simpl; now rewrite reading|]. intros found.
  destruct (negb found); [reflexivity|].
  apply allowed_bind; [simpl; now rewrite reading|]. intros paths.
  apply allowed_bind; [|reflexivity].
  apply allowed_for_of. intros acc p.
  apply allowed_bind; [apply allowed_collectArticle | reflexivity].
Qed.

Lemma allowed_collectTags (registry : ArticleRegistry) :
  forallb allowed (trace (collectTags host fs registry config)) = true.
Proof.
  unfold collectTags. cbv zeta.
  apply allowed_bind; [|reflexivity].
  apply allowed_for_of. intros acc key.
  apply allowed_bind; [simpl; now rewrite reading|]. intros [|]; [|reflexivity].
  apply allowed_bind; [apply allowed_collectArticle | reflexivity].
Qed.

End Calls.



(** A failed collection ends the run. With the dumps of the tree and of
    the HTML switched off, the collection of the articles and that of the
    tags only look, whatever the switches of the registries are; and when
    either collection fails, [execute] fails with the same error and has
    made the calls of the collection and none of its own. *)
Theorem failed_collection_ends_run (host : Host) (fs : FileSystem) (config : Config) :
  (truthy (dumpArticleAST config) = false ->
   truthy (dumpArticleHTML config) = false ->
   forallb read_only (trace (collectArticles host fs config)) = true
   /\ forall registry,
       forallb read_only (trace (collectTags host fs registry config)) = true)
  /\ (forall e,
         outcome (collectArticles host fs config) = Throw e ->
         execute host fs config = (Throw e, trace (collectArticles host fs config)))
  /\ (forall registry e,
         outcome (collectArticles host fs config) = Ok registry ->
         outcome (collectTags host fs registry config) = Throw e ->
         execute host fs config
         = (Throw e, trace (collectArticles host fs config)
                     ++ trace (collectTags host fs registry config))).
Proof.
  split; [|split].
  - intros Ha Hh.
    assert (Hd : truthy (dumpArticleAST config) || truthy (dumpArticleHTML config) = true ->
                 forall op, read_only op = true).
    { rewrite Ha, Hh. discriminate. }
    split; [now apply allowed_collectArticles|].
    intros registry. now apply allowed_collectTags.
  - intros e He. unfold execute, bind.
    destruct (collectArticles host fs config) as [r t]. simpl in He. now subst r.
  - intros registry e Ha Ht. unfold execute, bind at 1.
    destruct (collectArticles host fs config) as [r t]. simpl in Ha. subst r.
    simpl trace. unfold bind at 1.
    destruct (collectTags host fs registry config) as [r' t']. simpl in Ht. subst r'.
    reflexivity.
Qed.

Lemma failed_collection_ends_run_witness :
  execute Examples.host Examples.site_broken debug
  = (Throw (SyntaxError "{"),
     trace (collectArticles Examples.host Examples.site_broken debug))
  /\ execute Examples.host Examples.site_broken Sample.config
     = (Throw (SyntaxError "{"),
        trace (collectArticles Examples.host Examples.site_broken Sample.config))
  /\ forallb read_only
       (trace (execute Examples.host Examples.site_broken Sample.config)) = true.
Proof.
  destruct (failed_collection_ends_run Examples.host Examples.site_broken debug)
    as (_ & Hd & _).
  destruct (failed_collection_ends_run Examples.host Examples.site_broken
              Sample.config) as (Hc & He & _).
  split; [exact (Hd (SyntaxError "{") eq_refl)|].
  assert (H := He (SyntaxError "{") eq_refl).
  split; [exact H|]. rewrite H. now apply Hc.
Defined.



(* ------------------------------------------------------------------ *)
(** ** The article collector, further *)

(** A collected article keeps the logical path and the source path it was
    collected with; its status is the one of the namespace; its times of
    publication and of modification are those of the namespace, each
    replaced by the [date] of the frontmatter when the namespace lacks it,
    so that without either both are the [date]. *)
Theorem collectArticle_times (host : Host) (fs : FileSystem)
    (markdownPath articlePath : string) (config : Config) (a : ArticleMetadata) :
  outcome (collectArticle host fs markdownPath articlePath config) = Ok a ->
  exists markdownAST frontmatter,
    reads host fs markdownPath markdownAST frontmatter
    /\ am_path a = articlePath
    /\ am_sourcePath a = Some markdownPath
    /\ am_sourceType a = Some "markdown"
    /\ am_status a = namespace frontmatter kb_status
    /\ am_published_time a
       = match namespace frontmatter kb_published_time with
         | Some t => Some t
         | None => fm_date frontmatter
         end
    /\ am_modified_time a
       = match namespace frontmatter kb_modified_time with
         | Some t => Some t
         | None => fm_date frontmatter
         end
    /\ (namespace frontmatter kb_published_time = None ->
        namespace frontmatter kb_modified_time = None ->
        am_published_time a = fm_date frontmatter
        /\ am_modified_time a = fm_date frontmatter).
Proof.
  intros Ha. apply collectArticle_Ok in Ha. destruct Ha as (ast & fm & Hr & ->).
  exists ast, fm. simpl.
  repeat match goal with
         | |- _ /\ _ => split
         end; auto.
  intros -> ->. split; reflexivity.
Qed.

Lemma collectArticle_times_witness :
  exists a,
    outcome (collectArticle MoreExamples.host MoreExamples.site_published
               "articles/p.md" "p" Sample.config) = Ok a
    /\ am_status a = Some "draft"
    /\ am_published_time a = Some "2020-02-02"
    /\ am_modified_time a = Some "2020-01-01".
Proof.
  destruct (outcome (collectArticle MoreExamples.host MoreExamples.site_published
                       "articles/p.md" "p" Sample.config)) as [a|e] eqn:E;
    [|vm_compute in E; discriminate].
  destruct (collectArticle_times _ _ _ _ _ E)
    as (ast & fm & Hr & _ & _ & _ & Hs & Hp & Hm & _).
  assert (Hfm : fm = MoreExamples.published).
  { destruct Hr as (s & md & meta & Hs' & -> & Hmd & Hmeta & ->).
    vm_compute in Hs'. injection Hs' as <-.
    vm_compute in Hmd. injection Hmd as <-.
    vm_compute in Hmeta. injection Hmeta as <-. reflexivity. }
  subst fm. exists a. split; [reflexivity|].
  rewrite Hs, Hp, Hm. repeat split; reflexivity.
Defined.

(** The calls of a successful [collectArticle], in order: the read of the
    markdown file, the search for a sidecar, then for each dump that is
    switched on the creation of its directory and the write of the dump
    under [generated/ast] or [generated/html]. *)
Theorem collectArticle_calls (host : Host) (fs : FileSystem)
    (markdownPath articlePath : string) (config : Config)
    (markdownAST : Node) (frontmatter : FrontMatter) :
  reads host fs markdownPath markdownAST frontmatter ->
  dumps_succeed host fs config articlePath ->
  trace (collectArticle host fs markdownPath articlePath config)
  = ReadFile markdownPath
    :: trace (findMetadataFrontmatter host fs markdownPath)
    ++ dump_calls host config articlePath markdownAST.
Proof.
  intros (s & md & meta & Hs & -> & Hmd & Hm & ->) [Hast Hhtml].
  unfold collectArticle. rewrite trace_readFile, Hs. f_equal.
  rewrite trace_lift, Hmd.
  rewrite trace_bind, Hm. f_equal. cbv zeta. simpl am_path.
  rewrite trace_bind, outcome_dump, trace_dump.
  unfold dump_calls. cbv zeta.
  destruct (truthy (dumpArticleAST config)); simpl andb; cbv iota.
  - rewrite Hast by reflexivity. simpl negb. cbv iota. simpl app. do 2 f_equal.
    rewrite trace_bind, outcome_dump, trace_dump.
    destruct (truthy (dumpArticleHTML config)); simpl andb; cbv iota.
    + rewrite Hhtml by reflexivity. reflexivity.
    + reflexivity.
  - simpl app. rewrite trace_bind, outcome_dump, trace_dump.
    destruct (truthy (dumpArticleHTML config)); simpl andb; cbv iota.
    + rewrite Hhtml by reflexivity. reflexivity.
    + reflexivity.
Qed.

Lemma collectArticle_calls_witness :
  trace (collectArticle Examples.host Examples.site_c "articles/c.md" "c" debug)
  = [ReadFile "articles/c.md";
     Exists "articles/c.blog.json"; Exists "articles/c.blog.yml";
     Exists "articles/c.blog.yaml"; Exists "articles/c.blog.toml";
     Mkdir "generated/ast";
     WriteFile "generated/ast/c.json"
       (AstJson (processor_parse Examples.host
                   (Examples.page (Examples.title_block "C") ["# D"])));
     Mkdir "generated/html";
     WriteFile "generated/html/c.html"
       (Html (processor_parse Examples.host
                (Examples.page (Examples.title_block "C") ["# D"])))].
Proof.
  rewrite (@collectArticle_calls Examples.host Examples.site_c "articles/c.md" "c" debug
             (processor_parse Examples.host
                (Examples.page (Examples.title_block "C") ["# D"]))
             (Examples.entitled "C")).
  - reflexivity.
  - exists (Examples.page (Examples.title_block "C") ["# D"]),
      (Some (Examples.entitled "C")), None.
    repeat split; reflexivity.
  - split; reflexivity.
Defined.

(* ------------------------------------------------------------------ *)
(** ** The article registry, further *)

Lemma prefix_append (p s : string) : String.prefix p (p ++ s) = true.
Proof.
  induction p as [|c p IH]; simpl; [now destruct s|].
  destruct (ascii_dec c c); [exact IH | congruence].
Qed.

Lemma substring_prefix_append (s e : string) :
  String.substring 0 (String.length s) (s ++ e) = s.
Proof.
  induction s as [|c s IH]; simpl; [now destruct e|]. now rewrite IH.
Qed.

Lemma append_empty (s : string) : (s ++ EmptyString)%string = s.
Proof. induction s as [|c s IH]; simpl; [reflexivity | now rewrite IH]. Qed.

Lemma append_assoc (a b c : string) : ((a ++ b) ++ c)%string = (a ++ b ++ c)%string.
Proof. induction a as [|x a IH]; simpl; [reflexivity | now rewrite IH]. Qed.

Lemma replace_md_suffix_append (s r : string) :
  Str.replace_md_suffix (s ++ ".md") r = (s ++ r)%string.
Proof.
  unfold Str.replace_md_suffix. rewrite StrFacts.endsWith_append.
  rewrite StrFacts.length_append. simpl String.length.
  replace (String.length s + 3 - 3) with (String.length s) by lia.
  now rewrite substring_prefix_append.
Qed.

Lemma sliceFrom_append (p s : string) : Str.sliceFrom (p ++ s) (Str.len p) = s.
Proof.
  unfold Str.sliceFrom, Str.slice, Str.clamp.
  rewrite StrFacts.len_append.
  pose proof (StrFacts.len_nonneg p) as Hp. pose proof (StrFacts.len_nonneg s) as Hs.
  destruct (Z.ltb_spec (Str.len p) 0); [lia|].
  destruct (Z.ltb_spec (Str.len p + Str.len s) 0); [lia|].
  rewrite !Z.min_l by lia.
  replace (Str.len p + Str.len s - Str.len p)%Z with (Str.len s) by lia.
  unfold Str.len. rewrite !Nat2Z.id. apply StrFacts.suffix_after_append.
Qed.

(** The logical path of a markdown file under the articles root is its
    path without the root and without the extension [.md]. *)
Theorem logical_path_under_root (host : Host) (p : string) :
  logical_path host ("articles" ++ path_sep host ++ p ++ ".md") = p.
Proof.
  unfold logical_path.
  replace ("articles" ++ path_sep host ++ p ++ ".md")%string
    with ((("articles" ++ path_sep host) ++ p) ++ ".md")%string.
  - rewrite replace_md_suffix_append, append_empty.
    unfold Str.startsWith. rewrite prefix_append. apply sliceFrom_append.
  - now rewrite !append_assoc.
Qed.

Section RegistryFacts.
Context (host : Host) (fs : FileSystem) (config : Config).

(** One turn of the loop of [collectArticles]. *)
Lemma article_turn (acc acc' : Obj.t ArticleMetadata) (markdownPath : string) :
  outcome (articleMetadata <-
             collectArticle host fs markdownPath (logical_path host markdownPath) config ;;
           ret (Obj.put acc (am_path articleMetadata) articleMetadata))%js = Ok acc' ->
  exists a,
    outcome (collectArticle host fs markdownPath (logical_path host markdownPath) config)
    = Ok a
    /\ am_path a = logical_path host markdownPath
    /\ am_sourcePath a = Some markdownPath
    /\ acc' = Obj.put acc (logical_path host markdownPath) a.
Proof.
  rewrite outcome_bind.
  destruct (outcome (collectArticle _ _ _ _ _)) as [a|e] eqn:E; [|discriminate].
  intros [= <-]. exists a.
  pose proof E as E'. apply collectArticle_Ok in E'.
  destruct E' as (ast & fm & _ & ->). simpl. auto.
Qed.

Lemma article_loop (paths : list string) (acc result : Obj.t ArticleMetadata) :
  outcome (for_of paths
             (fun result markdownPath =>
                articleMetadata <-
                  collectArticle host fs markdownPath (logical_path host markdownPath)
                    config ;;
                ret (Obj.put result (am_path articleMetadata) articleMetadata))%js
             acc) = Ok result ->
  (forall k a, In (k, a) result ->
               In (k, a) acc
               \/ exists markdownPath,
                   In markdownPath paths
                   /\ k = logical_path host markdownPath
                   /\ am_path a = k
                   /\ am_sourcePath a = Some markdownPath
                   /\ outcome (collectArticle host fs markdownPath k config) = Ok a)
  /\ (forall markdownPath, In markdownPath paths ->
                           logical_path host markdownPath <> "__proto__" ->
                           Obj.get result (logical_path host markdownPath) <> None)
  /\ (forall k, Obj.get acc k <> None -> Obj.get result k <> None)
  /\ (NoDup (map fst acc) -> NoDup (map fst result))
  /\ (Obj.get acc "__proto__" = None -> Obj.get result "__proto__" = None)
  /\ (List.length result <= List.length acc + List.length paths)%nat.
Proof.
  revert acc. induction paths as [|p paths IH]; intros acc; simpl for_of.
  - intros [= <-]. repeat split; auto. lia.
  - rewrite outcome_bind.
    destruct (outcome (bind _ _)) as [acc'|e] eqn:E; [|discriminate].
    apply article_turn in E. destruct E as (a & Ha & Hp & Hs & ->).
    intros H. apply IH in H. destruct H as (Hin & Hall & Hkeep & Hnd & Hpr & Hlen).
    split; [|split; [|split; [|split; [|split]]]].
    + intros k b Hb. destruct (Hin k b Hb) as [Hb'|(mp & Hmp & Hk)].
      * apply ObjFacts.In_put in Hb'. destruct Hb' as [[= -> ->]|Hb']; [|now left].
        right. exists p. repeat split; auto. now left.
      * right. exists mp. split; [now right | exact Hk].
    + intros mp [<-|Hmp] Hne; [|now apply Hall].
      apply Hkeep. rewrite ObjFacts.put_set by exact Hne.
      rewrite ObjFacts.get_set_same. discriminate.
    + intros k Hk. apply Hkeep.
      destruct (ObjFacts.put_cases acc (logical_path host p) a) as [->|(_ & _ & ->)];
        [|exact Hk].
      rewrite ObjFacts.get_set.
      destruct (String.eqb _ k); [discriminate | exact Hk].
    + intros Hacc. apply Hnd. now apply ObjFacts.put_NoDup.
    + intros Hacc. apply Hpr.
      destruct (ObjFacts.put_cases acc (logical_path host p) a) as [E|(_ & _ & ->)];
        [|exact Hacc].
      destruct (String.eqb_spec (logical_path host p) "__proto__") as [Hq|Hq].
      * rewrite Hq in *. rewrite ObjFacts.put_proto by exact Hacc. exact Hacc.
      * rewrite ObjFacts.get_put_other by exact Hq. exact Hacc.
    + assert (List.length (Obj.put acc (logical_path host p) a) <= S (List.length acc))%nat.
      { destruct (ObjFacts.put_cases acc (logical_path host p) a) as [->|(_ & _ & ->)];
          [|lia].
        rewrite <- (length_map fst (Obj.set _ _ _)), ObjFacts.set_keys.
        destruct (Obj.get acc _); rewrite ?length_app, length_map; simpl; lia. }
      simpl. lia.
Qed.

Lemma collectArticles_loop (registry : ArticleRegistry) :
  outcome (collectArticles host fs config) = Ok registry ->
  outcome (for_of (fs_glob fs (path_join host ["articles"; "**"; "*.md"]))
             (fun result markdownPath =>
                articleMetadata <-
                  collectArticle host fs markdownPath (logical_path host markdownPath)
                    config ;;
                ret (Obj.put result (am_path articleMetadata) articleMetadata))%js
             Obj.empty) = Ok (articles registry).
Proof.
  unfold collectArticles. intros H. rewrite outcome_exists in H.
  destruct (fs_exists fs "articles"); simpl negb in H; cbv iota in H; [|discriminate].
  rewrite (@outcome_bind (list string) ArticleRegistry) in H.
  unfold glob at 1, outcome at 1 in H. simpl fst in H. cbv beta iota in H.
  rewrite (@outcome_bind (Obj.t ArticleMetadata) ArticleRegistry) in H.
  unfold logical_path.
  destruct (outcome (for_of _ _ _)) as [result|e]; [|discriminate].
  injection H as <-. reflexivity.
Qed.

End RegistryFacts.

(** The article registry is keyed by logical path: an article is stored
    under its own path and no path occurs twice. [orderedArticles] is a
    rearrangement of the projections of the stored articles: it lists
    every stored article exactly once, no two of its entries share a path,
    and every index of the list has its article in [articles]. *)
Theorem collectArticles_registry (host : Host) (fs : FileSystem) (config : Config)
    (registry : ArticleRegistry) :
  outcome (collectArticles host fs config) = Ok registry ->
  well_formed (articles registry)
  /\ (forall k a, In (k, a) (articles registry) ->
                  am_path a = k /\ Obj.get (articles registry) k = Some a)
  /\ Permutation (orderedArticles registry)
       (map makeArticleIndex (Obj.values (articles registry)))
  /\ map ai_path (map makeArticleIndex (Obj.values (articles registry)))
     = Obj.keys (articles registry)
  /\ NoDup (map ai_path (orderedArticles registry))
  /\ (forall index, In index (orderedArticles registry) ->
                    exists a, Obj.get (articles registry) (ai_path index) = Some a
                              /\ index = makeArticleIndex a).
Proof.
  intros H. pose proof (collectArticles_Ok _ _ _ H) as [_ Ho].
  apply collectArticles_loop, article_loop in H.
  destruct H as (Hin & _ & _ & Hnd & _).
  assert (Hwf : NoDup (map fst (articles registry))) by (apply Hnd; constructor).
  assert (Hkey : forall k a, In (k, a) (articles registry) ->
                             am_path a = k /\ Obj.get (articles registry) k = Some a).
  { intros k a Ha. split; [|now apply ObjFacts.In_get].
    destruct (Hin k a Ha) as [[]|(mp & _ & _ & Hp & _)]. exact Hp. }
  assert (Hperm : Permutation (orderedArticles registry)
                    (map makeArticleIndex (Obj.values (articles registry)))).
  { rewrite Ho. unfold orderArticles. symmetry. apply Array_sort_perm. }
  assert (Hpaths : map ai_path (map makeArticleIndex (Obj.values (articles registry)))
                   = Obj.keys (articles registry)).
  { unfold Obj.values, Obj.keys. rewrite !map_map. apply map_ext_in.
    intros [k a] Hka. simpl.
    apply (Permutation_in _ (ObjFacts.entries_perm (articles registry))) in Hka.
    now apply Hkey. }
  split; [exact Hwf|]. split; [exact Hkey|]. split; [exact Hperm|].
  split; [exact Hpaths|]. split.
  - apply Permutation_NoDup
      with (map ai_path (map makeArticleIndex (Obj.values (articles registry)))).
    + symmetry. now apply Permutation_map.
    + rewrite Hpaths. unfold Obj.keys.
      apply Permutation_NoDup with (map fst (articles registry)); [|exact Hwf].
      symmetry. apply Permutation_map, ObjFacts.entries_perm.
  - intros index Hi. apply (Permutation_in _ Hperm), in_map_iff in Hi.
    destruct Hi as (a & <- & Ha).
    apply ObjFacts.In_values in Ha. destruct Ha as [k Ha].
    destruct (Hkey k a Ha) as [Hp Hg]. exists a. simpl. now rewrite Hp.
Qed.

Lemma collectArticles_registry_witness :
  exists registry,
    outcome (collectArticles Examples.host Examples.site_dates Sample.config) = Ok registry
    /\ map ai_path (orderedArticles registry) = ["a"; "c"; "b"]
    /\ Permutation (map ai_path (orderedArticles registry)) (Obj.keys (articles registry))
    /\ forall index, In index (orderedArticles registry) ->
                     Obj.get (articles registry) (ai_path index) <> None.
Proof.
  destruct (outcome (collectArticles Examples.host Examples.site_dates Sample.config))
    as [registry|e] eqn:E; [|vm_compute in E; discriminate].
  destruct (collectArticles_registry _ _ _ E) as (_ & _ & Hp & Hk & _ & Hi).
  exists registry. split; [reflexivity|]. split; [|split].
  - vm_compute in E. injection E as <-. reflexivity.
  - rewrite <- Hk. now apply Permutation_map.
  - intros index Hin. destruct (Hi index Hin) as (a & -> & _). discriminate.
Defined.

(** Every markdown file the scan finds has an article under its logical
    path, unless that path is [__proto__], a name under which nothing is
    ever stored; every article of the registry is the one collected from
    a scanned file under its logical path. When two files have the same
    logical path the registry holds one article for both. *)
Theorem collectArticles_files (host : Host) (fs : FileSystem) (config : Config)
    (registry : ArticleRegistry) :
  outcome (collectArticles host fs config) = Ok registry ->
  let found := fs_glob fs (path_join host ["articles"; "**"; "*.md"]) in
  (forall markdownPath,
      In markdownPath found ->
      logical_path host markdownPath <> "__proto__" ->
      Obj.get (articles registry) (logical_path host markdownPath) <> None)
  /\ Obj.get (articles registry) "__proto__" = None
  /\ (forall k a,
         Obj.get (articles registry) k = Some a ->
         exists markdownPath,
           In markdownPath found
           /\ k = logical_path host markdownPath
           /\ am_sourcePath a = Some markdownPath
           /\ outcome (collectArticle host fs markdownPath k config) = Ok a)
  /\ (List.length (articles registry) <= List.length found)%nat.
Proof.
  intros H found. pose proof (collectArticles_loop _ _ _ H) as Hl.
  fold found in Hl. apply article_loop in Hl.
  destruct Hl as (Hin & Hall & _ & _ & Hpr & Hn).
  split; [exact Hall|]. split; [now apply Hpr|]. split; [|exact Hn].
  intros k a Ha. apply ObjFacts.get_In in Ha.
  destruct (Hin k a Ha) as [[]|(mp & Hmp & Hk & _ & Hs & Ho)].
  now exists mp.
Qed.

Lemma collectArticles_files_witness :
  (exists registry,
      outcome (collectArticles Examples.host Examples.site_dates Sample.config)
      = Ok registry
      /\ Obj.get (articles registry) "b" <> None)
  /\ (exists registry,
         outcome (collectArticles Examples.host MoreExamples.site_proto Sample.config)
         = Ok registry
         /\ Obj.get (articles registry) "__proto__" = None
         /\ Obj.keys (articles registry) = ["a"]).
Proof.
  split.
  - destruct (outcome (collectArticles Examples.host Examples.site_dates Sample.config))
      as [registry|e] eqn:E; [|vm_compute in E; discriminate].
    destruct (collectArticles_files _ _ _ E) as (Hf & _).
    exists registry. split; [reflexivity|].
    apply (Hf "articles/b.md"); [right; now left | vm_compute; discriminate].
  - destruct (outcome (collectArticles Examples.host MoreExamples.site_proto
                         Sample.config))
      as [registry|e] eqn:E; [|vm_compute in E; discriminate].
    destruct (collectArticles_files _ _ _ E) as (_ & Hp & _).
    exists registry. split; [reflexivity|]. split; [exact Hp|].
    vm_compute in E. injection E as <-. reflexivity.
Defined.

(* ------------------------------------------------------------------ *)
(** ** The dictionaries of the tag registry *)








(** [getOrPrepare] returns the value the dictionary has under the key,
    leaving the dictionary as it is. For a key the dictionary only
    inherits from [Object.prototype] it returns the inherited member and
    neither prepares nor stores anything. Otherwise it stores the value
    prepared for the key as a new property and returns it. Every other
    key holds what it held. *)
Theorem getOrPrepare_stores {T : Type} (m : Obj.t T) (k : string) (ifNone : string -> T) :
  let found := fst (getOrPrepare m k ifNone) in
  let m' := snd (getOrPrepare m k ifNone) in
  (forall k', k' <> k -> Obj.get m' k' = Obj.get m k')
  /\ (forall v0, Obj.get m k = Some v0 -> found = Obj.Own v0 /\ m' = m)
  /\ (Obj.get m k = None -> Obj.inherited k = true ->
      found = Obj.Inherited k /\ m' = m)
  /\ (Obj.get m k = None -> Obj.inherited k = false ->
      found = Obj.Own (ifNone k)
      /\ Obj.get m' k = Some (ifNone k)
      /\ ~ In k (Obj.keys m)
      /\ forall k', In k' (Obj.keys m') <-> k' = k \/ In k' (Obj.keys m))
  /\ (forall v, found = Obj.Own v -> Obj.get m' k = Some v).
Proof.
  unfold getOrPrepare, Obj.read. destruct (Obj.get m k) as [v0|] eqn:E; simpl.
  - split; [reflexivity|].
    split; [intros v1 [= <-]; split; reflexivity|].
    split; [discriminate|]. split; [discriminate|]. now intros v [= <-].
  - destruct (Obj.inherited k) eqn:Ei; simpl.
    + split; [reflexivity|]. split; [discriminate|].
      split; [intros _ _; split; reflexivity|]. split; discriminate.
    + rewrite ObjFacts.put_set by now apply ObjFacts.plain_not_proto.
      split; [intros k' Hk; apply ObjFacts.get_set_other; congruence|].
      split; [discriminate|]. split; [discriminate|]. split.
      * intros _ _. split; [reflexivity|]. split; [apply ObjFacts.get_set_same|].
        split; [rewrite ObjFacts.In_keys; intros H; now apply H|].
        intros k'. rewrite !ObjFacts.In_keys, ObjFacts.get_set.
        destruct (String.eqb_spec k k') as [->|Hk].
        -- split; [now left | discriminate].
        -- split; [now right | intros [->|H]; [congruence | exact H]].
      * intros v [= <-]. apply ObjFacts.get_set_same.
Qed.

(** After [register(m, k1, k2, value)], for a key [k1] the dictionary has
    or that names no member of [Object.prototype]: the dictionary holds
    [value] under [k1] and [k2], and under every other pair of keys what
    it held before; with [__proto__] for [k2] no pair changes. For a key
    [k1] the dictionary only inherits, the dictionary is left as it is. *)
Theorem register_get2 {T : Type} (m : Obj.t (Obj.t T)) (k1 k2 : string) (value : T) :
  (Obj.get m k1 <> None \/ Obj.inherited k1 = false ->
   k2 <> "__proto__" ->
   forall a b,
     get2 (register m k1 k2 value) a b =
     if String.eqb k1 a && String.eqb k2 b then Some value else get2 m a b)
  /\ (Obj.get m k1 <> None \/ Obj.inherited k1 = false ->
      get2 m k1 "__proto__" = None ->
      forall a b, get2 (register m k1 "__proto__" value) a b = get2 m a b)
  /\ (Obj.get m k1 = None -> Obj.inherited k1 = true -> register m k1 k2 value = m).
Proof.
  split; [|split].
  - intros H1 H2 a b. unfold get2. rewrite register_stores, ObjFacts.get_set by exact H1.
    destruct (String.eqb_spec k1 a) as [<-|Ha]; simpl; [|reflexivity].
    rewrite ObjFacts.put_set, ObjFacts.get_set by exact H2.
    destruct (String.eqb k2 b); [reflexivity|]. now destruct (Obj.get m k1).
  - intros H1 H2 a b. unfold get2 in *. rewrite register_stores, ObjFacts.get_set by exact H1.
    destruct (String.eqb_spec k1 a) as [<-|Ha]; simpl; [|reflexivity].
    destruct (Obj.get m k1) as [inner|]; simpl in *.
    + now rewrite ObjFacts.put_proto.
    + reflexivity.
  - apply register_inherited.
Qed.


(** When no article carries a tag, the tag registry is empty and
    [collectTags] does not touch the file system. *)
Theorem collectTags_untagged (host : Host) (fs : FileSystem) (registry : ArticleRegistry)
    (config : Config) :
  (forall a, In a (Obj.values (articles registry)) ->
             am_tags a = None \/ am_tags a = Some []) ->
  collectTags host fs registry config
  = (Ok {| tags := Obj.empty; tagToArticles := Obj.empty |}, []).
Proof.
  intros H. unfold collectTags. cbv zeta.
  assert (Hi : indexTags (articles registry) = Obj.empty).
  { unfold indexTags. induction (Obj.values (articles registry)) as [|a l IH];
      [reflexivity|].
    simpl. destruct (H a (or_introl eq_refl)) as [-> | ->]; simpl;
      apply IH; intros b Hb; apply H; now right. }
  rewrite Hi. reflexivity.
Qed.

Lemma collectTags_untagged_witness :
  exists registry,
    outcome (collectArticles Examples.host Examples.site_dates Sample.config) = Ok registry
    /\ collectTags Examples.host Examples.site_dates registry Sample.config
       = (Ok {| tags := Obj.empty; tagToArticles := Obj.empty |}, []).
Proof.
  destruct (outcome (collectArticles Examples.host Examples.site_dates Sample.config))
    as [registry|e] eqn:E; [|vm_compute in E; discriminate].
  exists registry. split; [reflexivity|].
  apply collectTags_untagged.
  vm_compute in E. injection E as <-. simpl.
  intros a [<-|[<-|[<-|[]]]]; now left.
Defined.

(* ------------------------------------------------------------------ *)
(** ** The report of image paths *)

Lemma io_for_each_log {A : Type} (xs : list A) (line : A -> string) :
  io_for_each xs (fun x => console_log (line x)) = (Ok tt, map ConsoleLog (map line xs)).
Proof.
  induction xs as [|x r IH]; [reflexivity|].
  simpl. now rewrite IH.
Qed.

Lemma io_for_each_logs {A : Type} (xs : list A) (body : A -> IO unit)
    (lines : A -> list string) :
  (forall x, body x = (Ok tt, map ConsoleLog (lines x))) ->
  io_for_each xs body = (Ok tt, map ConsoleLog (flat_map lines xs)).
Proof.
  intros Hb. induction xs as [|x r IH]; [reflexivity|].
  simpl. now rewrite Hb, IH, map_app.
Qed.

(** The report reads [generated/articles.json] and nothing else. When the
    file cannot be read or is no JSON document it fails at once, having
    printed nothing; otherwise it prints one line per image, article after
    article in the order of the registry and image after image in the
    order of the article, each the image joined to the directory of the
    article's path; an article without images gives no line. *)
Theorem list_images_report (host : Host) (fs : FileSystem)
    (JSON_parse : ListImages.RegistryParser) (config : Config) :
  let articlesPath := path_join host ["generated"; "articles.json"] in
  ListImages.execute host fs JSON_parse config =
  match fs_readFile fs articlesPath with
  | None => (Throw (SystemError "open" articlesPath), [Fs (ReadFile articlesPath)])
  | Some articlesJson =>
      match JSON_parse articlesJson with
      | None => (Throw (SyntaxError articlesJson), [Fs (ReadFile articlesPath)])
      | Some articles =>
          (Ok tt,
           Fs (ReadFile articlesPath)
           :: map ConsoleLog (ListImages.image_paths host articles))
      end
  end.
Proof.
  cbv zeta. unfold ListImages.execute, io_lift, readFile. simpl fst. simpl snd.
  destruct (fs_readFile fs _) as [s|]; [|reflexivity].
  unfold io_bind at 1. unfold lift. simpl fst. simpl snd.
  destruct (JSON_parse s) as [articles|]; [|reflexivity].
  unfold io_bind.
  rewrite (io_for_each_logs _ _
             (fun article =>
                map (fun image =>
                       path_join host [path_dirname host (am_path article); image])
                  (coalesce (am_images article) []))).
  - reflexivity.
  - intros article. destruct (am_images article) as [images|]; [|reflexivity].
    apply io_for_each_log.
Qed.

(* ------------------------------------------------------------------ *)
(** ** The command line *)

Ltac options :=
  unfold is_debug, is_list_images, is_help, includes in *; simpl in *;
  repeat match goal with
         | |- context [String.eqb ?a ?b] =>
             destruct (String.eqb_spec a b); subst; simpl in *
         | H : context [String.eqb ?a ?b] |- _ =>
             destruct (String.eqb_spec a b); subst; simpl in *
         end;
  try discriminate; try congruence.

Lemma parseArg_fold (args : list string) (result : Cli.ParsedArgs) :
  fold_left Cli.parseArg args result =
  {| Cli.opt_dumpArticleMetadata := Cli.opt_dumpArticleMetadata result;
     Cli.opt_dumpArticleAST := Cli.opt_dumpArticleAST result || existsb is_debug args;
     Cli.opt_dumpArticleHTML := Cli.opt_dumpArticleHTML result || existsb is_debug args;
     Cli.opt_dumpTagMetadata := Cli.opt_dumpTagMetadata result;
     Cli.opt_listImages := Cli.opt_listImages result || existsb is_list_images args;
     Cli.opt_help := Cli.opt_help result || existsb is_help args;
     Cli.opt_errors := Cli.opt_errors result |}.
Proof.
  revert result. induction args as [|arg args IH]; intros result.
  - simpl. rewrite !orb_false_r. now destruct result.
  - simpl fold_left. rewrite IH. clear IH. unfold Cli.parseArg.
    fold (is_debug arg) (is_list_images arg) (is_help arg). simpl existsb.
    destruct (is_debug arg) eqn:Ed.
    + assert (is_list_images arg = false /\ is_help arg = false) as [-> ->]
        by (split; options).
      simpl. now rewrite !orb_true_r.
    + destruct (is_list_images arg) eqn:El.
      * assert (is_help arg = false) as -> by options.
        simpl. now rewrite !orb_true_r.
      * destruct (is_help arg); simpl; [now rewrite !orb_true_r | reflexivity].
Qed.

(** [parseArgs] reads every argument but the first: the debug option
    switches on the dumps of the tree and of the HTML, always together;
    the two registries are always switched on, whatever the arguments;
    the list and help options set their flags; any other argument is
    passed over and no error is ever reported. *)
Theorem parseArgs_flags (args : list string) :
  Cli.parseArgs args =
  {| Cli.opt_dumpArticleMetadata := true;
     Cli.opt_dumpArticleAST := existsb is_debug (skipn 1 args);
     Cli.opt_dumpArticleHTML := existsb is_debug (skipn 1 args);
     Cli.opt_dumpTagMetadata := true;
     Cli.opt_listImages := existsb is_list_images (skipn 1 args);
     Cli.opt_help := existsb is_help (skipn 1 args);
     Cli.opt_errors := [] |}.
Proof. unfold Cli.parseArgs. now rewrite parseArg_fold. Qed.

Lemma existsb_same {A : Type} (f : A -> bool) (l l' : list A) :
  (forall x, In x l <-> In x l') -> existsb f l = existsb f l'.
Proof.
  intros H. apply eq_true_iff_eq. rewrite !existsb_exists.
  split; intros (x & Hx & Hf); exists x; split; auto; now apply H.
Qed.

(** The options found do not depend on the first argument, on the order
    of the others or on their repetition. *)
Theorem parseArgs_set (args args' : list string) :
  (forall arg, In arg (skipn 1 args) <-> In arg (skipn 1 args')) ->
  Cli.parseArgs args = Cli.parseArgs args'.
Proof.
  intros H. unfold Cli.parseArgs. rewrite !parseArg_fold.
  now rewrite (existsb_same is_debug _ _ H), (existsb_same is_list_images _ _ H),
    (existsb_same is_help _ _ H).
Qed.

Lemma parseArgs_set_witness :
  Cli.parseArgs ["node"; "-d"; "-h"; "-d"] = Cli.parseArgs ["-I"; "-h"; "-d"].
Proof.
  apply parseArgs_set. intros arg. simpl. tauto.
Defined.

(** [main] never exits with code 1. With a help option among the
    arguments after the first it prints the usage line and exits with
    code 0 without starting anything, whatever else is asked; otherwise
    it prints nothing and starts the report of images when the list
    option is given, and the collection if not, with a configuration that
    sets no title default, always writes both registries and dumps the
    tree and the HTML in debug mode only. *)
Theorem main_dispatch (argv : list string) :
  Cli.main argv =
  if existsb is_help (skipn 1 argv)
  then {| Cli.printed := Cli.usage; Cli.exit_code := Some 0%Z; Cli.started := None |}
  else {| Cli.printed := [];
          Cli.exit_code := None;
          Cli.started :=
            Some (if existsb is_list_images (skipn 1 argv)
                  then Cli.ListImages (cli_config (existsb is_debug (skipn 1 argv)))
                  else Cli.Execute (cli_config (existsb is_debug (skipn 1 argv)))) |}.
Proof.
  unfold Cli.main, Cli.parseArgs. rewrite parseArg_fold. simpl.
  destruct (existsb is_help (skipn 1 argv)); [reflexivity|].
  destruct (existsb is_list_images (skipn 1 argv)); reflexivity.
Qed.

Lemma parseArg1_fold (args : list string) (result : Cli1.ParsedArgs) :
  fold_left Cli1.parseArg args result =
  {| Cli1.opt_dumpArticleMetadata := Cli1.opt_dumpArticleMetadata result;
     Cli1.opt_dumpArticleAST := Cli1.opt_dumpArticleAST result || existsb is_debug args;
     Cli1.opt_dumpArticleHTML := Cli1.opt_dumpArticleHTML result || existsb is_debug args;
     Cli1.opt_dumpTagMetadata := Cli1.opt_dumpTagMetadata result;
     Cli1.opt_help := Cli1.opt_help result || existsb is_help args;
     Cli1.opt_errors := Cli1.opt_errors result |}.
Proof.
  revert result. induction args as [|arg args IH]; intros result.
  - simpl. rewrite !orb_false_r. now destruct result.
  - simpl fold_left. rewrite IH. clear IH. unfold Cli1.parseArg.
    fold (is_debug arg) (is_help arg). simpl existsb.
    destruct (is_debug arg) eqn:Ed.
    + assert (is_help arg = false) as -> by options.
      simpl. now rewrite !orb_true_r.
    + destruct (is_help arg); simpl; [now rewrite !orb_true_r | reflexivity].
Qed.

(** The two programs of the command line do the same on every command
    line without the list option; the first passes that option over and
    starts the collection where the second starts the report. *)
Theorem main_without_list_images (argv : list string) :
  Cli1.main argv =
  (if existsb is_help (skipn 1 argv)
   then {| Cli.printed := Cli.usage; Cli.exit_code := Some 0%Z; Cli.started := None |}
   else {| Cli.printed := [];
           Cli.exit_code := None;
           Cli.started :=
             Some (Cli.Execute (cli_config (existsb is_debug (skipn 1 argv)))) |})
  /\ (existsb is_list_images (skipn 1 argv) = false -> Cli1.main argv = Cli.main argv).
Proof.
  assert (H : Cli1.main argv =
              if existsb is_help (skipn 1 argv)
              then {| Cli.printed := Cli.usage; Cli.exit_code := Some 0%Z;
                      Cli.started := None |}
              else {| Cli.printed := [];
                      Cli.exit_code := None;
                      Cli.started :=
                        Some (Cli.Execute
                                (cli_config (existsb is_debug (skipn 1 argv)))) |}).
  { unfold Cli1.main, Cli1.parseArgs. rewrite parseArg1_fold. simpl.
    now destruct (existsb is_help (skipn 1 argv)). }
  split; [exact H|].
  intros Hl. rewrite H. unfold Cli.main, Cli.parseArgs. rewrite parseArg_fold, Hl.
  simpl. now destruct (existsb is_help (skipn 1 argv)).
Qed.

Lemma main_without_list_images_witness :
  Cli1.main ["node"; "kleinboy"; "--debug"] = Cli.main ["node"; "kleinboy"; "--debug"]
  /\ Cli.started (Cli1.main ["node"; "kleinboy"; "-I"]) = Some (Cli.Execute (cli_config false))
  /\ Cli.started (Cli.main ["node"; "kleinboy"; "-I"])
     = Some (Cli.ListImages (cli_config false)).
Proof.
  split; [|split].
  - apply main_without_list_images. reflexivity.
  - now rewrite (proj1 (main_without_list_images _)).
  - reflexivity.
Defined.

(* ------------------------------------------------------------------ *)
(** ** The traversal of [findTexts] *)

(** [findTexts] emits node by node in document order: going through the
    nodes it reaches, it gives the value of a text or inline-code node,
    the placeholder for a code or image leaf, and nothing elsewhere. *)
Theorem findTexts_document_order (visitor : option (Node -> bool)) (node : Node) :
  findTexts visitor node
  = flat_map (emitted visitor) (reached (stops visitor) node).
Proof.
  induction node as [t v u|t v u cs IH] using Node_ind;
    rewrite findTexts_here, reached_unfold; cbn [flat_map children]; f_equal;
    destruct (stops visitor _); try reflexivity.
  induction IH as [|c cs Hc _ IHcs]; cbn [flat_map]; [reflexivity|].
  now rewrite flat_map_app, Hc, IHcs.
Qed.

(* ------------------------------------------------------------------ *)
(** ** The collection as a whole *)

Section WholeCollection.
Context (host : Host) (fs : FileSystem) (config : Config).

Let turn (result : Obj.t ArticleMetadata) (markdownPath : string)
  : M (Obj.t ArticleMetadata) :=
  (articleMetadata <-
     collectArticle host fs markdownPath (logical_path host markdownPath) config ;;
   ret (Obj.put result (am_path articleMetadata) articleMetadata))%js.

Lemma turn_outcome (acc : Obj.t ArticleMetadata) (markdownPath : string) :
  outcome (turn acc markdownPath) =
  match outcome (collectArticle host fs markdownPath (logical_path host markdownPath)
                   config) with
  | Ok a => Ok (Obj.put acc (am_path a) a)
  | Throw e => Throw e
  end.
Proof.
  unfold turn. rewrite outcome_bind. now destruct (outcome (collectArticle _ _ _ _ _)).
Qed.

Lemma loop_succeeds (paths : list string) (acc : Obj.t ArticleMetadata) :
  (exists result, outcome (for_of paths turn acc) = Ok result)
  <-> forall markdownPath,
      In markdownPath paths ->
      exists a, outcome (collectArticle host fs markdownPath
                           (logical_path host markdownPath) config) = Ok a.
Proof.
  revert acc. induction paths as [|p paths IH]; intros acc; simpl for_of.
  - split; [contradiction | intros _; now exists acc].
  - rewrite outcome_bind, turn_outcome.
    destruct (outcome (collectArticle host fs p _ config)) as [a|e] eqn:E.
    + rewrite IH. split.
      * intros H mp [<-|Hmp]; [now exists a | now apply H].
      * intros H mp Hmp. apply H. now right.
    + split; [intros [r Hr]; discriminate|].
      intros H. destruct (H p (or_introl eq_refl)) as [a Ha]. congruence.
Qed.

Lemma loop_fails (finished rest : list string) (p : string) (e : Exn)
    (acc : Obj.t ArticleMetadata) :
  (forall markdownPath,
      In markdownPath finished ->
      exists a, outcome (collectArticle host fs markdownPath
                           (logical_path host markdownPath) config) = Ok a) ->
  outcome (collectArticle host fs p (logical_path host p) config) = Throw e ->
  outcome (for_of (finished ++ p :: rest) turn acc) = Throw e.
Proof.
  revert acc. induction finished as [|q finished IH]; intros acc Hf Hp; simpl for_of.
  - now rewrite outcome_bind, turn_outcome, Hp.
  - rewrite outcome_bind, turn_outcome.
    destruct (Hf q (or_introl eq_refl)) as [a ->].
    apply IH; [|exact Hp]. intros mp Hmp. apply Hf. now right.
Qed.


Lemma collectArticles_outcome :
  fs_exists fs "articles" = true ->
  outcome (collectArticles host fs config) =
  match outcome (for_of (fs_glob fs (path_join host ["articles"; "**"; "*.md"]))
                   turn Obj.empty) with
  | Ok result => Ok {| articles := result; orderedArticles := orderArticles host result |}
  | Throw e => Throw e
  end.
Proof.
  intros Hx. unfold collectArticles. rewrite outcome_exists, Hx. simpl negb. cbv iota.
  rewrite (@outcome_bind (list string) ArticleRegistry).
  unfold glob at 1, outcome at 1. simpl fst. cbv beta iota.
  rewrite (@outcome_bind (Obj.t ArticleMetadata) ArticleRegistry).
  unfold turn, logical_path.
  now destruct (outcome (for_of _ _ _)).
Qed.

End WholeCollection.

(** The collection of the articles is all or nothing: with the root in
    place it gives a registry exactly when every markdown file of the scan
    can be collected, and the failure of a file, the files before it
    collected, is the failure of the collection. *)
Theorem collectArticles_every_file (host : Host) (fs : FileSystem) (config : Config) :
  fs_exists fs "articles" = true ->
  let found := fs_glob fs (path_join host ["articles"; "**"; "*.md"]) in
  ((exists registry, outcome (collectArticles host fs config) = Ok registry)
   <-> forall markdownPath,
       In markdownPath found ->
       exists a, outcome (collectArticle host fs markdownPath
                            (logical_path host markdownPath) config) = Ok a)
  /\ (forall finished p rest e,
         found = finished ++ p :: rest ->
         (forall markdownPath,
             In markdownPath finished ->
             exists a, outcome (collectArticle host fs markdownPath
                                  (logical_path host markdownPath) config) = Ok a) ->
         outcome (collectArticle host fs p (logical_path host p) config) = Throw e ->
         outcome (collectArticles host fs config) = Throw e).
Proof.
  intros Hx found. rewrite (@collectArticles_outcome host fs config Hx). fold found.
  split.
  - rewrite <- (@loop_succeeds host fs config found Obj.empty). split.
    + intros [registry H].
      destruct (outcome (for_of found _ _)) as [r|e]; [now exists r | discriminate].
    + intros [r ->]. eexists. reflexivity.
  - intros finished p rest e -> Hf Hp.
    now rewrite (@loop_fails host fs config finished rest p e Obj.empty Hf Hp).
Qed.

Lemma collectArticles_every_file_witness :
  (exists registry,
      outcome (collectArticles Examples.host Examples.site_dates Sample.config)
      = Ok registry)
  /\ outcome (collectArticles Examples.host Examples.site_broken Sample.config)
     = Throw (SyntaxError "{").
Proof.
  split.
  - apply (proj1 (collectArticles_every_file Examples.host Examples.site_dates
                    Sample.config eq_refl)).
    intros mp [<-|[<-|[<-|[]]]]; eexists; reflexivity.
  - apply (proj2 (collectArticles_every_file Examples.host Examples.site_broken
                    Sample.config eq_refl) [] "articles/a.md" []);
      [reflexivity | contradiction | reflexivity].
Defined.

(** A root without markdown files gives empty registries, after the
    existence check and the scan only. *)
Theorem collectArticles_empty_root (host : Host) (fs : FileSystem) (config : Config) :
  fs_exists fs "articles" = true ->
  fs_glob fs (path_join host ["articles"; "**"; "*.md"]) = [] ->
  collectArticles host fs config
  = (Ok {| articles := Obj.empty; orderedArticles := [] |},
     [Exists "articles"; Glob (path_join host ["articles"; "**"; "*.md"])])
  /\ collectTags host fs {| articles := Obj.empty; orderedArticles := [] |} config
     = (Ok {| tags := Obj.empty; tagToArticles := Obj.empty |}, []).
Proof.
  intros Hx Hg. split; [|reflexivity].
  unfold collectArticles, exists_, glob, bind. rewrite Hx, Hg. reflexivity.
Qed.

Lemma collectArticles_empty_root_witness :
  outcome (execute Examples.host site_bare Sample.config) = Ok tt
  /\ collectArticles Examples.host site_bare Sample.config
     = (Ok {| articles := Obj.empty; orderedArticles := [] |},
        [Exists "articles"; Glob "articles/**/*.md"]).
Proof.
  split; [reflexivity|].
  apply collectArticles_empty_root; reflexivity.
Defined.

Lemma for_of_agree {A B : Type} (body body' : B -> A -> M B) :
  (forall acc x r r',
      outcome (body acc x) = Ok r -> outcome (body' acc x) = Ok r' -> r = r') ->
  forall xs acc r r',
    outcome (for_of xs body acc) = Ok r -> outcome (for_of xs body' acc) = Ok r' ->
    r = r'.
Proof.
  intros Hb. induction xs as [|x xs IH]; intros acc r r'; simpl for_of.
  - intros [= <-] [= <-]. reflexivity.
  - rewrite !outcome_bind.
    destruct (outcome (body acc x)) as [b|e] eqn:E; [|discriminate].
    destruct (outcome (body' acc x)) as [b'|e] eqn:E'; [|discriminate].
    rewrite (Hb _ _ _ _ E E'). apply IH.
Qed.

(** The dumps are beside the point of the collection: two configurations
    with the same title default, whatever their switches, collect the
    same article from a file, the same article registry and, from a
    registry, the same tag registry, whenever both succeed. *)
Theorem collection_ignores_dumps (host : Host) (fs : FileSystem) (config config' : Config) :
  untitled config = untitled config' ->
  (forall markdownPath articlePath a a',
      outcome (collectArticle host fs markdownPath articlePath config) = Ok a ->
      outcome (collectArticle host fs markdownPath articlePath config') = Ok a' ->
      a = a')
  /\ (forall registry registry',
         outcome (collectArticles host fs config) = Ok registry ->
         outcome (collectArticles host fs config') = Ok registry' ->
         registry = registry')
  /\ (forall registry result result',
         outcome (collectTags host fs registry config) = Ok result ->
         outcome (collectTags host fs registry config') = Ok result' ->
         result = result').
Proof.
  intros Hu.
  assert (Hone : forall markdownPath articlePath a a',
             outcome (collectArticle host fs markdownPath articlePath config) = Ok a ->
             outcome (collectArticle host fs markdownPath articlePath config') = Ok a' ->
             a = a').
  { intros mp ap a a' Ha Ha'. apply collectArticle_Ok in Ha, Ha'.
    destruct Ha as (ast & fm & Hr & ->). destruct Ha' as (ast' & fm' & Hr' & ->).
    destruct (reads_functional Hr Hr') as [<- <-].
    unfold assembled. now rewrite Hu. }
  split; [exact Hone|]. split.
  - intros registry registry' H H'.
    pose proof (proj1 (collectArticles_Ok _ _ _ H)) as Hx.
    rewrite (@collectArticles_outcome host fs config Hx) in H.
    rewrite (@collectArticles_outcome host fs config' Hx) in H'.
    destruct (outcome (for_of _ _ _)) as [r|e] eqn:E in H; [|discriminate].
    destruct (outcome (for_of _ _ _)) as [r'|e] eqn:E' in H'; [|discriminate].
    injection H as <-. injection H' as <-.
    enough (r = r') as -> by reflexivity.
    revert E E'. apply for_of_agree. clear - Hone.
    intros acc p r r'. rewrite !outcome_bind.
    destruct (outcome (collectArticle host fs p _ config)) as [a|e] eqn:E;
      [|discriminate].
    destruct (outcome (collectArticle host fs p _ config')) as [a'|e] eqn:E';
      [|discriminate].
    intros [= <-] [= <-]. now rewrite (Hone _ _ _ _ E E').
  - intros registry result result' H H'.
    apply collectTags_Ok in H, H'. destruct H as [Hm Ht], H' as [Hm' Ht'].
    assert (Hs : tags result = tags result').
    { revert Ht Ht'. apply for_of_agree. clear - Hone.
      intros acc key r r'. rewrite !tag_turn_outcome. unfold tag_entry.
      destruct (fs_exists fs (tag_page host key)); [|congruence].
      destruct (outcome (collectArticle host fs _ _ config)) as [a|e] eqn:E;
        [|discriminate].
      destruct (outcome (collectArticle host fs _ _ config')) as [a'|e] eqn:E';
        [|discriminate].
      intros [= <-] [= <-]. now rewrite (Hone _ _ _ _ E E'). }
    destruct result, result'. simpl in *. congruence.
Qed.

Lemma collection_ignores_dumps_witness :
  exists registry,
    outcome (collectArticles Examples.host Examples.site_go Sample.config) = Ok registry
    /\ outcome (collectArticles Examples.host Examples.site_go debug) = Ok registry.
Proof.
  destruct (outcome (collectArticles Examples.host Examples.site_go Sample.config))
    as [registry|e] eqn:E; [|vm_compute in E; discriminate].
  destruct (outcome (collectArticles Examples.host Examples.site_go debug))
    as [registry'|e] eqn:E'; [|vm_compute in E'; discriminate].
  destruct (@collection_ignores_dumps Examples.host Examples.site_go Sample.config debug
              eq_refl) as (_ & H & _).
  exists registry. split; [reflexivity|]. now rewrite (H _ _ E E').
Defined.

(* ------------------------------------------------------------------ *)
(** ** The run *)


Section CollectFailures.
Context (host : Host) (fs : FileSystem).





End CollectFailures.



